(** * rtmp2sink / rtmp2src: a shallow embedding of the publish and play adapters

    The development follows [gst/rtmp2/gstrtmp2sink.c] and
    [gst/rtmp2/gstrtmp2src.c].  C integers are [Z] with their wrap-around
    written out, buffers are lists of bytes, the element instances are
    records threaded through the functions, and [NULL]-able pointers are
    options. *)

From Stdlib Require Import ZArith List Bool Lia String Ascii.
From Stdlib Require Import Strings.Byte.
From Stdlib Require Import Sorting.Sorted.
Import ListNotations.

Local Open Scope Z_scope.

(** ** Machine integers *)

Definition wrap64 (x : Z) : Z := x mod 2 ^ 64.
Definition wrap32 (x : Z) : Z := x mod 2 ^ 32.

Definition G_MAXINT32 : Z := 2147483647.
Definition G_MAXUINT32 : Z := 4294967295.
Definition GST_MSECOND : Z := 1000000.
Definition GST_CLOCK_TIME_NONE : Z := 2 ^ 64 - 1.

(** ** Bytes and the GStreamer byte readers and writers *)

Definition u8 (b : byte) : Z := Z.of_N (Byte.to_N b).

Definition byte_of_Z (z : Z) : byte :=
  match Byte.of_N (Z.to_N (z mod 256)) with
  | Some b => b
  | None => x00
  end.

Definition GST_READ_UINT8 (data : list byte) (off : nat) : Z :=
  u8 (nth off data x00).

Definition GST_READ_UINT24_BE (data : list byte) (off : nat) : Z :=
  Z.lor (Z.shiftl (GST_READ_UINT8 data off) 16)
    (Z.lor (Z.shiftl (GST_READ_UINT8 data (off + 1)) 8)
       (GST_READ_UINT8 data (off + 2))).

Definition GST_WRITE_UINT8 (v : Z) : list byte := [byte_of_Z v].

Definition GST_WRITE_UINT24_BE (v : Z) : list byte :=
  [byte_of_Z (Z.shiftr v 16); byte_of_Z (Z.shiftr v 8); byte_of_Z v].

Definition GST_WRITE_UINT32_BE (v : Z) : list byte :=
  [byte_of_Z (Z.shiftr v 24); byte_of_Z (Z.shiftr v 16);
   byte_of_Z (Z.shiftr v 8); byte_of_Z v].

(** [memcmp (a, b, n) == 0] *)
Definition memcmp_eq (a b : list byte) (n : nat) : bool :=
  if list_eq_dec Byte.byte_eq_dec (firstn n a) (firstn n b) then true else false.

Definition FLV_signature : list byte := [x46; x4c; x56].

(** ** Buffers, RTMP metadata, messages *)

(** Message type tags of [rtmp/rtmpmessage.h] used by the two elements;
    the values are the type ids of the RTMP wire protocol. *)
Definition GST_RTMP_MESSAGE_TYPE_AUDIO : Z := 8.
Definition GST_RTMP_MESSAGE_TYPE_VIDEO : Z := 9.
Definition GST_RTMP_MESSAGE_TYPE_DATA_AMF0 : Z := 18.

Record GstRtmpMeta := {
  meta_cstream : Z;
  meta_ts_delta : Z;
  meta_size : Z;
  meta_type : Z;
  meta_mstream : Z
}.

(** A [GstBuffer]: the HEADER flag, whether its memory can be mapped for
    reading, its bytes, its decoding timestamp and the RTMP meta attached
    to it, if any. *)
Record GstBuffer := {
  buf_flag_header : bool;
  buf_readable : bool;
  buf_data : list byte;
  buf_dts : Z;
  buf_meta : option GstRtmpMeta
}.

Record GstMapInfo := {
  info_data : list byte;
  info_size : Z
}.

Definition gst_buffer_map (buffer : GstBuffer) : option GstMapInfo :=
  if buf_readable buffer
  then Some {| info_data := buf_data buffer;
               info_size := Z.of_nat (List.length (buf_data buffer)) |}
  else None.

(** Modelled from the spec: [gst_rtmp_message_new] of [rtmp/rtmpmessage.c]
    is not among the sources.  A Message has a type tag, a chunk-stream
    id, a message-stream id, a timestamp and payload bytes; a new one has
    an empty payload and no timestamp yet. *)
Definition gst_rtmp_message_new (type cstream mstream : Z) : GstBuffer :=
  {| buf_flag_header := false;
     buf_readable := true;
     buf_data := [];
     buf_dts := GST_CLOCK_TIME_NONE;
     buf_meta := Some {| meta_cstream := cstream; meta_ts_delta := 0;
                         meta_size := 0; meta_type := type;
                         meta_mstream := mstream |} |}.

Definition with_data (b : GstBuffer) (d : list byte) : GstBuffer :=
  {| buf_flag_header := buf_flag_header b; buf_readable := buf_readable b;
     buf_data := d; buf_dts := buf_dts b; buf_meta := buf_meta b |}.

Definition with_dts (b : GstBuffer) (t : Z) : GstBuffer :=
  {| buf_flag_header := buf_flag_header b; buf_readable := buf_readable b;
     buf_data := buf_data b; buf_dts := t; buf_meta := buf_meta b |}.

(** the bytes [offset, offset + size) of a buffer *)
Definition region (data : list byte) (offset size : Z) : list byte :=
  firstn (Z.to_nat size) (skipn (Z.to_nat offset) data).

Definition gst_buffer_append_region (buf1 buf2 : GstBuffer) (offset size : Z)
  : GstBuffer :=
  with_data buf1 (buf_data buf1 ++ region (buf_data buf2) offset size).

Definition gst_buffer_prepend_memory (buffer : GstBuffer) (mem : list byte)
  : GstBuffer :=
  with_data buffer (mem ++ buf_data buffer).

Definition gst_buffer_append_memory (buffer : GstBuffer) (mem : list byte)
  : GstBuffer :=
  with_data buffer (buf_data buffer ++ mem).

Inductive GstFlowReturn :=
| GST_FLOW_OK
| GST_FLOW_EOS
| GST_FLOW_FLUSHING
| GST_FLOW_ERROR.

(** ** GLib: errors, cancellables and tasks *)

Inductive GQuark := G_IO_ERROR | G_OTHER_DOMAIN (name : string).

Inductive GIOErrorEnum :=
| G_IO_ERROR_FAILED
| G_IO_ERROR_EXISTS
| G_IO_ERROR_PERMISSION_DENIED
| G_IO_ERROR_CANCELLED
| G_IO_ERROR_CONNECTION_REFUSED
| G_IO_ERROR_OTHER (code : Z).

Record GError := {
  error_domain : GQuark;
  error_code : GIOErrorEnum;
  error_message : string
}.

Definition GQuark_eqb (a b : GQuark) : bool :=
  match a, b with
  | G_IO_ERROR, G_IO_ERROR => true
  | G_OTHER_DOMAIN x, G_OTHER_DOMAIN y => String.eqb x y
  | _, _ => false
  end.

Definition GIOErrorEnum_eqb (a b : GIOErrorEnum) : bool :=
  match a, b with
  | G_IO_ERROR_FAILED, G_IO_ERROR_FAILED => true
  | G_IO_ERROR_EXISTS, G_IO_ERROR_EXISTS => true
  | G_IO_ERROR_PERMISSION_DENIED, G_IO_ERROR_PERMISSION_DENIED => true
  | G_IO_ERROR_CANCELLED, G_IO_ERROR_CANCELLED => true
  | G_IO_ERROR_CONNECTION_REFUSED, G_IO_ERROR_CONNECTION_REFUSED => true
  | G_IO_ERROR_OTHER x, G_IO_ERROR_OTHER y => x =? y
  | _, _ => false
  end.

(** [g_error_matches]: FALSE on a NULL error *)
Definition g_error_matches (error : option GError) (domain : GQuark)
  (code : GIOErrorEnum) : bool :=
  match error with
  | None => false
  | Some e => GQuark_eqb (error_domain e) domain
              && GIOErrorEnum_eqb (error_code e) code
  end.

Definition new_error (code : GIOErrorEnum) (msg : string) : GError :=
  {| error_domain := G_IO_ERROR; error_code := code; error_message := msg |}.

Definition cancelled_error : GError :=
  new_error G_IO_ERROR_CANCELLED "Operation was cancelled".

(** A [GCancellable] is identified by its address; [cancelled] is its
    state when the function that inspects it runs. *)
Record GCancellable := {
  cancellable_id : Z;
  cancelled : bool
}.

(** Modelled from the spec: [rtmp/rtmpconnection.c] is not among the
    sources.  A Connection owns an ordered outbound queue of Messages;
    [gst_rtmp_connection_queue_message] appends to it and
    [gst_rtmp_connection_get_num_queued] is its depth. *)
Record GstRtmpConnection := {
  output_queue : list GstBuffer
}.

Definition gst_rtmp_connection_queue_message (c : GstRtmpConnection)
  (m : GstBuffer) : GstRtmpConnection :=
  {| output_queue := output_queue c ++ [m] |}.

Definition gst_rtmp_connection_get_num_queued (c : GstRtmpConnection) : Z :=
  Z.of_nat (List.length (output_queue c)).

(** Modelled from the spec: the write path of [rtmp/rtmpconnection.c] is
    not among the sources.  A confirmed-sent notification: the
    connection has sent the message at the head of its outbound queue,
    which leaves the queue and lowers the depth by one, and then calls
    the output handler it was given. *)
Definition gst_rtmp_connection_message_sent (c : GstRtmpConnection)
  : GstRtmpConnection :=
  {| output_queue := tl (output_queue c) |}.

Inductive GTaskResult :=
| TaskPointer (c : option GstRtmpConnection)
| TaskError (e : GError).

(** A [GTask] of the connect sequence: its cancellable, the task data
    (the connection while the sequence runs) and its result once it has
    returned. *)
Record GTask := {
  task_cancellable : GCancellable;
  task_data : option GstRtmpConnection;
  task_result : option GTaskResult
}.

Definition g_task_set_task_data (t : GTask) (d : option GstRtmpConnection)
  : GTask :=
  {| task_cancellable := task_cancellable t; task_data := d;
     task_result := task_result t |}.

Definition g_task_return (t : GTask) (r : GTaskResult) : GTask :=
  {| task_cancellable := task_cancellable t; task_data := task_data t;
     task_result := Some r |}.

Definition g_task_return_pointer (t : GTask) (c : option GstRtmpConnection)
  : GTask :=
  g_task_return t (TaskPointer c).

Definition g_task_return_error (t : GTask) (e : GError) : GTask :=
  g_task_return t (TaskError e).

Definition g_task_return_new_error (t : GTask) (code : GIOErrorEnum)
  (msg : string) : GTask :=
  g_task_return_error t (new_error code msg).

(** [g_task_return_error_if_cancelled]: when the task's cancellable has
    been cancelled the task returns the cancellation error and the call
    answers TRUE. *)
Definition g_task_return_error_if_cancelled (t : GTask) : bool * GTask :=
  if cancelled (task_cancellable t)
  then (true, g_task_return_error t cancelled_error)
  else (false, t).

(** [g_task_propagate_pointer]: a task checks its cancellable first (the
    check-cancellable flag is set by default and neither element clears
    it) and then reports the cancellation error whatever it returned. *)
Definition g_task_propagate_pointer (t : GTask)
  : option GstRtmpConnection * option GError :=
  if cancelled (task_cancellable t) then (None, Some cancelled_error)
  else match task_result t with
       | Some (TaskPointer c) => (c, None)
       | Some (TaskError e) => (None, Some e)
       | None => (None, None)
       end.

(** [g_str_equal] is [strcmp (v1, v2) == 0]: it reads both strings, so a
    NULL first argument is a NULL pointer dereference, [None] here. *)
Definition g_str_equal (v1 : option string) (v2 : string) : option bool :=
  match v1 with
  | None => None
  | Some s => Some (String.eqb s v2)
  end.

(** Errors an element posts on the bus with [GST_ELEMENT_ERROR], all in
    the RESOURCE domain. *)
Inductive GstResourceError :=
| GST_RESOURCE_ERROR_FAILED
| GST_RESOURCE_ERROR_OPEN_READ
| GST_RESOURCE_ERROR_WRITE
| GST_RESOURCE_ERROR_NOT_AUTHORIZED.

(** ** AMF nodes *)

Inductive GstAmfType :=
| GST_AMF_TYPE_INVALID
| GST_AMF_TYPE_NUMBER
| GST_AMF_TYPE_BOOLEAN
| GST_AMF_TYPE_STRING
| GST_AMF_TYPE_OBJECT
| GST_AMF_TYPE_NULL
| GST_AMF_TYPE_UNDEFINED
| GST_AMF_TYPE_ECMA_ARRAY
| GST_AMF_TYPE_STRICT_ARRAY
| GST_AMF_TYPE_LONG_STRING.

(** Modelled from the spec: [rtmp/amf.c] is not among the sources.  A
    command argument is a value of a self-describing object notation; an
    object is an ordered list of named fields. *)
#[warnings="-register-all"] Inductive GstAmfNode :=
| AmfNumber (v : Z)
| AmfBoolean (b : bool)
| AmfString (s : string)
| AmfObject (fields : list (string * GstAmfNode))
| AmfNull
| AmfUndefined
| AmfEcmaArray (fields : list (string * GstAmfNode))
| AmfStrictArray (elems : list GstAmfNode)
| AmfLongString (s : string).

Definition gst_amf_node_get_type (node : GstAmfNode) : GstAmfType :=
  match node with
  | AmfNumber _ => GST_AMF_TYPE_NUMBER
  | AmfBoolean _ => GST_AMF_TYPE_BOOLEAN
  | AmfString _ => GST_AMF_TYPE_STRING
  | AmfObject _ => GST_AMF_TYPE_OBJECT
  | AmfNull => GST_AMF_TYPE_NULL
  | AmfUndefined => GST_AMF_TYPE_UNDEFINED
  | AmfEcmaArray _ => GST_AMF_TYPE_ECMA_ARRAY
  | AmfStrictArray _ => GST_AMF_TYPE_STRICT_ARRAY
  | AmfLongString _ => GST_AMF_TYPE_LONG_STRING
  end.

Fixpoint lookup_field (fields : list (string * GstAmfNode)) (name : string)
  : option GstAmfNode :=
  match fields with
  | [] => None
  | (n, v) :: rest => if String.eqb n name then Some v else lookup_field rest name
  end.

(** the first field of that name, NULL when there is none *)
Definition gst_amf_node_get_field (node : GstAmfNode) (name : string)
  : option GstAmfNode :=
  match node with
  | AmfObject fields | AmfEcmaArray fields => lookup_field fields name
  | _ => None
  end.

(** the characters of a string node, NULL for a node of another type *)
Definition gst_amf_node_peek_string (node : GstAmfNode) : option string :=
  match node with
  | AmfString s => Some s
  | _ => None
  end.

Definition g_cancellable_cancel (c : GCancellable) : GCancellable :=
  {| cancellable_id := cancellable_id c; cancelled := true |}.

Definition task_cancel (t : GTask) : GTask :=
  {| task_cancellable := g_cancellable_cancel (task_cancellable t);
     task_data := task_data t; task_result := task_result t |}.

(** What a callback of the connect sequence leaves behind: the task has
    returned, or commands were sent and the task waits for the reply. *)
Inductive TaskStep :=
| TaskDone (t : GTask)
| TaskPending (t : GTask) (commands : list string).

(** a pointer is not NULL *)
Definition is_some {A} (o : option A) : bool :=
  match o with Some _ => true | None => false end.

(** * The publish adapter, [gstrtmp2sink.c] *)

Module Sink.

Record GstRtmp2Sink := {
  running : bool;
  flushing : bool;
  task_main_loop : bool;
  headers : list GstBuffer;
  last_ts : Z;
  base_ts : Z;
  connect_task : option GTask;
  connection : option GstRtmpConnection;
  posted : list GstResourceError
}.

Definition set_ts (self : GstRtmp2Sink) (last base : Z) : GstRtmp2Sink :=
  {| running := running self; flushing := flushing self;
     task_main_loop := task_main_loop self; headers := headers self;
     last_ts := last; base_ts := base;
     connect_task := connect_task self; connection := connection self;
     posted := posted self |}.

Definition set_flushing (self : GstRtmp2Sink) (f : bool) : GstRtmp2Sink :=
  {| running := running self; flushing := f;
     task_main_loop := task_main_loop self; headers := headers self;
     last_ts := last_ts self; base_ts := base_ts self;
     connect_task := connect_task self; connection := connection self;
     posted := posted self |}.

Definition set_queue (self : GstRtmp2Sink) (h : list GstBuffer)
  (c : option GstRtmpConnection) : GstRtmp2Sink :=
  {| running := running self; flushing := flushing self;
     task_main_loop := task_main_loop self; headers := h;
     last_ts := last_ts self; base_ts := base_ts self;
     connect_task := connect_task self; connection := c;
     posted := posted self |}.

Definition set_connect (self : GstRtmp2Sink) (t : option GTask)
  (c : option GstRtmpConnection) (p : list GstResourceError) : GstRtmp2Sink :=
  {| running := running self; flushing := flushing self;
     task_main_loop := task_main_loop self; headers := headers self;
     last_ts := last_ts self; base_ts := base_ts self;
     connect_task := t; connection := c; posted := p |}.

Definition GST_ELEMENT_ERROR (self : GstRtmp2Sink) (e : GstResourceError)
  : GstRtmp2Sink :=
  set_connect self (connect_task self) (connection self) (posted self ++ [e]).

(** the instance [gst_rtmp2_sink_init] leaves: zeroed, with an empty
    array of stream headers *)
Definition gst_rtmp2_sink_init : GstRtmp2Sink :=
  {| running := false; flushing := false; task_main_loop := false;
     headers := []; last_ts := 0; base_ts := 0;
     connect_task := None; connection := None; posted := [] |}.

Definition gst_rtmp2_sink_start (self : GstRtmp2Sink) : GstRtmp2Sink :=
  {| running := true; flushing := flushing self;
     task_main_loop := task_main_loop self; headers := headers self;
     last_ts := 0; base_ts := 0;
     connect_task := connect_task self; connection := connection self;
     posted := posted self |}.

Definition gst_rtmp2_sink_unlock (self : GstRtmp2Sink) : GstRtmp2Sink :=
  set_flushing self true.

Definition gst_rtmp2_sink_unlock_stop (self : GstRtmp2Sink) : GstRtmp2Sink :=
  set_flushing self false.

(** The timestamp fixup of [buffer_to_message]: every quantity is a
    [guint64], so each sum and difference wraps at 2^64.  Answers the
    element with its new [base_ts] and [last_ts], and the timestamp. *)
Definition timestamp_fixup (self : GstRtmp2Sink) (timestamp : Z)
  : GstRtmp2Sink * Z :=
  let '(base, timestamp) :=
    if wrap64 (wrap64 (timestamp + base_ts self) + G_MAXINT32) <? last_ts self
    then
      (wrap64 (wrap64 (base_ts self + G_MAXUINT32) + 1), timestamp)
    else if wrap64 (timestamp + base_ts self)
            >? wrap64 (last_ts self + G_MAXINT32)
    then
      if base_ts self >? 0
      then (wrap64 (wrap64 (base_ts self - G_MAXUINT32) - 1), timestamp)
      else (base_ts self, 0)
    else (base_ts self, timestamp) in
  let timestamp := wrap64 (timestamp + base) in
  (set_ts self timestamp base, timestamp).

(** the chunk stream of a tag type; [None] is the [default:] case *)
Definition cstream_of_type (type : Z) : option Z :=
  if type =? GST_RTMP_MESSAGE_TYPE_DATA_AMF0 then Some 4
  else if type =? GST_RTMP_MESSAGE_TYPE_AUDIO then Some 5
  else if type =? GST_RTMP_MESSAGE_TYPE_VIDEO then Some 6
  else None.

(** the [@setDataFrame] string put in front of script data *)
Definition setDataFrame_header : list byte :=
  [x02; x00; x0d; x40; x73; x65; x74; x44;
   x61; x74; x61; x46; x72; x61; x6d; x65].

(** [buffer_to_message]: [None] is FALSE, [Some None] is TRUE with
    [*outbuf = NULL], [Some (Some m)] is TRUE with [*outbuf = m]. *)
Definition buffer_to_message (self : GstRtmp2Sink) (buffer : GstBuffer)
  : GstRtmp2Sink * option (option GstBuffer) :=
  match gst_buffer_map buffer with
  | None => (self, None)
  | Some info =>
    if (info_size info >=? 4) && memcmp_eq (info_data info) FLV_signature 3
    then (self, Some None)
    else if info_size info <? 11 + 4
    then (self, None)
    else
      let payload_offset := 11 in
      let payload_size := info_size info - 11 - 4 in
      let type := GST_READ_UINT8 (info_data info) 0 in
      let timestamp := GST_READ_UINT24_BE (info_data info) 4 in
      let timestamp :=
        Z.lor timestamp
          (wrap32 (Z.shiftl (GST_READ_UINT8 (info_data info) 7) 24)) in
      let '(self, timestamp) := timestamp_fixup self timestamp in
      match cstream_of_type type with
      | None => (self, None)
      | Some cstream =>
        let message := gst_rtmp_message_new type cstream 1 in
        let message :=
          gst_buffer_append_region message buffer payload_offset payload_size in
        let message := with_dts message (wrap64 (timestamp * GST_MSECOND)) in
        let message :=
          if type =? GST_RTMP_MESSAGE_TYPE_DATA_AMF0
          then gst_buffer_prepend_memory message setDataFrame_header
          else message in
        (self, Some (Some message))
      end
  end.

Definition should_drop_header (self : GstRtmp2Sink) (buffer : GstBuffer)
  : bool :=
  if negb (buf_flag_header buffer) then false
  else Z.of_nat (List.length (headers self)) >? 0.

Definition queue_message (self : GstRtmp2Sink) (m : GstBuffer) : GstRtmp2Sink :=
  match connection self with
  | Some c =>
    set_queue self (headers self)
      (Some (gst_rtmp_connection_queue_message c m))
  | None => self
  end.

(** queues the stream headers in order and empties the array *)
Definition send_streamheader (self : GstRtmp2Sink) : GstRtmp2Sink :=
  if Z.of_nat (List.length (headers self)) =? 0 then self
  else
    let self' := fold_left queue_message (headers self) self in
    set_queue self' [] (connection self').

(** [send_message] waits on the condition variable in two loops.  A call
    either returns, or is suspended in [g_cond_wait] at one of them;
    when it is woken it evaluates the condition of that loop again. *)
Inductive SendPoint := WaitConnection | WaitQueue.

Inductive SendResult :=
| SendReturn (ret : GstFlowReturn)
| SendSuspended (at_loop : SendPoint).

Definition queue_too_deep (self : GstRtmp2Sink) : bool :=
  match connection self with
  | Some c => gst_rtmp_connection_get_num_queued c >? 3
  | None => false
  end.

Definition send_message_from (p : SendPoint) (self : GstRtmp2Sink)
  (message : GstBuffer) : GstRtmp2Sink * SendResult :=
  let after_loops :=
    if negb (flushing self) && queue_too_deep self
    then (self, SendSuspended WaitQueue)
    else if flushing self then (self, SendReturn GST_FLOW_FLUSHING)
    else if negb (is_some (connection self))
    then (self, SendReturn GST_FLOW_ERROR)
    else
      let self := send_streamheader self in
      (queue_message self message, SendReturn GST_FLOW_OK) in
  match p with
  | WaitConnection =>
    if negb (flushing self) && negb (is_some (connection self))
       && is_some (connect_task self)
    then (self, SendSuspended WaitConnection)
    else after_loops
  | WaitQueue => after_loops
  end.

Definition send_message := send_message_from WaitConnection.

(** [put_chunk], the output handler the sink gives its connection: it
    takes the lock and signals the condition.  The element is left as
    it is; the call of [send_message] that waits on the condition, if
    there is one, is woken and goes on from its loop. *)
Definition put_chunk (self : GstRtmp2Sink)
  (waiting : option (SendPoint * GstBuffer))
  : GstRtmp2Sink * option SendResult :=
  match waiting with
  | None => (self, None)
  | Some (p, message) =>
    let '(self, r) := send_message_from p self message in
    (self, Some r)
  end.

Definition gst_rtmp2_sink_render (self : GstRtmp2Sink) (buffer : GstBuffer)
  : GstRtmp2Sink * SendResult :=
  if should_drop_header self buffer then (self, SendReturn GST_FLOW_OK)
  else
    match buffer_to_message self buffer with
    | (self, None) => (self, SendReturn GST_FLOW_ERROR)
    | (self, Some None) => (self, SendReturn GST_FLOW_OK)
    | (self, Some (Some message)) => send_message self message
    end.

(** *** The connect sequence *)

Definition client_connect_done (task : GTask)
  (connect_finish : GstRtmpConnection + GError) : TaskStep :=
  match connect_finish with
  | inr error => TaskDone (g_task_return_error task error)
  | inl connection =>
    let task := g_task_set_task_data task (Some connection) in
    let '(is_cancelled, task) := g_task_return_error_if_cancelled task in
    if is_cancelled then TaskDone task
    else (* send_create_stream *)
      TaskPending task ["releaseStream"; "FCPublish"; "createStream"]%string
  end.

Definition create_stream_done (task : GTask) (args : option (list GstAmfNode))
  : TaskStep :=
  let '(is_cancelled, task) := g_task_return_error_if_cancelled task in
  if is_cancelled then TaskDone task
  else
    let failed :=
      match args with
      | None => true
      | Some a => Z.of_nat (List.length a) <? 2
      end in
    if failed
    then TaskDone (g_task_return_new_error task G_IO_ERROR_FAILED
                     "createStream failed")
    else
      let '(is_cancelled, task) := g_task_return_error_if_cancelled task in
      if is_cancelled then TaskDone task
      else (* send_publish *) TaskPending task ["publish"]%string.

Definition GST_STR_NULL (s : option string) : string :=
  match s with Some s => s | None => "(NULL)" end.

(** What [publish_done] does to the task: the task returns, or the
    callback passes a NULL string to [g_str_equal]. *)
Inductive PublishResult :=
| PublishResolved (t : GTask)
| PublishNullDereference.

Definition publish_done (task : GTask) (args : option (list GstAmfNode))
  : PublishResult :=
  let connection := task_data task in
  let '(is_cancelled, task) := g_task_return_error_if_cancelled task in
  if is_cancelled then PublishResolved task
  else
    match args with
    | None =>
      PublishResolved
        (g_task_return_new_error task G_IO_ERROR_FAILED "publish failed")
    | Some args =>
      if Z.of_nat (List.length args) <? 1
      then PublishResolved
             (g_task_return_new_error task G_IO_ERROR_FAILED "publish failed")
      else
        let optional_args :=
          if Z.of_nat (List.length args) >? 1 then nth_error args 1 else None in
        let finish (t : GTask) :=
          PublishResolved (g_task_set_task_data t None) in
        let optional_args_type :=
          match optional_args with
          | Some n => gst_amf_node_get_type n
          | None => GST_AMF_TYPE_INVALID
          end in
        match optional_args_type, optional_args with
        | GST_AMF_TYPE_OBJECT, Some optional_args =>
          let node := gst_amf_node_get_field optional_args "code" in
          let code :=
            match node with
            | Some n => gst_amf_node_peek_string n
            | None => None
            end in
          match g_str_equal code "NetStream.Publish.Start" with
          | None => PublishNullDereference
          | Some true => finish (g_task_return_pointer task connection)
          | Some false =>
            match g_str_equal code "NetStream.Publish.BadName" with
            | None => PublishNullDereference
            | Some true =>
              finish (g_task_return_new_error task G_IO_ERROR_EXISTS
                        ("Stream already exists! (" ++ GST_STR_NULL code ++ ")"))
            | Some false =>
              match g_str_equal code "NetStream.Publish.Denied" with
              | None => PublishNullDereference
              | Some true =>
                finish (g_task_return_new_error task
                          G_IO_ERROR_PERMISSION_DENIED
                          ("Publish denied! (" ++ GST_STR_NULL code ++ ")"))
              | Some false =>
                finish (g_task_return_new_error task G_IO_ERROR_FAILED
                          ("unhandled publish result code: "
                           ++ GST_STR_NULL code))
              end
            end
          end
        | _, _ =>
          finish (g_task_return_new_error task G_IO_ERROR_FAILED
                    "publish failed")
        end
    end.

Definition connection_error (self : GstRtmp2Sink) : GstRtmp2Sink :=
  match connect_task self with
  | Some t =>
    set_connect self (Some (task_cancel t)) (connection self) (posted self)
  | None =>
    if task_main_loop self
    then GST_ELEMENT_ERROR self GST_RESOURCE_ERROR_WRITE
    else self
  end.

Definition gst_rtmp2_sink_stop (self : GstRtmp2Sink) : GstRtmp2Sink :=
  {| running := false; flushing := flushing self;
     task_main_loop := task_main_loop self; headers := headers self;
     last_ts := last_ts self; base_ts := base_ts self;
     connect_task := option_map task_cancel (connect_task self);
     connection := connection self; posted := posted self |}.

Definition connect_task_done (self : GstRtmp2Sink) (task : GTask)
  : GstRtmp2Sink :=
  let '(connection, error) := g_task_propagate_pointer task in
  let self := set_connect self None connection (posted self) in
  if is_some connection then self
  else if g_error_matches error G_IO_ERROR G_IO_ERROR_PERMISSION_DENIED
  then GST_ELEMENT_ERROR self GST_RESOURCE_ERROR_NOT_AUTHORIZED
  else if g_error_matches error G_IO_ERROR G_IO_ERROR_CONNECTION_REFUSED
  then GST_ELEMENT_ERROR self GST_RESOURCE_ERROR_OPEN_READ
  else if negb (g_error_matches error G_IO_ERROR G_IO_ERROR_CANCELLED)
  then GST_ELEMENT_ERROR self GST_RESOURCE_ERROR_FAILED
  else self.

(** *** Stream headers from the caps, and the connect task *)

(** [g_ptr_array_add (self->headers, message)] *)
Definition add_header (self : GstRtmp2Sink) (message : GstBuffer)
  : GstRtmp2Sink :=
  set_queue self (headers self ++ [message]) (connection self).

(** The loop of [gst_rtmp2_sink_set_caps] over the buffers of the
    streamheader array: FALSE at the first buffer that cannot be
    converted, the FLV header skipped, every message added. *)
Fixpoint collect_streamheaders (self : GstRtmp2Sink)
  (streamheader : list GstBuffer) : GstRtmp2Sink * bool :=
  match streamheader with
  | [] => (self, true)
  | buffer :: rest =>
    match buffer_to_message self buffer with
    | (self, None) => (self, false)
    | (self, Some None) => collect_streamheaders self rest
    | (self, Some (Some message)) =>
      collect_streamheaders (add_header self message) rest
    end
  end.

(** [gst_rtmp2_sink_set_caps].  [caps_get_streamheader] answers NULL for
    caps that have no streamheader field, and the loop reads the length
    of the array through that pointer: [None] here. *)
Definition gst_rtmp2_sink_set_caps (self : GstRtmp2Sink)
  (streamheader : option (list GstBuffer)) : option (GstRtmp2Sink * bool) :=
  let self := set_queue self [] (connection self) in
  match streamheader with
  | None => None
  | Some buffers => Some (collect_streamheaders self buffers)
  end.

(** [new_connect]: a task with a cancellable of its own, [fresh] *)
Definition new_connect (self : GstRtmp2Sink) (fresh : Z) : GstRtmp2Sink :=
  set_connect self
    (Some {| task_cancellable :=
               {| cancellable_id := fresh; cancelled := false |};
             task_data := None; task_result := None |})
    (connection self) (posted self).

End Sink.

(** * The play adapter, [gstrtmp2src.c] *)

Module Src.

Record GstRtmp2Src := {
  running : bool;
  flushing : bool;
  loop : bool;
  cancellable : option GCancellable;
  connection : option GstRtmpConnection;
  stream_id : Z;
  message : option GstBuffer;
  sent_header : bool;
  last_ts : Z;
  posted : list GstResourceError
}.

Definition set_flushing (self : GstRtmp2Src) (f : bool) : GstRtmp2Src :=
  {| running := running self; flushing := f; loop := loop self;
     cancellable := cancellable self; connection := connection self;
     stream_id := stream_id self; message := message self;
     sent_header := sent_header self; last_ts := last_ts self;
     posted := posted self |}.

Definition set_message (self : GstRtmp2Src) (m : option GstBuffer)
  : GstRtmp2Src :=
  {| running := running self; flushing := flushing self; loop := loop self;
     cancellable := cancellable self; connection := connection self;
     stream_id := stream_id self; message := m;
     sent_header := sent_header self; last_ts := last_ts self;
     posted := posted self |}.

Definition set_last_ts (self : GstRtmp2Src) (ts : Z) : GstRtmp2Src :=
  {| running := running self; flushing := flushing self; loop := loop self;
     cancellable := cancellable self; connection := connection self;
     stream_id := stream_id self; message := message self;
     sent_header := sent_header self; last_ts := ts;
     posted := posted self |}.

Definition set_sent_header (self : GstRtmp2Src) (b : bool) : GstRtmp2Src :=
  {| running := running self; flushing := flushing self; loop := loop self;
     cancellable := cancellable self; connection := connection self;
     stream_id := stream_id self; message := message self;
     sent_header := b; last_ts := last_ts self;
     posted := posted self |}.

Definition set_connect (self : GstRtmp2Src) (cn : option GCancellable)
  (c : option GstRtmpConnection) : GstRtmp2Src :=
  {| running := running self; flushing := flushing self; loop := loop self;
     cancellable := cn; connection := c;
     stream_id := stream_id self; message := message self;
     sent_header := sent_header self; last_ts := last_ts self;
     posted := posted self |}.

Definition set_stream_id (self : GstRtmp2Src) (id : Z) : GstRtmp2Src :=
  {| running := running self; flushing := flushing self; loop := loop self;
     cancellable := cancellable self; connection := connection self;
     stream_id := id; message := message self;
     sent_header := sent_header self; last_ts := last_ts self;
     posted := posted self |}.

Definition GST_ELEMENT_ERROR (self : GstRtmp2Src) (e : GstResourceError)
  : GstRtmp2Src :=
  {| running := running self; flushing := flushing self; loop := loop self;
     cancellable := cancellable self; connection := connection self;
     stream_id := stream_id self; message := message self;
     sent_header := sent_header self; last_ts := last_ts self;
     posted := posted self ++ [e] |}.

(** the zeroed instance [gst_rtmp2_src_init] leaves *)
Definition gst_rtmp2_src_init : GstRtmp2Src :=
  {| running := false; flushing := false; loop := false;
     cancellable := None; connection := None; stream_id := 0;
     message := None; sent_header := false; last_ts := 0; posted := [] |}.

(** [fresh] is the cancellable [g_cancellable_new] allocates. *)
Definition gst_rtmp2_src_start (self : GstRtmp2Src) (fresh : Z) : GstRtmp2Src :=
  {| running := true; flushing := flushing self; loop := loop self;
     cancellable := Some {| cancellable_id := fresh; cancelled := false |};
     connection := connection self;
     stream_id := 0; message := message self;
     sent_header := false; last_ts := GST_CLOCK_TIME_NONE;
     posted := posted self |}.

Definition stop_task (self : GstRtmp2Src) : GstRtmp2Src :=
  {| running := false; flushing := flushing self; loop := loop self;
     cancellable := option_map g_cancellable_cancel (cancellable self);
     connection := connection self;
     stream_id := stream_id self; message := message self;
     sent_header := sent_header self; last_ts := last_ts self;
     posted := posted self |}.

Definition gst_rtmp2_src_stop := stop_task.

Definition gst_rtmp2_src_unlock (self : GstRtmp2Src) : GstRtmp2Src :=
  set_flushing self true.

Definition gst_rtmp2_src_unlock_stop (self : GstRtmp2Src) : GstRtmp2Src :=
  set_flushing self false.

Definition flv_header_data : list byte :=
  [x46; x4c; x56; x01; x01; x00; x00; x00;
   x09; x00; x00; x00; x00].

(** [gst_buffer_copy_region (message, GST_BUFFER_COPY_MEMORY, 0, -1)]:
    a new buffer with the memory of [message] and nothing else *)
Definition gst_buffer_copy_memory (message : GstBuffer) : GstBuffer :=
  {| buf_flag_header := false; buf_readable := true;
     buf_data := buf_data message; buf_dts := GST_CLOCK_TIME_NONE;
     buf_meta := None |}.

Definition tag_header (meta : GstRtmpMeta) (timestamp : Z) : list byte :=
  GST_WRITE_UINT8 (meta_type meta)
  ++ GST_WRITE_UINT24_BE (meta_size meta)
  ++ GST_WRITE_UINT24_BE timestamp
  ++ GST_WRITE_UINT8 (Z.shiftr timestamp 24)
  ++ GST_WRITE_UINT24_BE 0.

Definition tag_footer (meta : GstRtmpMeta) : list byte :=
  GST_WRITE_UINT32_BE (wrap32 (meta_size meta + 11)).

(** the [guint32] timestamp written into the tag *)
Definition tag_timestamp (message : GstBuffer) : Z :=
  if negb (buf_dts message =? GST_CLOCK_TIME_NONE)
  then wrap32 (buf_dts message / GST_MSECOND)
  else 0.

(** The FLV tag [gst_rtmp2_src_create] builds around a message: the 11
    byte tag header, the payload and the 4 byte footer. *)
Definition flv_tag (message : GstBuffer) (meta : GstRtmpMeta) : GstBuffer :=
  let buffer := gst_buffer_copy_memory message in
  let buffer :=
    gst_buffer_prepend_memory buffer (tag_header meta (tag_timestamp message)) in
  gst_buffer_append_memory buffer (tag_footer meta).

(** A call of [create] returns a flow and possibly a buffer, or waits
    on the condition variable for a message. *)
Inductive CreateResult :=
| CreateReturn (ret : GstFlowReturn) (outbuf : option GstBuffer)
| CreateWait.

Definition gst_rtmp2_src_create (self : GstRtmp2Src)
  : GstRtmp2Src * CreateResult :=
  match message self with
  | None =>
    if negb (running self) then (self, CreateReturn GST_FLOW_EOS None)
    else if flushing self then (self, CreateReturn GST_FLOW_FLUSHING None)
    else (self, CreateWait)
  | Some message =>
    let self := set_message self None in
    match buf_meta message with
    | None => (self, CreateReturn GST_FLOW_ERROR None)
    | Some meta =>
      let self :=
        if negb (buf_dts message =? GST_CLOCK_TIME_NONE)
        then set_last_ts self (buf_dts message)
        else self in
      let buffer := flv_tag message meta in
      if negb (sent_header self)
      then
        (set_sent_header self true,
         CreateReturn GST_FLOW_OK
           (Some (gst_buffer_prepend_memory buffer flv_header_data)))
      else (self, CreateReturn GST_FLOW_OK (Some buffer))
    end
  end.

(** How a call of [got_message] ends: a failed [g_return_if_fail], the
    message ignored, the message stored for [create], the wait for the
    pending message given up because the task stopped, or the call
    suspended in [g_cond_wait] until [create] takes the pending one. *)
Inductive GotResult :=
| GotCritical
| GotIgnored
| GotStored
| GotAborted
| GotWait.

(** the locked part of [got_message], entered again after each wake-up *)
Definition got_message_store (self : GstRtmp2Src) (buffer : GstBuffer)
  : GstRtmp2Src * GotResult :=
  match message self with
  | Some _ =>
    if negb (running self) then (self, GotAborted) else (self, GotWait)
  | None => (set_message self (Some buffer), GotStored)
  end.

Definition min_size_of_type (type : Z) : option Z :=
  if type =? GST_RTMP_MESSAGE_TYPE_VIDEO then Some 6
  else if type =? GST_RTMP_MESSAGE_TYPE_AUDIO then Some 2
  else if type =? GST_RTMP_MESSAGE_TYPE_DATA_AMF0 then Some 1
  else None.

Definition got_message (self : GstRtmp2Src) (buffer : GstBuffer)
  : GstRtmp2Src * GotResult :=
  match buf_meta buffer with
  | None => (self, GotCritical)
  | Some meta =>
    if negb (meta_mstream meta =? stream_id self) then (self, GotIgnored)
    else
      match min_size_of_type (meta_type meta) with
      | None => (self, GotIgnored)
      | Some min_size =>
        if meta_size meta <? min_size then (self, GotIgnored)
        else got_message_store self buffer
      end
  end.

Definition error_callback (self : GstRtmp2Src) : GstRtmp2Src :=
  match cancellable self with
  | Some c => set_connect self (Some (g_cancellable_cancel c)) (connection self)
  | None => if loop self then stop_task self else self
  end.

Definition GST_RTMP_USER_CONTROL_TYPE_STREAM_EOF : Z := 1.

Definition control_callback (self : GstRtmp2Src) (uc_type stream_id : Z)
  : GstRtmp2Src :=
  if (uc_type =? GST_RTMP_USER_CONTROL_TYPE_STREAM_EOF) && (stream_id =? 1)
  then stop_task self
  else self.

Definition send_connect_error (self : GstRtmp2Src) (error : option GError)
  : GstRtmp2Src :=
  match error with
  | None => GST_ELEMENT_ERROR self GST_RESOURCE_ERROR_FAILED
  | Some _ =>
    if g_error_matches error G_IO_ERROR G_IO_ERROR_CANCELLED then self
    else if g_error_matches error G_IO_ERROR G_IO_ERROR_PERMISSION_DENIED
    then GST_ELEMENT_ERROR self GST_RESOURCE_ERROR_NOT_AUTHORIZED
    else if g_error_matches error G_IO_ERROR G_IO_ERROR_CONNECTION_REFUSED
    then GST_ELEMENT_ERROR self GST_RESOURCE_ERROR_OPEN_READ
    else GST_ELEMENT_ERROR self GST_RESOURCE_ERROR_FAILED
  end.

Definition client_connect_done (task : GTask)
  (connect_finish : GstRtmpConnection + GError) : TaskStep :=
  match connect_finish with
  | inr error => TaskDone (g_task_return_error task error)
  | inl connection =>
    let task := g_task_set_task_data task (Some connection) in
    let '(is_cancelled, task) := g_task_return_error_if_cancelled task in
    if is_cancelled then TaskDone task
    else (* gst_rtmp_client_start_play_async *)
      TaskPending task ["play"]%string
  end.

(** [play_finish] is what [gst_rtmp_client_start_play_finish] answers:
    the stream id the server assigned, or an error. *)
Definition start_play_done (self : GstRtmp2Src) (task : GTask)
  (play_finish : Z + GError) : GstRtmp2Src * GTask :=
  let connection := task_data task in
  let '(is_cancelled, task) := g_task_return_error_if_cancelled task in
  if is_cancelled then (self, task)
  else
    match play_finish with
    | inl id =>
      (set_stream_id self id,
       g_task_set_task_data (g_task_return_pointer task connection) None)
    | inr error =>
      (self, g_task_set_task_data (g_task_return_error task error) None)
    end.

Definition connect_task_done (self : GstRtmp2Src) (task : GTask)
  : GstRtmp2Src :=
  let cn :=
    match cancellable self with
    | Some c =>
      if cancellable_id c =? cancellable_id (task_cancellable task)
      then None else Some c
    | None => None
    end in
  let '(connection, error) := g_task_propagate_pointer task in
  let self := set_connect self cn connection in
  if is_some connection then self
  else stop_task (send_connect_error self error).

(** the end of [gst_rtmp2_src_task_func], after the main loop has quit *)
Definition task_func_exit (self : GstRtmp2Src) : GstRtmp2Src :=
  {| running := running self; flushing := flushing self; loop := false;
     cancellable := cancellable self; connection := None;
     stream_id := stream_id self; message := None;
     sent_header := sent_header self; last_ts := last_ts self;
     posted := posted self |}.

(** *** Runs of a started element

    What can happen to the element between one [start] and the next:
    calls of [create] from the streaming thread, and callbacks and
    control calls from the other threads, in some interleaving. *)
Inductive Event :=
| EvCreate
| EvGotMessage (buffer : GstBuffer)
| EvGotMessageWoken (buffer : GstBuffer)
| EvUnlock
| EvUnlockStop
| EvStop
| EvErrorCallback
| EvControlCallback (uc_type stream_id : Z)
| EvStartPlayDone (task : GTask) (play_finish : Z + GError)
| EvConnectTaskDone (task : GTask)
| EvTaskFuncExit.

(** A step answers the new element and, when it was a [create] that
    returned a buffer, the message it took and the buffer it made. *)
Definition step (self : GstRtmp2Src) (ev : Event)
  : GstRtmp2Src * option (GstBuffer * GstBuffer) :=
  match ev with
  | EvCreate =>
    match gst_rtmp2_src_create self, message self with
    | (self', CreateReturn GST_FLOW_OK (Some outbuf)), Some m =>
      (self', Some (m, outbuf))
    | (self', _), _ => (self', None)
    end
  | EvGotMessage b => (fst (got_message self b), None)
  | EvGotMessageWoken b => (fst (got_message_store self b), None)
  | EvUnlock => (gst_rtmp2_src_unlock self, None)
  | EvUnlockStop => (gst_rtmp2_src_unlock_stop self, None)
  | EvStop => (gst_rtmp2_src_stop self, None)
  | EvErrorCallback => (error_callback self, None)
  | EvControlCallback t i => (control_callback self t i, None)
  | EvStartPlayDone t r => (fst (start_play_done self t r), None)
  | EvConnectTaskDone t => (connect_task_done self t, None)
  | EvTaskFuncExit => (task_func_exit self, None)
  end.

Fixpoint run (self : GstRtmp2Src) (evs : list Event)
  : GstRtmp2Src * list (GstBuffer * GstBuffer) :=
  match evs with
  | [] => (self, [])
  | ev :: rest =>
    let '(self', out) := step self ev in
    let '(self'', outs) := run self' rest in
    (self'', match out with Some o => o :: outs | None => outs end)
  end.

(** the FLV tag of a message that carries RTMP meta *)
Definition is_tag_of (message outbuf : GstBuffer) : Prop :=
  exists meta, buf_meta message = Some meta /\ outbuf = flv_tag message meta.

(** the same tag behind the 13 byte FLV header *)
Definition is_header_and_tag_of (message outbuf : GstBuffer) : Prop :=
  exists meta, buf_meta message = Some meta
    /\ outbuf = gst_buffer_prepend_memory (flv_tag message meta) flv_header_data.

End Src.

(** * Properties *)

(** ** Vocabulary of the statements *)

(** The timestamps the fixup of [buffer_to_message] gives, in order, to
    the 32-bit tag timestamps of successive buffers. *)
Fixpoint corrected_timestamps (self : Sink.GstRtmp2Sink) (l : list Z)
  : list Z :=
  match l with
  | [] => []
  | timestamp :: rest =>
    let '(self', out) := Sink.timestamp_fixup self timestamp in
    out :: corrected_timestamps self' rest
  end.

Definition is_uint32 (t : Z) : Prop := 0 <= t < 2 ^ 32.

(** The fixup state is within its working range: the base is a multiple
    of 2^32 below 2^63 and the last timestamp lies in the 2^32 window
    above it. *)
Definition fixup_state_ok (self : Sink.GstRtmp2Sink) : Prop :=
  0 <= Sink.base_ts self <= 2 ^ 63
  /\ (exists k, Sink.base_ts self = k * 2 ^ 32)
  /\ Sink.base_ts self <= Sink.last_ts self < Sink.base_ts self + 2 ^ 32.

(** A tag timestamp follows [prev] by an increase of less than 2^31, or
    by wrapping around: a drop of at least 2^31. *)
Definition steady_step (prev next : Z) : Prop :=
  prev <= next < prev + 2 ^ 31 \/ next + 2 ^ 31 <= prev.

Fixpoint steady (prev : Z) (l : list Z) : Prop :=
  match l with
  | [] => True
  | t :: rest => steady_step prev t /\ steady t rest
  end.

(** Each tag timestamp of the sequence follows its predecessor by a
    steady step. *)
Definition steady_sequence (l : list Z) : Prop :=
  match l with
  | [] => True
  | t :: rest => steady t rest
  end.

(** A sequence that increases and then wraps around: a non-decreasing
    run followed by a non-decreasing run that starts below the end of
    the first. *)
Definition increases_then_wraps (l : list Z) : Prop :=
  exists up top down_hd down,
    l = (up ++ [top]) ++ down_hd :: down
    /\ Sorted Z.le (up ++ [top])
    /\ Sorted Z.le (down_hd :: down)
    /\ down_hd < top.

(** The task returned by [publish_done] hands [connection] to
    [connect_task_done]. *)
Definition publish_succeeds (r : Sink.PublishResult)
  (connection : GstRtmpConnection) : Prop :=
  exists t, r = Sink.PublishResolved t
    /\ g_task_propagate_pointer t = (Some connection, None).

(** The task returned by [publish_done] hands a [G_IO_ERROR] of that
    code to [connect_task_done]. *)
Definition publish_fails (r : Sink.PublishResult) (code : GIOErrorEnum)
  : Prop :=
  exists t msg, r = Sink.PublishResolved t
    /\ g_task_propagate_pointer t = (None, Some (new_error code msg)).

(** A callback of the connect sequence has made the task return, and
    what the task hands over is the cancellation error. *)
Definition resolves_cancelled (s : TaskStep) (t : GTask) : Prop :=
  s = TaskDone t
  /\ cancelled (task_cancellable t) = true
  /\ g_task_propagate_pointer t = (None, Some cancelled_error).

(** The second argument of a command reply is missing or is not an
    object. *)
Definition no_status_object (args : option (list GstAmfNode)) : Prop :=
  match args with
  | None => True
  | Some a =>
    match nth_error a 1 with
    | None => True
    | Some n => gst_amf_node_get_type n <> GST_AMF_TYPE_OBJECT
    end
  end.

(** A task of the connect sequence whose cancellable is in the given
    state and which carries the connection. *)
Definition task_with (is_cancelled : bool) (c : option GstRtmpConnection)
  : GTask :=
  {| task_cancellable := {| cancellable_id := 1; cancelled := is_cancelled |};
     task_data := c; task_result := None |}.

Definition empty_connection : GstRtmpConnection := {| output_queue := [] |}.

(** the element after [init] and [start], with the fixup state given *)
Definition sink_at (last base : Z) : Sink.GstRtmp2Sink :=
  Sink.set_ts (Sink.gst_rtmp2_sink_start Sink.gst_rtmp2_sink_init) last base.

(** the state of the fixup after a sequence of tag timestamps *)
Fixpoint fixup_run (self : Sink.GstRtmp2Sink) (l : list Z)
  : Sink.GstRtmp2Sink :=
  match l with
  | [] => self
  | timestamp :: rest => fixup_run (fst (Sink.timestamp_fixup self timestamp)) rest
  end.

(** the arguments of an [onStatus] reply: the command object, here
    null, and the status object *)
Definition status_reply (code : string) : list GstAmfNode :=
  [AmfNull;
   AmfObject [("level"%string, AmfString "status");
              ("code"%string, AmfString code)]].

(** a buffer as it comes from upstream, with its bytes *)
Definition raw_buffer (header : bool) (data : list byte) : GstBuffer :=
  {| buf_flag_header := header; buf_readable := true; buf_data := data;
     buf_dts := GST_CLOCK_TIME_NONE; buf_meta := None |}.

(** the file header flvmux sends first, with its first back pointer *)
Definition flvmux_header : list byte :=
  [x46; x4c; x56; x01; x05; x00; x00; x00; x09; x00; x00; x00; x00].

(** an audio tag with a payload of two bytes *)
Definition audio_tag : list byte :=
  [x08; x00; x00; x02; x00; x00; x2a; x00; x00; x00; x00;
   xaf; x01;
   x00; x00; x00; x0d].

(** a script data tag with an empty payload *)
Definition script_tag : list byte :=
  [x12; x00; x00; x00; x00; x00; x00; x00; x00; x00; x00;
   x00; x00; x00; x0b].

(** a message as the connection delivers it on the play path *)
Definition play_message (type mstream size dts : Z) (payload : list byte)
  : GstBuffer :=
  {| buf_flag_header := false; buf_readable := true; buf_data := payload;
     buf_dts := dts;
     buf_meta := Some {| meta_cstream := 4; meta_ts_delta := 0;
                         meta_size := size; meta_type := type;
                         meta_mstream := mstream |} |}.

(** an audio message and a script data message of the publish path,
    without payload *)
Definition publish_audio : GstBuffer :=
  gst_rtmp_message_new GST_RTMP_MESSAGE_TYPE_AUDIO 5 1.

Definition publish_script : GstBuffer :=
  gst_rtmp_message_new GST_RTMP_MESSAGE_TYPE_DATA_AMF0 4 1.

(** the element once its connection has sent the message at the head of
    its queue *)
Definition message_sent (self : Sink.GstRtmp2Sink) : Sink.GstRtmp2Sink :=
  Sink.set_queue self (Sink.headers self)
    (option_map gst_rtmp_connection_message_sent (Sink.connection self)).

(** A confirmed-sent notification reaches the sink: the connection has
    sent one message and calls [put_chunk], which wakes the call of
    [send_message] that waits, if any. *)
Definition sent_notification (self : Sink.GstRtmp2Sink)
  (waiting : option (Sink.SendPoint * GstBuffer))
  : Sink.GstRtmp2Sink * option Sink.SendResult :=
  Sink.put_chunk (message_sent self) waiting.

(** ** Vocabulary of the further properties *)

(** The callbacks of the publish sequence, chained as the code registers
    them: [client_connect_done] sends createStream with
    [create_stream_done] as its callback, which sends publish and
    expects onStatus with [publish_done]. *)
Definition publish_sequence (task : GTask)
  (connect_finish : GstRtmpConnection + GError)
  (create_reply publish_reply : option (list GstAmfNode))
  : Sink.PublishResult :=
  match Sink.client_connect_done task connect_finish with
  | TaskDone t => Sink.PublishResolved t
  | TaskPending t _ =>
    match Sink.create_stream_done t create_reply with
    | TaskDone t => Sink.PublishResolved t
    | TaskPending t _ => Sink.publish_done t publish_reply
    end
  end.

(** The callbacks of the play sequence: [client_connect_done] starts
    the play with [start_play_done] as its callback. *)
Definition play_sequence (self : Src.GstRtmp2Src) (task : GTask)
  (connect_finish : GstRtmpConnection + GError) (play_finish : Z + GError)
  : Src.GstRtmp2Src * GTask :=
  match Src.client_connect_done task connect_finish with
  | TaskDone t => (self, t)
  | TaskPending t _ => Src.start_play_done self t play_finish
  end.

(** the element error [connect_task_done] of either element posts for
    an error of the connect sequence *)
Definition posts_for (e : GError) : list GstResourceError :=
  match error_domain e, error_code e with
  | G_IO_ERROR, G_IO_ERROR_PERMISSION_DENIED =>
    [GST_RESOURCE_ERROR_NOT_AUTHORIZED]
  | G_IO_ERROR, G_IO_ERROR_CONNECTION_REFUSED => [GST_RESOURCE_ERROR_OPEN_READ]
  | G_IO_ERROR, G_IO_ERROR_CANCELLED => []
  | _, _ => [GST_RESOURCE_ERROR_FAILED]
  end.

(** Tag timestamps that only climb, each by less than 2^31. *)
Fixpoint climbing (prev : Z) (l : list Z) : Prop :=
  match l with
  | [] => True
  | t :: rest => prev <= t < prev + 2 ^ 31 /\ climbing t rest
  end.

(** a tag type the publish path has a chunk stream for *)
Definition is_media_type (type : Z) : Prop :=
  type = GST_RTMP_MESSAGE_TYPE_AUDIO
  \/ type = GST_RTMP_MESSAGE_TYPE_VIDEO
  \/ type = GST_RTMP_MESSAGE_TYPE_DATA_AMF0.

(** [got_message] lets the message through its checks: it has RTMP
    meta of the stream that plays, and is a video message of at least
    6 bytes, an audio message of at least 2 or a data message of at
    least 1. *)
Definition passes_filter (self : Src.GstRtmp2Src) (buffer : GstBuffer) : Prop :=
  exists meta,
    buf_meta buffer = Some meta
    /\ meta_mstream meta = Src.stream_id self
    /\ ((meta_type meta = GST_RTMP_MESSAGE_TYPE_VIDEO /\ 6 <= meta_size meta)
        \/ (meta_type meta = GST_RTMP_MESSAGE_TYPE_AUDIO /\ 2 <= meta_size meta)
        \/ (meta_type meta = GST_RTMP_MESSAGE_TYPE_DATA_AMF0
            /\ 1 <= meta_size meta)).

(** The message that waits for [create], if any, carries RTMP meta. *)
Definition pending_has_meta (self : Src.GstRtmp2Src) : Prop :=
  match Src.message self with
  | Some m => buf_meta m <> None
  | None => True
  end.

(** The calls an element of the play path gets in its life: [start],
    and between two of them the events of a run. *)
Inductive Call :=
| CallStart (fresh : Z)
| CallEvent (ev : Src.Event).

Fixpoint life (self : Src.GstRtmp2Src) (calls : list Call) : Src.GstRtmp2Src :=
  match calls with
  | [] => self
  | CallStart fresh :: rest => life (Src.gst_rtmp2_src_start self fresh) rest
  | CallEvent ev :: rest => life (fst (Src.step self ev)) rest
  end.

(** A call of [got_message] that is woken has passed the checks of its
    entry before it waited, the one on the RTMP meta among them. *)
Definition woken_checked (call : Call) : Prop :=
  match call with
  | CallEvent (Src.EvGotMessageWoken buffer) => buf_meta buffer <> None
  | _ => True
  end.

(** a tag of 15 bytes whose type, 10, is none of audio, video and
    script data *)
Definition unknown_tag : list byte :=
  [x0a; x00; x00; x00; x00; x00; x07; x00; x00; x00; x00;
   x00; x00; x00; x0b].

(** a started sink whose connect sequence has succeeded: the messages
    queued on its connection, and its stream headers *)
Definition connected_sink (queue hs : list GstBuffer) : Sink.GstRtmp2Sink :=
  Sink.set_queue (Sink.gst_rtmp2_sink_start Sink.gst_rtmp2_sink_init) hs
    (Some {| output_queue := queue |}).

(** a started sink whose connect sequence is under way *)
Definition connecting_sink : Sink.GstRtmp2Sink :=
  Sink.new_connect (Sink.gst_rtmp2_sink_start Sink.gst_rtmp2_sink_init) 1.

(** a started source that plays stream 1 *)
Definition playing_src : Src.GstRtmp2Src :=
  Src.set_stream_id (Src.gst_rtmp2_src_start Src.gst_rtmp2_src_init 1) 1.

(** the RTMP meta of an audio message of stream 1, two bytes long *)
Definition audio_meta : GstRtmpMeta :=
  {| meta_cstream := 4; meta_ts_delta := 0; meta_size := 2;
     meta_type := GST_RTMP_MESSAGE_TYPE_AUDIO; meta_mstream := 1 |}.

(** an audio message of stream 1, two bytes, at 40 ms *)
Definition audio_message : GstBuffer :=
  play_message GST_RTMP_MESSAGE_TYPE_AUDIO 1 2 40000000 [xaf; x01].

(** the element after rendering the buffers one after the other *)
Fixpoint render_run (self : Sink.GstRtmp2Sink) (buffers : list GstBuffer)
  : Sink.GstRtmp2Sink :=
  match buffers with
  | [] => self
  | buffer :: rest =>
    render_run (fst (Sink.gst_rtmp2_sink_render self buffer)) rest
  end.

(** the 32-bit timestamp [buffer_to_message] reads from the bytes of a
    tag *)
Definition tag_timestamp_of (data : list byte) : Z :=
  Z.lor (GST_READ_UINT24_BE data 4)
    (wrap32 (Z.shiftl (GST_READ_UINT8 data 7) 24)).

(** the buffer is taken for the file header: at least 4 bytes that
    begin with the FLV signature *)
Definition is_flv_header (buffer : GstBuffer) : bool :=
  (Z.of_nat (List.length (buf_data buffer)) >=? 4)
  && memcmp_eq (buf_data buffer) FLV_signature 3.

(** the stream headers that are tags, in the order of the array *)
Definition streamheader_tags (buffers : list GstBuffer) : list GstBuffer :=
  filter (fun b => negb (is_flv_header b)) buffers.

(** [m] is the message of the tag in [buffer], sent at [timestamp]
    milliseconds: of the type of the tag, on message stream 1 and the
    chunk stream of that type, with the bytes between the tag header
    and the footer as its payload, behind the setDataFrame header for
    script data *)
Definition message_of_tag (buffer : GstBuffer) (timestamp : Z) (m : GstBuffer)
  : Prop :=
  let data := buf_data buffer in
  let type := GST_READ_UINT8 data 0 in
  is_media_type type
  /\ (exists meta,
        buf_meta m = Some meta
        /\ meta_type meta = type
        /\ meta_mstream meta = 1
        /\ Sink.cstream_of_type type = Some (meta_cstream meta))
  /\ buf_data m
     = (if type =? GST_RTMP_MESSAGE_TYPE_DATA_AMF0
        then Sink.setDataFrame_header else [])
       ++ region data 11 (Z.of_nat (List.length data) - 11 - 4)
  /\ buf_dts m = wrap64 (timestamp * GST_MSECOND).

(** the messages of the tags, each with its timestamp *)
Definition messages_of_tags (tags : list GstBuffer) (timestamps : list Z)
  (messages : list GstBuffer) : Prop :=
  Forall2 (fun tag_ts m => message_of_tag (fst tag_ts) (snd tag_ts) m)
    (combine tags timestamps) messages.

(** a task as [connect_task_done] finds it: the cancellable of [t], and
    what the sequence left in it *)
Definition task_returned (t : GTask) (d : option GstRtmpConnection)
  (r : option GTaskResult) : GTask :=
  {| task_cancellable := task_cancellable t; task_data := d;
     task_result := r |}.

(** ** Machine arithmetic *)

Lemma wrap64_small x : 0 <= x < 18446744073709551616 -> wrap64 x = x.
Proof. intros H. unfold wrap64. apply Z.mod_small. exact H. Qed.

(* resolves, innermost first, the wrap-arounds that cannot happen *)
Ltac unwrap64 :=
  repeat match goal with
         | |- context [wrap64 ?x] => rewrite (wrap64_small x) by lia
         end.

Lemma u8_range b : 0 <= u8 b < 256.
Proof.
  unfold u8. pose proof (Byte.to_N_bounded b) as H.
  split; [apply N2Z.is_nonneg | lia].
Qed.

Lemma lor_below_pow2 a b n :
  0 <= n -> 0 <= a < 2 ^ n -> 0 <= b < 2 ^ n -> 0 <= Z.lor a b < 2 ^ n.
Proof.
  intros Hn Ha Hb. split; [apply Z.lor_nonneg; lia|].
  destruct (Z.eq_dec a 0) as [->|Na]; [rewrite Z.lor_0_l; lia|].
  destruct (Z.eq_dec b 0) as [->|Nb]; [rewrite Z.lor_0_r; lia|].
  assert (Hl : 0 < Z.lor a b).
  { assert (0 <= Z.lor a b) by (apply Z.lor_nonneg; lia).
    destruct (Z.eq_dec (Z.lor a b) 0) as [E|]; [|lia].
    apply Z.lor_eq_0_iff in E. lia. }
  apply Z.log2_lt_pow2; [exact Hl|].
  rewrite Z.log2_lor by lia.
  apply Z.max_lub_lt; apply Z.log2_lt_pow2; lia.
Qed.

(** The timestamp [buffer_to_message] reads from a tag is a 32-bit
    value, whatever the bytes. *)
Lemma tag_timestamp_is_uint32 data :
  is_uint32
    (Z.lor (GST_READ_UINT24_BE data 4)
       (wrap32 (Z.shiftl (GST_READ_UINT8 data 7) 24))).
Proof.
  unfold is_uint32, GST_READ_UINT24_BE, GST_READ_UINT8, wrap32.
  pose proof (u8_range (nth 4 data x00)).
  pose proof (u8_range (nth (4 + 1) data x00)).
  pose proof (u8_range (nth (4 + 2) data x00)).
  pose proof (u8_range (nth 7 data x00)).
  rewrite !Z.shiftl_mul_pow2 by lia.
  change (2 ^ 16) with 65536. change (2 ^ 8) with 256.
  change (2 ^ 24) with 16777216.
  apply lor_below_pow2; [lia| |].
  - apply lor_below_pow2; [lia| |]; [lia|].
    apply lor_below_pow2; lia.
  - change (2 ^ 32) with 4294967296. apply Z.mod_pos_bound. lia.
Qed.

(** ** The timestamp fixup of the publish path *)

Ltac fixup_branch :=
  cbn [fst snd Sink.last_ts Sink.base_ts Sink.set_ts];
  unwrap64; repeat split; intros; lia.

(** One step of the fixup, with the 2^64 wrap-around resolved. *)
Lemma timestamp_fixup_cases self ts :
  is_uint32 ts -> fixup_state_ok self ->
  let base := Sink.base_ts self in
  let last := Sink.last_ts self in
  let self' := fst (Sink.timestamp_fixup self ts) in
  let out := snd (Sink.timestamp_fixup self ts) in
  Sink.last_ts self' = out
  /\ (ts + base + G_MAXINT32 < last ->
      Sink.base_ts self' = base + 2 ^ 32 /\ out = ts + base + 2 ^ 32)
  /\ (ts + base > last + G_MAXINT32 -> base > 0 ->
      Sink.base_ts self' = base - 2 ^ 32 /\ out = ts + base - 2 ^ 32)
  /\ (ts + base > last + G_MAXINT32 -> base = 0 ->
      Sink.base_ts self' = 0 /\ out = 0)
  /\ (last - G_MAXINT32 <= ts + base <= last + G_MAXINT32 ->
      Sink.base_ts self' = base /\ out = ts + base).
Proof.
  unfold is_uint32, fixup_state_ok. intros Hts (Hb & [k Hk] & Hl).
  cbv zeta. unfold Sink.timestamp_fixup, G_MAXINT32, G_MAXUINT32.
  change (2 ^ 63) with 9223372036854775808 in *.
  change (2 ^ 32) with 4294967296 in *.
  unwrap64.
  destruct (Z.ltb_spec (ts + Sink.base_ts self + 2147483647) (Sink.last_ts self)).
  - fixup_branch.
  - destruct (Z.gtb_spec (ts + Sink.base_ts self)
                (Sink.last_ts self + 2147483647)).
    + destruct (Z.gtb_spec (Sink.base_ts self) 0).
      * assert (4294967296 <= Sink.base_ts self) by lia. fixup_branch.
      * fixup_branch.
    + fixup_branch.
Qed.

(** Every step keeps the state in its working range, as long as the
    base has room to grow; so the range is that of every state the
    element reaches within its first 2^31 buffers. *)
Lemma fixup_state_ok_step self ts :
  is_uint32 ts -> fixup_state_ok self ->
  Sink.base_ts self + 2 ^ 32 <= 2 ^ 63 ->
  fixup_state_ok (fst (Sink.timestamp_fixup self ts))
  /\ Sink.base_ts (fst (Sink.timestamp_fixup self ts))
     <= Sink.base_ts self + 2 ^ 32.
Proof.
  intros Hts Hok Hroom.
  destruct (timestamp_fixup_cases self ts Hts Hok)
    as (Hlast & Hback & Hfwd & Hzero & Hkeep).
  destruct Hok as (Hb & [k Hk] & Hl). unfold is_uint32 in Hts.
  unfold fixup_state_ok, G_MAXINT32 in *.
  change (2 ^ 63) with 9223372036854775808 in *.
  change (2 ^ 32) with 4294967296 in *.
  destruct (Z_lt_dec (ts + Sink.base_ts self + 2147483647) (Sink.last_ts self))
    as [C1|C1].
  - destruct (Hback C1) as [Eb Eo]. rewrite Hlast, Eb, Eo.
    repeat split; try lia. exists (k + 1); lia.
  - destruct (Z_gt_dec (ts + Sink.base_ts self) (Sink.last_ts self + 2147483647))
      as [C2|C2].
    + destruct (Z.eq_dec (Sink.base_ts self) 0) as [Z0|NZ].
      * destruct (Hzero C2 Z0) as [Eb Eo]. rewrite Hlast, Eb, Eo.
        repeat split; try lia. exists 0; lia.
      * assert (Hpos : Sink.base_ts self > 0) by lia.
        destruct (Hfwd C2 Hpos) as [Eb Eo]. rewrite Hlast, Eb, Eo.
        repeat split; try lia. exists (k - 1); lia.
    + destruct Hkeep as [Eb Eo]; [lia|]. rewrite Hlast, Eb, Eo.
      repeat split; try lia. exists k; lia.
Qed.

Lemma fixup_state_ok_run l : forall self,
  Forall is_uint32 l -> fixup_state_ok self ->
  Sink.base_ts self + Z.of_nat (List.length l) * 2 ^ 32 <= 2 ^ 63 ->
  fixup_state_ok (fixup_run self l).
Proof.
  induction l as [|ts l IH]; intros self Hall Hok Hroom; [exact Hok|].
  inversion Hall as [|? ? Hts Hall']; subst.
  cbn [List.length] in Hroom. rewrite Nat2Z.inj_succ in Hroom.
  change (2 ^ 63) with 9223372036854775808 in *.
  change (2 ^ 32) with 4294967296 in *.
  assert (Hroom1 : Sink.base_ts self + 4294967296 <= 9223372036854775808)
    by (pose proof (Nat2Z.is_nonneg (List.length l)); lia).
  destruct (fixup_state_ok_step self ts Hts Hok Hroom1) as [Hok' Hb'].
  change (2 ^ 32) with 4294967296 in *.
  cbn [fixup_run]. apply IH; auto.
  change (2 ^ 63) with 9223372036854775808.
  change (2 ^ 32) with 4294967296. lia.
Qed.

(** C1, as amended.  The 64-bit base is added to every incoming 32-bit
    tag timestamp, and the directions are these: when the corrected
    timestamp falls behind the last output one by more than 2^31 - 1 (a
    backward jump), the tag counter is taken to have wrapped around and
    the base grows by 2^32; when it runs ahead of the last output one by
    more than 2^31 - 1 (a forward jump), the base shrinks by 2^32 if it
    is positive, and if it is zero it stays zero and the output
    timestamp is forced to zero; otherwise the base is kept. *)
Theorem rollover_correction self ts :
  is_uint32 ts -> fixup_state_ok self ->
  let base := Sink.base_ts self in
  let last := Sink.last_ts self in
  let self' := fst (Sink.timestamp_fixup self ts) in
  let out := snd (Sink.timestamp_fixup self ts) in
  Sink.last_ts self' = out
  /\ (ts + base + G_MAXINT32 < last ->
      Sink.base_ts self' = base + 2 ^ 32 /\ out = ts + base + 2 ^ 32)
  /\ (ts + base > last + G_MAXINT32 -> base > 0 ->
      Sink.base_ts self' = base - 2 ^ 32 /\ out = ts + base - 2 ^ 32)
  /\ (ts + base > last + G_MAXINT32 -> base = 0 ->
      Sink.base_ts self' = 0 /\ out = 0)
  /\ (last - G_MAXINT32 <= ts + base <= last + G_MAXINT32 ->
      Sink.base_ts self' = base /\ out = ts + base).
Proof. exact (timestamp_fixup_cases self ts). Qed.

(** The tag counter wraps from 4294967000 to 10: the base becomes 2^32
    and the output 2^32 + 10. *)
Lemma rollover_correction_witness :
  is_uint32 10 /\ fixup_state_ok (sink_at 4294967000 0)
  /\ Sink.base_ts (fst (Sink.timestamp_fixup (sink_at 4294967000 0) 10))
     = 0 + 2 ^ 32
  /\ snd (Sink.timestamp_fixup (sink_at 4294967000 0) 10) = 10 + 0 + 2 ^ 32.
Proof.
  assert (Hts : is_uint32 10) by (unfold is_uint32; lia).
  assert (Hok : fixup_state_ok (sink_at 4294967000 0)).
  { unfold fixup_state_ok; cbn. repeat split; try lia. exists 0; reflexivity. }
  split; [exact Hts|]. split; [exact Hok|].
  apply (proj1 (proj2 (rollover_correction (sink_at 4294967000 0) 10 Hts Hok))).
  cbn. reflexivity.
Defined.

(** C1, as stated, fails.  After one wrap-around (base 2^32, last output
    2^32 + 5) a tag timestamp of 2^32 - 1 is a forward jump of the
    corrected timestamp by more than half the 32-bit range; the claim
    has the base grow to 2^33, the code lowers it to zero.  And with
    base zero and last output 4294967000, the tag timestamp 10 is a
    backward jump by more than half the range; the claim has the base
    stay at zero, the code raises it to 2^32. *)
Lemma rollover_directions_counterexample :
  (is_uint32 4294967295
   /\ fixup_state_ok (sink_at 4294967301 4294967296)
   /\ 4294967295 + 4294967296 > 4294967301 + 2 ^ 31
   /\ Sink.base_ts
        (fst (Sink.timestamp_fixup (sink_at 4294967301 4294967296) 4294967295))
      = 0
   /\ Sink.base_ts
        (fst (Sink.timestamp_fixup (sink_at 4294967301 4294967296) 4294967295))
      <> 4294967296 + 2 ^ 32)
  /\ (is_uint32 10
      /\ fixup_state_ok (sink_at 4294967000 0)
      /\ 10 + 0 + 2 ^ 31 < 4294967000
      /\ Sink.base_ts (fst (Sink.timestamp_fixup (sink_at 4294967000 0) 10))
         = 4294967296
      /\ snd (Sink.timestamp_fixup (sink_at 4294967000 0) 10) <> 0).
Proof.
  unfold is_uint32, fixup_state_ok. cbn.
  repeat split; try lia; try discriminate.
  - exists 1; reflexivity.
  - exists 0; reflexivity.
Qed.

(** A steady step keeps the state in range and never lowers the
    output. *)
Lemma steady_step_fixup self ts :
  is_uint32 ts -> fixup_state_ok self ->
  Sink.base_ts self + 2 ^ 32 <= 2 ^ 63 ->
  steady_step (Sink.last_ts self - Sink.base_ts self) ts ->
  let self' := fst (Sink.timestamp_fixup self ts) in
  fixup_state_ok self'
  /\ Sink.base_ts self' <= Sink.base_ts self + 2 ^ 32
  /\ Sink.last_ts self' - Sink.base_ts self' = ts
  /\ Sink.last_ts self <= Sink.last_ts self'
  /\ snd (Sink.timestamp_fixup self ts) = Sink.last_ts self'.
Proof.
  intros Hts Hok Hroom Hstep.
  destruct (fixup_state_ok_step self ts Hts Hok Hroom) as [Hok' Hb'].
  destruct (timestamp_fixup_cases self ts Hts Hok)
    as (Hlast & Hwrap & _ & _ & Hkeep).
  destruct Hok as (Hb & _ & Hl). unfold is_uint32 in Hts.
  cbv zeta. split; [exact Hok'|]. split; [exact Hb'|].
  unfold G_MAXINT32 in *.
  change (2 ^ 63) with 9223372036854775808 in *.
  change (2 ^ 32) with 4294967296 in *.
  unfold steady_step in Hstep. change (2 ^ 31) with 2147483648 in *.
  destruct Hstep as [Hup | Hdown].
  - destruct Hkeep as [Eb Eo]; [lia|]. rewrite Hlast, Eb, Eo. lia.
  - destruct Hwrap as [Eb Eo]; [lia|]. rewrite Hlast, Eb, Eo. lia.
Qed.

Lemma corrected_timestamps_sorted l : forall self,
  Forall is_uint32 l -> fixup_state_ok self ->
  Sink.base_ts self + Z.of_nat (List.length l) * 2 ^ 32 <= 2 ^ 63 ->
  steady (Sink.last_ts self - Sink.base_ts self) l ->
  Sorted Z.le (Sink.last_ts self :: corrected_timestamps self l).
Proof.
  induction l as [|ts l IH]; intros self Hall Hok Hroom Hsteady.
  - constructor; constructor.
  - inversion Hall as [|? ? Hts Hall']; subst.
    destruct Hsteady as [Hstep Hrest].
    cbn [List.length] in Hroom. rewrite Nat2Z.inj_succ in Hroom.
    change (2 ^ 63) with 9223372036854775808 in *.
    change (2 ^ 32) with 4294967296 in *.
    assert (Hroom1 : Sink.base_ts self + 4294967296 <= 9223372036854775808)
      by (pose proof (Nat2Z.is_nonneg (List.length l)); lia).
    destruct (steady_step_fixup self ts Hts Hok Hroom1 Hstep)
      as (Hok' & Hb' & Hprev & Hle & Hout).
    cbn [corrected_timestamps].
    destruct (Sink.timestamp_fixup self ts) as [self' out] eqn:E.
    cbn [fst snd] in *. subst out.
    constructor.
    + apply IH; auto.
      * change (2 ^ 63) with 9223372036854775808 in *.
        change (2 ^ 32) with 4294967296 in *. lia.
      * rewrite Hprev. exact Hrest.
    + constructor. exact Hle.
Qed.

Lemma steady_tail p l : steady p l -> steady_sequence l.
Proof. destruct l as [|t rest]; [trivial | intros [_ H]; exact H]. Qed.

(** While the base and the last output are zero, a tag timestamp of
    2^31 or more is forced to zero and changes nothing. *)
Lemma forced_to_zero self ts :
  is_uint32 ts -> Sink.base_ts self = 0 -> Sink.last_ts self = 0 ->
  2 ^ 31 <= ts ->
  Sink.base_ts (fst (Sink.timestamp_fixup self ts)) = 0
  /\ Sink.last_ts (fst (Sink.timestamp_fixup self ts)) = 0
  /\ snd (Sink.timestamp_fixup self ts) = 0.
Proof.
  intros Hts Hb Hl Hhigh.
  assert (Hok : fixup_state_ok self).
  { unfold fixup_state_ok. rewrite Hb, Hl. repeat split; try lia.
    exists 0; reflexivity. }
  destruct (timestamp_fixup_cases self ts Hts Hok)
    as (Hlast & _ & _ & Hzero & _).
  unfold G_MAXINT32 in Hzero. change (2 ^ 31) with 2147483648 in Hhigh.
  rewrite Hb, Hl in Hzero. destruct Hzero as [Eb Eo]; [lia | reflexivity |].
  rewrite Hlast, Eb, Eo. auto.
Qed.

(** From the start: the leading tag timestamps of 2^31 or more all come
    out as zero, and from the first lower one on the steps are steady
    from the last output. *)
Lemma corrected_from_zero l : forall self,
  Sink.base_ts self = 0 -> Sink.last_ts self = 0 ->
  Forall is_uint32 l ->
  Z.of_nat (List.length l) * 2 ^ 32 <= 2 ^ 63 ->
  steady_sequence l ->
  Sorted Z.le (0 :: corrected_timestamps self l).
Proof.
  induction l as [|ts l IH]; intros self Hb Hl Hall Hroom Hsteady.
  - constructor; constructor.
  - inversion Hall as [|? ? Hts Hall']; subst.
    destruct (Z_lt_dec ts (2 ^ 31)) as [Hlow|Hhigh].
    + rewrite <- Hl. apply corrected_timestamps_sorted; auto.
      * unfold fixup_state_ok. rewrite Hb, Hl. repeat split; try lia.
        exists 0; reflexivity.
      * rewrite Hb. exact Hroom.
      * rewrite Hb, Hl. split; [|exact Hsteady].
        left. unfold is_uint32 in Hts. lia.
    + destruct (forced_to_zero self ts Hts Hb Hl) as (Hb' & Hl' & Ho); [lia|].
      cbn [corrected_timestamps].
      destruct (Sink.timestamp_fixup self ts) as [self' out].
      cbn [fst snd] in *. subst out.
      constructor; [|constructor; lia].
      apply IH; auto.
      * cbn [List.length] in Hroom. rewrite Nat2Z.inj_succ in Hroom.
        change (2 ^ 63) with 9223372036854775808 in *.
        change (2 ^ 32) with 4294967296 in *. lia.
      * eapply steady_tail. exact Hsteady.
Qed.

(** C2, as amended.  For every sequence of at most 2^31 32-bit tag
    timestamps in which each one follows its predecessor by an increase
    of less than 2^31 or by wrapping around, a drop of at least 2^31,
    the corrected timestamps that the freshly started element gives
    them are non-decreasing. *)
Theorem corrected_timestamps_monotone l :
  Forall is_uint32 l ->
  Z.of_nat (List.length l) <= 2 ^ 31 ->
  steady_sequence l ->
  Sorted Z.le
    (corrected_timestamps (Sink.gst_rtmp2_sink_start Sink.gst_rtmp2_sink_init) l).
Proof.
  intros Hall Hlen Hsteady.
  assert (Hs : Sorted Z.le
                 (0 :: corrected_timestamps
                         (Sink.gst_rtmp2_sink_start Sink.gst_rtmp2_sink_init) l)).
  { apply corrected_from_zero; auto.
    change (2 ^ 63) with (2 ^ 31 * 2 ^ 32).
    apply Z.mul_le_mono_nonneg_r; lia. }
  inversion Hs; assumption.
Qed.

(** Tag timestamps that climb to the top of the range and wrap: the
    corrected ones go on from 2^32. *)
Lemma corrected_timestamps_monotone_witness :
  Forall is_uint32 [0; 2147483647; 4294967294; 5; 10]
  /\ Z.of_nat (List.length [0; 2147483647; 4294967294; 5; 10]) <= 2 ^ 31
  /\ steady_sequence [0; 2147483647; 4294967294; 5; 10]
  /\ Sorted Z.le
       (corrected_timestamps
          (Sink.gst_rtmp2_sink_start Sink.gst_rtmp2_sink_init)
          [0; 2147483647; 4294967294; 5; 10]).
Proof.
  assert (H1 : Forall is_uint32 [0; 2147483647; 4294967294; 5; 10])
    by (repeat constructor; unfold is_uint32; lia).
  assert (H2 : Z.of_nat (List.length [0; 2147483647; 4294967294; 5; 10])
               <= 2 ^ 31) by (cbn; lia).
  assert (H3 : steady_sequence [0; 2147483647; 4294967294; 5; 10])
    by (cbn; unfold steady_step; lia).
  split; [exact H1|]. split; [exact H2|]. split; [exact H3|].
  exact (corrected_timestamps_monotone _ H1 H2 H3).
Defined.

(** what the fixup makes of that climb and wrap *)
Example corrected_timestamps_wrap :
  corrected_timestamps (Sink.gst_rtmp2_sink_start Sink.gst_rtmp2_sink_init)
    [0; 2147483647; 4294967294; 5; 10]
  = [0; 2147483647; 4294967294; 4294967301; 4294967306].
Proof. reflexivity. Qed.

(** C2, as stated, fails.  The tag timestamps 1, 2^32 - 1, 0 increase
    and then wrap around; the step from 1 to 2^32 - 1 is taken for an
    underflow and, the base being zero, forced to zero: the corrected
    timestamps are 1, 0, 0. *)
Lemma corrected_timestamps_counterexample :
  Forall is_uint32 [1; 4294967295; 0]
  /\ increases_then_wraps [1; 4294967295; 0]
  /\ corrected_timestamps (Sink.gst_rtmp2_sink_start Sink.gst_rtmp2_sink_init)
       [1; 4294967295; 0] = [1; 0; 0]
  /\ ~ Sorted Z.le
         (corrected_timestamps
            (Sink.gst_rtmp2_sink_start Sink.gst_rtmp2_sink_init)
            [1; 4294967295; 0]).
Proof.
  split; [repeat constructor; unfold is_uint32; lia|].
  split.
  { exists [1], 4294967295, 0, [].
    split; [reflexivity|]. split; [repeat constructor; lia|].
    split; [repeat constructor | lia]. }
  split; [reflexivity|].
  change (corrected_timestamps _ _) with [1; 0; 0].
  intros H. inversion H as [|? ? _ Hd]; subst.
  inversion Hd; subst. lia.
Qed.

(** ** The status reply of the publish step *)

Lemma not_cancelled_continues task :
  cancelled (task_cancellable task) = false ->
  g_task_return_error_if_cancelled task = (false, task).
Proof.
  intros H. unfold g_task_return_error_if_cancelled. rewrite H. reflexivity.
Qed.

Lemma cancelled_returns task :
  cancelled (task_cancellable task) = true ->
  g_task_return_error_if_cancelled task
  = (true, g_task_return_error task cancelled_error).
Proof.
  intros H. unfold g_task_return_error_if_cancelled. rewrite H. reflexivity.
Qed.

Lemma nth_error_1_length {A} (l : list A) x :
  nth_error l 1 = Some x ->
  (Z.of_nat (List.length l) <? 1) = false
  /\ (Z.of_nat (List.length l) >? 1) = true.
Proof.
  destruct l as [|a [|b l]]; cbn [nth_error]; try discriminate.
  intros _. cbn [List.length]. split.
  - apply Z.ltb_ge. lia.
  - apply Z.gtb_lt. lia.
Qed.

Lemma propagate_error task e d :
  cancelled (task_cancellable task) = false ->
  g_task_propagate_pointer (g_task_set_task_data (g_task_return_error task e) d)
  = (None, Some e).
Proof.
  intros H. unfold g_task_propagate_pointer. cbn. rewrite H. reflexivity.
Qed.

(** [publish_done] on a reply whose status object has a string code *)
Lemma publish_done_string_code task args fields code :
  cancelled (task_cancellable task) = false ->
  nth_error args 1 = Some (AmfObject fields) ->
  lookup_field fields "code" = Some (AmfString code) ->
  Sink.publish_done task (Some args)
  = Sink.PublishResolved
      (g_task_set_task_data
         (if String.eqb code "NetStream.Publish.Start"
          then g_task_return_pointer task (task_data task)
          else if String.eqb code "NetStream.Publish.BadName"
          then g_task_return_new_error task G_IO_ERROR_EXISTS
                 ("Stream already exists! (" ++ code ++ ")")
          else if String.eqb code "NetStream.Publish.Denied"
          then g_task_return_new_error task G_IO_ERROR_PERMISSION_DENIED
                 ("Publish denied! (" ++ code ++ ")")
          else g_task_return_new_error task G_IO_ERROR_FAILED
                 ("unhandled publish result code: " ++ code))
         None).
Proof.
  intros Hc Hn Hf. unfold Sink.publish_done.
  rewrite (not_cancelled_continues _ Hc).
  destruct (nth_error_1_length _ _ Hn) as [H1 H2]. rewrite H1, H2, Hn.
  cbn [gst_amf_node_get_type gst_amf_node_get_field]. rewrite Hf.
  cbn [gst_amf_node_peek_string g_str_equal Sink.GST_STR_NULL].
  destruct (String.eqb code "NetStream.Publish.Start"); [reflexivity|].
  destruct (String.eqb code "NetStream.Publish.BadName"); [reflexivity|].
  destruct (String.eqb code "NetStream.Publish.Denied"); reflexivity.
Qed.

Lemma publish_done_no_object task args :
  cancelled (task_cancellable task) = false ->
  no_status_object args ->
  publish_fails (Sink.publish_done task args) G_IO_ERROR_FAILED.
Proof.
  intros Hc Hno. unfold Sink.publish_done.
  rewrite (not_cancelled_continues _ Hc).
  assert (Hplain : forall msg,
    publish_fails
      (Sink.PublishResolved (g_task_return_new_error task G_IO_ERROR_FAILED msg))
      G_IO_ERROR_FAILED).
  { intros msg. eexists _, _. split; [reflexivity|].
    unfold g_task_propagate_pointer. cbn. rewrite Hc. reflexivity. }
  assert (Hfinish : forall msg,
    publish_fails
      (Sink.PublishResolved
         (g_task_set_task_data
            (g_task_return_new_error task G_IO_ERROR_FAILED msg) None))
      G_IO_ERROR_FAILED).
  { intros msg. eexists _, _. split; [reflexivity|].
    apply propagate_error; exact Hc. }
  destruct args as [args|]; cbn [no_status_object] in Hno; [|apply Hplain].
  destruct (Z.of_nat (List.length args) <? 1); [apply Hplain|].
  destruct (Z.of_nat (List.length args) >? 1); [|apply Hfinish].
  destruct (nth_error args 1) as [n|]; [|apply Hfinish].
  destruct n; cbn [gst_amf_node_get_type] in *; try congruence; apply Hfinish.
Qed.

(** C3.  While the task has not been cancelled and carries the
    connection: an [onStatus] reply whose second argument is an object
    with the string code NetStream.Publish.Start makes the task return
    that connection; with NetStream.Publish.BadName the task returns the
    already-exists error, with NetStream.Publish.Denied the
    permission-denied error, with any other string the generic failure;
    and a reply whose second argument is missing or is not an object,
    or that has no arguments at all, gives the generic failure too. *)
Theorem publish_status_outcome task connection args :
  cancelled (task_cancellable task) = false ->
  task_data task = Some connection ->
  (forall fields code,
      nth_error args 1 = Some (AmfObject fields) ->
      lookup_field fields "code" = Some (AmfString code) ->
      let r := Sink.publish_done task (Some args) in
      (code = "NetStream.Publish.Start"%string -> publish_succeeds r connection)
      /\ (code = "NetStream.Publish.BadName"%string ->
          publish_fails r G_IO_ERROR_EXISTS)
      /\ (code = "NetStream.Publish.Denied"%string ->
          publish_fails r G_IO_ERROR_PERMISSION_DENIED)
      /\ (code <> "NetStream.Publish.Start"%string ->
          code <> "NetStream.Publish.BadName"%string ->
          code <> "NetStream.Publish.Denied"%string ->
          publish_fails r G_IO_ERROR_FAILED))
  /\ (no_status_object (Some args) ->
      publish_fails (Sink.publish_done task (Some args)) G_IO_ERROR_FAILED)
  /\ publish_fails (Sink.publish_done task None) G_IO_ERROR_FAILED.
Proof.
  intros Hc Hd. split; [|split].
  - intros fields code Hn Hf r. subst r.
    rewrite (publish_done_string_code _ _ _ _ Hc Hn Hf).
    repeat split.
    + intros ->. cbn [String.eqb Ascii.eqb Bool.eqb].
      eexists. split; [reflexivity|].
      unfold g_task_propagate_pointer. cbn. rewrite Hc, Hd. reflexivity.
    + intros ->. cbn [String.eqb Ascii.eqb Bool.eqb].
      eexists _, _. split; [reflexivity|]. apply propagate_error; exact Hc.
    + intros ->. cbn [String.eqb Ascii.eqb Bool.eqb].
      eexists _, _. split; [reflexivity|]. apply propagate_error; exact Hc.
    + intros N1 N2 N3.
      apply String.eqb_neq in N1, N2, N3. rewrite N1, N2, N3.
      eexists _, _. split; [reflexivity|]. apply propagate_error; exact Hc.
  - apply publish_done_no_object; exact Hc.
  - apply publish_done_no_object; [exact Hc | exact I].
Qed.

(** The server answers NetStream.Publish.BadName. *)
Lemma publish_status_outcome_witness :
  cancelled (task_cancellable (task_with false (Some empty_connection))) = false
  /\ task_data (task_with false (Some empty_connection)) = Some empty_connection
  /\ publish_fails
       (Sink.publish_done (task_with false (Some empty_connection))
          (Some (status_reply "NetStream.Publish.BadName")))
       G_IO_ERROR_EXISTS.
Proof.
  split; [reflexivity|]. split; [reflexivity|].
  apply (proj1 (publish_status_outcome
                  (task_with false (Some empty_connection)) empty_connection
                  (status_reply "NetStream.Publish.BadName")
                  eq_refl eq_refl)
           _ "NetStream.Publish.BadName"%string eq_refl eq_refl).
  reflexivity.
Defined.

(** C4: what the code does on a status object without a code, and on
    one whose code is a number.  The code string is then NULL, and the
    first comparison, [g_str_equal (code, "NetStream.Publish.Start")],
    reads it: the task never returns the generic failure. *)
Theorem publish_done_null_code :
  Sink.publish_done (task_with false (Some empty_connection))
    (Some [AmfNull; AmfObject []])
  = Sink.PublishNullDereference
  /\ Sink.publish_done (task_with false (Some empty_connection))
       (Some [AmfNull; AmfObject [("code"%string, AmfNumber 0)]])
     = Sink.PublishNullDereference.
Proof. split; reflexivity. Qed.

(** ** The stream filter of the play path *)

(** C6.  A message whose message-stream id differs from the stream id
    the play sequence assigned is ignored: [got_message] returns with
    the element, pending message included, unchanged, and without a
    failed check.  A message is stored for [create], or the call waits
    to store it, only when the two ids are equal. *)
Theorem got_message_stream_filter self buffer meta :
  buf_meta buffer = Some meta ->
  (meta_mstream meta <> Src.stream_id self ->
   Src.got_message self buffer = (self, Src.GotIgnored))
  /\ (forall self' r,
        Src.got_message self buffer = (self', r) ->
        r = Src.GotStored \/ r = Src.GotWait \/ self' <> self ->
        meta_mstream meta = Src.stream_id self).
Proof.
  intros Hm. unfold Src.got_message. rewrite Hm. split.
  - intros Hne. apply Z.eqb_neq in Hne. rewrite Hne. reflexivity.
  - intros self' r.
    destruct (Z.eqb_spec (meta_mstream meta) (Src.stream_id self)) as [E|N].
    + intros _ _. exact E.
    + cbn [negb]. intros [= <- <-] [H | [H | H]]; try discriminate.
      contradiction.
Qed.

(** A video message of stream 5 reaches an element playing stream 1. *)
Lemma got_message_stream_filter_witness :
  buf_meta (play_message GST_RTMP_MESSAGE_TYPE_VIDEO 5 6 0 [])
  = Some {| meta_cstream := 4; meta_ts_delta := 0; meta_size := 6;
            meta_type := GST_RTMP_MESSAGE_TYPE_VIDEO; meta_mstream := 5 |}
  /\ 5 <> Src.stream_id (Src.set_stream_id Src.gst_rtmp2_src_init 1)
  /\ Src.got_message (Src.set_stream_id Src.gst_rtmp2_src_init 1)
       (play_message GST_RTMP_MESSAGE_TYPE_VIDEO 5 6 0 [])
     = (Src.set_stream_id Src.gst_rtmp2_src_init 1, Src.GotIgnored).
Proof.
  split; [reflexivity|]. split; [discriminate|].
  apply (proj1 (got_message_stream_filter
                  (Src.set_stream_id Src.gst_rtmp2_src_init 1)
                  (play_message GST_RTMP_MESSAGE_TYPE_VIDEO 5 6 0 [])
                  _ eq_refl)).
  discriminate.
Defined.

(** ** Cancellation of the connect sequences *)

Lemma return_error_resolves_cancelled t e :
  cancelled (task_cancellable t) = true ->
  resolves_cancelled (TaskDone (g_task_return_error t e))
    (g_task_return_error t e).
Proof.
  intros H. unfold resolves_cancelled, g_task_propagate_pointer. cbn.
  rewrite H. auto.
Qed.

(** a task that hands over a cancellation error makes the sink post
    nothing *)
Lemma sink_connect_task_done_cancelled self t e :
  g_task_propagate_pointer t = (None, Some e) ->
  g_error_matches (Some e) G_IO_ERROR G_IO_ERROR_CANCELLED = true ->
  Sink.posted (Sink.connect_task_done self t) = Sink.posted self
  /\ Sink.connection (Sink.connect_task_done self t) = None.
Proof.
  intros Hp Hm. unfold Sink.connect_task_done. rewrite Hp.
  cbn [is_some]. rewrite Hm. cbn [negb].
  destruct e as [d c msg]. cbn in Hm. apply andb_prop in Hm as [Hd Hc].
  destruct d; try discriminate. destruct c; try discriminate.
  split; reflexivity.
Qed.

(** and the source neither *)
Lemma src_connect_task_done_cancelled self t e :
  g_task_propagate_pointer t = (None, Some e) ->
  g_error_matches (Some e) G_IO_ERROR G_IO_ERROR_CANCELLED = true ->
  Src.posted (Src.connect_task_done self t) = Src.posted self
  /\ Src.connection (Src.connect_task_done self t) = None.
Proof.
  intros Hp Hm. unfold Src.connect_task_done. rewrite Hp.
  cbn [is_some]. unfold Src.send_connect_error. rewrite Hm.
  split; reflexivity.
Qed.

(** C7.  Once the cancellable of the task has been cancelled, every
    callback of the publish sequence ([client_connect_done],
    [create_stream_done], [publish_done]) and of the play sequence
    ([client_connect_done], [start_play_done]) makes the task return,
    whatever the connect attempt or the server answered, and what the
    task hands over is the cancellation error; and for a task that hands
    over a cancellation error, [connect_task_done] of either element
    posts no error and leaves no connection. *)
Theorem cancellation_is_not_an_error task :
  cancelled (task_cancellable task) = true ->
  (forall r, exists t, resolves_cancelled (Sink.client_connect_done task r) t)
  /\ (forall args, exists t,
        resolves_cancelled (Sink.create_stream_done task args) t)
  /\ (forall args, exists t,
        Sink.publish_done task args = Sink.PublishResolved t
        /\ resolves_cancelled (TaskDone t) t)
  /\ (forall r, exists t, resolves_cancelled (Src.client_connect_done task r) t)
  /\ (forall self r,
        fst (Src.start_play_done self task r) = self
        /\ resolves_cancelled
             (TaskDone (snd (Src.start_play_done self task r)))
             (snd (Src.start_play_done self task r)))
  /\ (forall self s t,
        resolves_cancelled s t ->
        Sink.posted (Sink.connect_task_done self t) = Sink.posted self
        /\ Sink.connection (Sink.connect_task_done self t) = None)
  /\ (forall self s t,
        resolves_cancelled s t ->
        Src.posted (Src.connect_task_done self t) = Src.posted self
        /\ Src.connection (Src.connect_task_done self t) = None).
Proof.
  intros H. repeat apply conj.
  - intros [c|e]; cbn [Sink.client_connect_done].
    + rewrite cancelled_returns by exact H. eexists.
      apply return_error_resolves_cancelled. exact H.
    + eexists. apply return_error_resolves_cancelled. exact H.
  - intros args. unfold Sink.create_stream_done.
    rewrite cancelled_returns by exact H. eexists.
    apply return_error_resolves_cancelled. exact H.
  - intros args. unfold Sink.publish_done.
    rewrite cancelled_returns by exact H. eexists. split; [reflexivity|].
    apply return_error_resolves_cancelled. exact H.
  - intros [c|e]; cbn [Src.client_connect_done].
    + rewrite cancelled_returns by exact H. eexists.
      apply return_error_resolves_cancelled. exact H.
    + eexists. apply return_error_resolves_cancelled. exact H.
  - intros self r. unfold Src.start_play_done.
    rewrite cancelled_returns by exact H. cbn [fst snd].
    split; [reflexivity|].
    apply return_error_resolves_cancelled. exact H.
  - intros self s t (_ & _ & Hp).
    apply (sink_connect_task_done_cancelled self t cancelled_error Hp).
    reflexivity.
  - intros self s t (_ & _ & Hp).
    apply (src_connect_task_done_cancelled self t cancelled_error Hp).
    reflexivity.
Qed.

(** The token is cancelled while the handshake runs: the connect
    attempt ends with a refused connection, the task hands over the
    cancellation error, and the sink posts nothing. *)
Lemma cancellation_is_not_an_error_witness :
  cancelled (task_cancellable (task_with true None)) = true
  /\ (exists t,
        resolves_cancelled
          (Sink.client_connect_done (task_with true None)
             (inr (new_error G_IO_ERROR_CONNECTION_REFUSED "refused")))
          t
        /\ Sink.posted (Sink.connect_task_done Sink.gst_rtmp2_sink_init t) = []).
Proof.
  split; [reflexivity|].
  pose proof (cancellation_is_not_an_error (task_with true None) eq_refl)
    as (Hconnect & _ & _ & _ & _ & Hdone & _).
  destruct (Hconnect (inr (new_error G_IO_ERROR_CONNECTION_REFUSED "refused")))
    as [t Ht].
  exists t. split; [exact Ht|].
  exact (proj1 (Hdone Sink.gst_rtmp2_sink_init _ t Ht)).
Defined.

(** ** Tags on the publish path *)

Lemma memcmp_eq_true a b n :
  firstn n a = firstn n b -> memcmp_eq a b n = true.
Proof.
  intros H. unfold memcmp_eq.
  destruct (list_eq_dec Byte.byte_eq_dec (firstn n a) (firstn n b)); congruence.
Qed.

Lemma memcmp_eq_false a b n :
  firstn n a <> firstn n b -> memcmp_eq a b n = false.
Proof.
  intros H. unfold memcmp_eq.
  destruct (list_eq_dec Byte.byte_eq_dec (firstn n a) (firstn n b)); congruence.
Qed.

(** C8.  A buffer of at least 4 bytes that begins with the FLV
    signature is taken for the container header: [buffer_to_message]
    reports success without a message, and [render] answers OK; the
    element, and so the queue of its connection, is left as it was. *)
Theorem flv_header_stripped self buffer :
  buf_readable buffer = true ->
  4 <= Z.of_nat (List.length (buf_data buffer)) ->
  firstn 3 (buf_data buffer) = FLV_signature ->
  Sink.buffer_to_message self buffer = (self, Some None)
  /\ Sink.gst_rtmp2_sink_render self buffer
     = (self, Sink.SendReturn GST_FLOW_OK).
Proof.
  intros Hr Hlen Hsig.
  assert (E : Sink.buffer_to_message self buffer = (self, Some None)).
  { unfold Sink.buffer_to_message, gst_buffer_map. rewrite Hr.
    cbn [info_size info_data].
    rewrite memcmp_eq_true by (rewrite Hsig; reflexivity).
    destruct (Z.geb_spec (Z.of_nat (List.length (buf_data buffer))) 4);
      [reflexivity | lia]. }
  split; [exact E|].
  unfold Sink.gst_rtmp2_sink_render. rewrite E.
  destruct (Sink.should_drop_header self buffer); reflexivity.
Qed.

(** The header that flvmux sends first. *)
Lemma flv_header_stripped_witness :
  buf_readable (raw_buffer true flvmux_header) = true
  /\ 4 <= Z.of_nat (List.length (buf_data (raw_buffer true flvmux_header)))
  /\ firstn 3 (buf_data (raw_buffer true flvmux_header)) = FLV_signature
  /\ Sink.gst_rtmp2_sink_render
       (Sink.gst_rtmp2_sink_start Sink.gst_rtmp2_sink_init)
       (raw_buffer true flvmux_header)
     = (Sink.gst_rtmp2_sink_start Sink.gst_rtmp2_sink_init,
        Sink.SendReturn GST_FLOW_OK).
Proof.
  assert (H : 4 <= Z.of_nat
                     (List.length (buf_data (raw_buffer true flvmux_header))))
    by (cbn; lia).
  split; [reflexivity|]. split; [exact H|]. split; [reflexivity|].
  exact (proj2 (flv_header_stripped
                  (Sink.gst_rtmp2_sink_start Sink.gst_rtmp2_sink_init)
                  (raw_buffer true flvmux_header) eq_refl H eq_refl)).
Defined.

Lemma buffer_to_message_too_small self buffer :
  firstn 3 (buf_data buffer) <> FLV_signature ->
  Z.of_nat (List.length (buf_data buffer)) < 15 ->
  Sink.buffer_to_message self buffer = (self, None).
Proof.
  intros Hsig Hlen. unfold Sink.buffer_to_message, gst_buffer_map.
  destruct (buf_readable buffer); [|reflexivity].
  cbn [info_size info_data].
  rewrite memcmp_eq_false by exact Hsig. rewrite andb_false_r.
  destruct (Z.ltb_spec (Z.of_nat (List.length (buf_data buffer))) (11 + 4));
    [reflexivity | lia].
Qed.

(** a tag is its 11 byte header, the payload region and its 4 byte
    footer *)
Lemma region_split (data : list byte) :
  15 <= Z.of_nat (List.length data) ->
  let size := Z.of_nat (List.length data) in
  let payload := region data 11 (size - 11 - 4) in
  data = firstn 11 data ++ payload ++ skipn (Z.to_nat (size - 4)) data
  /\ List.length (firstn 11 data) = 11%nat
  /\ Z.of_nat (List.length payload) = size - 15
  /\ List.length (skipn (Z.to_nat (size - 4)) data) = 4%nat.
Proof.
  intros Hlen size payload. subst payload. unfold region.
  change (Z.to_nat 11) with 11%nat.
  assert (Hs : skipn (Z.to_nat (size - 4)) data
               = skipn (Z.to_nat (size - 11 - 4)) (skipn 11 data)).
  { rewrite skipn_skipn. f_equal. lia. }
  repeat split.
  - rewrite Hs, firstn_skipn, firstn_skipn. reflexivity.
  - rewrite length_firstn. lia.
  - rewrite length_firstn, length_skipn. lia.
  - rewrite length_skipn. lia.
Qed.

(** The tag timestamp passes through the fixup, and the message gets
    the corrected one, in nanoseconds. *)
Lemma buffer_to_message_accepted self buffer self' message :
  Sink.buffer_to_message self buffer = (self', Some (Some message)) ->
  let data := buf_data buffer in
  let size := Z.of_nat (List.length data) in
  let timestamp :=
    Z.lor (GST_READ_UINT24_BE data 4)
      (wrap32 (Z.shiftl (GST_READ_UINT8 data 7) 24)) in
  15 <= size
  /\ self' = fst (Sink.timestamp_fixup self timestamp)
  /\ buf_dts message
     = wrap64 (snd (Sink.timestamp_fixup self timestamp) * GST_MSECOND)
  /\ buf_data message
     = (if GST_READ_UINT8 data 0 =? GST_RTMP_MESSAGE_TYPE_DATA_AMF0
        then Sink.setDataFrame_header else [])
       ++ region data 11 (size - 11 - 4).
Proof.
  unfold Sink.buffer_to_message, gst_buffer_map.
  destruct (buf_readable buffer); [|discriminate].
  cbn [info_size info_data].
  destruct ((Z.of_nat (List.length (buf_data buffer)) >=? 4)
            && memcmp_eq (buf_data buffer) FLV_signature 3); [discriminate|].
  destruct (Z.ltb_spec (Z.of_nat (List.length (buf_data buffer))) (11 + 4))
    as [|Hge]; [discriminate|].
  cbv zeta.
  destruct (Sink.timestamp_fixup self _) as [s ts].
  destruct (Sink.cstream_of_type _) as [cstream|]; [|discriminate].
  intros [= <- <-]. cbn [fst snd]. split; [lia|]. split; [reflexivity|].
  destruct (GST_READ_UINT8 (buf_data buffer) 0
            =? GST_RTMP_MESSAGE_TYPE_DATA_AMF0); split; reflexivity.
Qed.

(** C10, as amended.  A buffer that does not begin with the FLV
    signature and has fewer than 15 bytes makes [buffer_to_message]
    fail and leaves the element as it was; [render] then answers ERROR,
    unless the buffer is a header buffer while stream headers are set,
    which [render] skips with OK before any conversion; nothing is
    queued either way.  For every accepted buffer the region taken from
    it is exactly the bytes between its first 11 and its last 4, and
    the payload of the message is that region, behind the 16 byte
    setDataFrame header when the tag is script data. *)
Theorem small_buffers_and_payload self buffer :
  (firstn 3 (buf_data buffer) <> FLV_signature ->
   Z.of_nat (List.length (buf_data buffer)) < 15 ->
   Sink.buffer_to_message self buffer = (self, None)
   /\ (Sink.should_drop_header self buffer = false ->
       Sink.gst_rtmp2_sink_render self buffer
       = (self, Sink.SendReturn GST_FLOW_ERROR))
   /\ (Sink.should_drop_header self buffer = true ->
       Sink.gst_rtmp2_sink_render self buffer
       = (self, Sink.SendReturn GST_FLOW_OK)))
  /\ (forall self' message,
        Sink.buffer_to_message self buffer = (self', Some (Some message)) ->
        let data := buf_data buffer in
        let size := Z.of_nat (List.length data) in
        let payload := region data 11 (size - 11 - 4) in
        15 <= size
        /\ data = firstn 11 data ++ payload ++ skipn (Z.to_nat (size - 4)) data
        /\ List.length (firstn 11 data) = 11%nat
        /\ Z.of_nat (List.length payload) = size - 15
        /\ List.length (skipn (Z.to_nat (size - 4)) data) = 4%nat
        /\ buf_data message
           = (if GST_READ_UINT8 data 0 =? GST_RTMP_MESSAGE_TYPE_DATA_AMF0
              then Sink.setDataFrame_header else [])
             ++ payload).
Proof.
  split.
  - intros Hsig Hlen.
    pose proof (buffer_to_message_too_small self buffer Hsig Hlen) as E.
    split; [exact E|].
    unfold Sink.gst_rtmp2_sink_render. rewrite E.
    split; intros ->; reflexivity.
  - intros self' message E. cbv zeta.
    destruct (buffer_to_message_accepted _ _ _ _ E) as (Hlen & _ & _ & Hdata).
    destruct (region_split (buf_data buffer) Hlen) as (H1 & H2 & H3 & H4).
    repeat split; assumption.
Qed.

(** A two byte buffer fails; an audio tag gives its two payload bytes. *)
Lemma small_buffers_and_payload_witness :
  firstn 3 (buf_data (raw_buffer false [x00; x01])) <> FLV_signature
  /\ Z.of_nat (List.length (buf_data (raw_buffer false [x00; x01]))) < 15
  /\ Sink.gst_rtmp2_sink_render
       (Sink.gst_rtmp2_sink_start Sink.gst_rtmp2_sink_init)
       (raw_buffer false [x00; x01])
     = (Sink.gst_rtmp2_sink_start Sink.gst_rtmp2_sink_init,
        Sink.SendReturn GST_FLOW_ERROR)
  /\ (exists self' message,
        Sink.buffer_to_message
          (Sink.gst_rtmp2_sink_start Sink.gst_rtmp2_sink_init)
          (raw_buffer false audio_tag)
        = (self', Some (Some message))
        /\ buf_data message = [xaf; x01]).
Proof.
  assert (H1 : firstn 3 (buf_data (raw_buffer false [x00; x01]))
               <> FLV_signature) by discriminate.
  assert (H2 : Z.of_nat (List.length (buf_data (raw_buffer false [x00; x01])))
               < 15) by (cbn; lia).
  split; [exact H1|]. split; [exact H2|]. split.
  - apply (proj1 (small_buffers_and_payload
                    (Sink.gst_rtmp2_sink_start Sink.gst_rtmp2_sink_init)
                    (raw_buffer false [x00; x01])) H1 H2).
    reflexivity.
  - destruct (Sink.buffer_to_message
                (Sink.gst_rtmp2_sink_start Sink.gst_rtmp2_sink_init)
                (raw_buffer false audio_tag)) as [self' [[message|]|]] eqn:E;
      try (vm_compute in E; discriminate).
    exists self', message. split; [reflexivity|].
    destruct (proj2 (small_buffers_and_payload
                       (Sink.gst_rtmp2_sink_start Sink.gst_rtmp2_sink_init)
                       (raw_buffer false audio_tag)) self' message E)
      as (_ & _ & _ & _ & _ & Hdata).
    exact Hdata.
Defined.

(** C10, as stated, fails twice.  A two byte header buffer that reaches
    [render] while stream headers are set is skipped with OK, not
    ERROR.  And an accepted script data tag with an empty payload gives
    a message whose payload is the 16 byte setDataFrame header, not the
    empty region between the tag header and the footer. *)
Lemma small_buffers_and_payload_counterexample :
  (firstn 3 (buf_data (raw_buffer true [x00; x01])) <> FLV_signature
   /\ Z.of_nat (List.length (buf_data (raw_buffer true [x00; x01]))) < 15
   /\ Sink.gst_rtmp2_sink_render
        (Sink.set_queue (Sink.gst_rtmp2_sink_start Sink.gst_rtmp2_sink_init)
           [gst_rtmp_message_new GST_RTMP_MESSAGE_TYPE_DATA_AMF0 4 1] None)
        (raw_buffer true [x00; x01])
      = (Sink.set_queue (Sink.gst_rtmp2_sink_start Sink.gst_rtmp2_sink_init)
           [gst_rtmp_message_new GST_RTMP_MESSAGE_TYPE_DATA_AMF0 4 1] None,
         Sink.SendReturn GST_FLOW_OK))
  /\ (exists self' message,
        Sink.buffer_to_message
          (Sink.gst_rtmp2_sink_start Sink.gst_rtmp2_sink_init)
          (raw_buffer false script_tag)
        = (self', Some (Some message))
        /\ region script_tag 11 (15 - 11 - 4) = []
        /\ buf_data message = Sink.setDataFrame_header
        /\ buf_data message <> region script_tag 11 (15 - 11 - 4)).
Proof.
  split.
  - split; [discriminate|]. split; [cbn; lia | reflexivity].
  - eexists _, _. split; [vm_compute; reflexivity|].
    split; [reflexivity|]. split; [reflexivity | discriminate].
Qed.

(** The guard of [send_message]: a call that finds more than three
    messages queued, while not flushing, is suspended in the second
    loop and has queued nothing. *)
Lemma send_message_deep_queue self c message :
  Sink.flushing self = false ->
  Sink.connection self = Some c ->
  gst_rtmp_connection_get_num_queued c > 3 ->
  Sink.send_message self message = (self, Sink.SendSuspended Sink.WaitQueue).
Proof.
  intros Hf Hc Hn. unfold Sink.send_message, Sink.send_message_from.
  unfold Sink.queue_too_deep. rewrite Hf, Hc. cbn [negb is_some andb].
  destruct (Z.gtb_spec (gst_rtmp_connection_get_num_queued c) 3);
    [reflexivity | lia].
Qed.

(** ** The FLV header of the play path *)

(** What [create] does with the FLV header, by the flag. *)
Lemma create_emits self self' outbuf m :
  Src.gst_rtmp2_src_create self
  = (self', Src.CreateReturn GST_FLOW_OK (Some outbuf)) ->
  Src.message self = Some m ->
  Src.sent_header self' = true
  /\ (Src.sent_header self = false -> Src.is_header_and_tag_of m outbuf)
  /\ (Src.sent_header self = true -> Src.is_tag_of m outbuf).
Proof.
  unfold Src.gst_rtmp2_src_create. intros E Hm. rewrite Hm in E.
  destruct (buf_meta m) as [meta|] eqn:Emeta; [|discriminate].
  destruct (negb (buf_dts m =? GST_CLOCK_TIME_NONE));
    cbn [Src.sent_header Src.set_last_ts Src.set_message] in E;
    destruct (Src.sent_header self) eqn:Es; cbn [negb] in E;
    injection E as <- <-;
    cbn [Src.sent_header Src.set_sent_header Src.set_last_ts Src.set_message];
    (split; [first [reflexivity | exact Es] |]);
    (split; intros H; try discriminate H; exists meta; split;
     [exact Emeta | reflexivity]).
Qed.

Lemma create_keeps_flag self self' r :
  Src.gst_rtmp2_src_create self = (self', r) ->
  (forall outbuf, r <> Src.CreateReturn GST_FLOW_OK (Some outbuf)) ->
  Src.sent_header self' = Src.sent_header self.
Proof.
  unfold Src.gst_rtmp2_src_create. intros E Hr.
  destruct (Src.message self) as [m|].
  - destruct (buf_meta m) as [meta|].
    + destruct (negb (buf_dts m =? GST_CLOCK_TIME_NONE));
        cbn [Src.sent_header Src.set_last_ts Src.set_message] in E;
        destruct (Src.sent_header self); cbn [negb] in E;
        injection E as <- <-; exfalso; eapply Hr; reflexivity.
    + injection E as <- <-. reflexivity.
  - destruct (negb (Src.running self)); [|destruct (Src.flushing self)];
      injection E as <- <-; reflexivity.
Qed.

Lemma got_message_keeps_flag self b :
  Src.sent_header (fst (Src.got_message self b)) = Src.sent_header self.
Proof.
  unfold Src.got_message, Src.got_message_store.
  destruct (buf_meta b) as [meta|]; [|reflexivity].
  destruct (negb (meta_mstream meta =? Src.stream_id self)); [reflexivity|].
  destruct (Src.min_size_of_type (meta_type meta)) as [min_size|];
    [|reflexivity].
  destruct (meta_size meta <? min_size); [reflexivity|].
  destruct (Src.message self); [destruct (negb (Src.running self))|];
    reflexivity.
Qed.

(** Only a [create] that returns a buffer touches the flag, and it
    sets it. *)
Lemma step_keeps_or_emits self ev :
  match snd (Src.step self ev) with
  | None => Src.sent_header (fst (Src.step self ev)) = Src.sent_header self
  | Some (m, outbuf) =>
    Src.sent_header (fst (Src.step self ev)) = true
    /\ (Src.sent_header self = false -> Src.is_header_and_tag_of m outbuf)
    /\ (Src.sent_header self = true -> Src.is_tag_of m outbuf)
  end.
Proof.
  destruct ev; cbn [Src.step fst snd]; try reflexivity.
  - destruct (Src.gst_rtmp2_src_create self) as [self' r] eqn:E.
    destruct r as [ret outbuf|].
    + destruct ret, outbuf as [outbuf|], (Src.message self) as [m|] eqn:Em;
        cbn [fst snd];
        try (eapply create_keeps_flag; [exact E | intros o; discriminate]).
      * eapply create_emits; eassumption.
      * unfold Src.gst_rtmp2_src_create in E. rewrite Em in E.
        destruct (negb (Src.running self)); [|destruct (Src.flushing self)];
          discriminate.
    + destruct (Src.message self); cbn [fst snd];
        (eapply create_keeps_flag; [exact E | intros o; discriminate]).
  - apply got_message_keeps_flag.
  - unfold Src.got_message_store.
    destruct (Src.message self); [destruct (negb (Src.running self))|];
      reflexivity.
  - unfold Src.error_callback.
    destruct (Src.cancellable self); [|destruct (Src.loop self)]; reflexivity.
  - unfold Src.control_callback.
    destruct ((uc_type =? Src.GST_RTMP_USER_CONTROL_TYPE_STREAM_EOF)
              && (stream_id =? 1)); reflexivity.
  - unfold Src.start_play_done.
    destruct (g_task_return_error_if_cancelled task) as [[|] t]; [reflexivity|].
    destruct play_finish; reflexivity.
  - unfold Src.connect_task_done.
    destruct (g_task_propagate_pointer task) as [c e].
    destruct (is_some c); [reflexivity|].
    unfold Src.send_connect_error.
    destruct e; [|reflexivity].
    repeat match goal with |- context [if ?b then _ else _] => destruct b end;
      reflexivity.
Qed.

Lemma run_cons self ev evs :
  Src.run self (ev :: evs)
  = (fst (Src.run (fst (Src.step self ev)) evs),
     match snd (Src.step self ev) with
     | Some o => o :: snd (Src.run (fst (Src.step self ev)) evs)
     | None => snd (Src.run (fst (Src.step self ev)) evs)
     end).
Proof.
  cbn [Src.run]. destruct (Src.step self ev) as [s o].
  cbn [fst snd]. destruct (Src.run s evs). reflexivity.
Qed.

Lemma run_after_header evs : forall self,
  Src.sent_header self = true ->
  Forall (fun o => Src.is_tag_of (fst o) (snd o)) (snd (Src.run self evs)).
Proof.
  induction evs as [|ev evs IH]; intros self Hs.
  - constructor.
  - rewrite run_cons. cbn [snd].
    pose proof (step_keeps_or_emits self ev) as Hstep.
    destruct (snd (Src.step self ev)) as [[m outbuf]|].
    + destruct Hstep as (Hs' & _ & Htag).
      constructor; [apply Htag, Hs | apply IH, Hs'].
    + apply IH. congruence.
Qed.

Lemma run_before_header evs : forall self,
  Src.sent_header self = false ->
  match snd (Src.run self evs) with
  | [] => True
  | (m, outbuf) :: rest =>
    Src.is_header_and_tag_of m outbuf
    /\ Forall (fun o => Src.is_tag_of (fst o) (snd o)) rest
  end.
Proof.
  induction evs as [|ev evs IH]; intros self Hs.
  - exact I.
  - rewrite run_cons. cbn [snd].
    pose proof (step_keeps_or_emits self ev) as Hstep.
    destruct (snd (Src.step self ev)) as [[m outbuf]|].
    + destruct Hstep as (Hs' & Hhdr & _).
      split; [apply Hhdr, Hs | apply run_after_header, Hs'].
    + apply IH. congruence.
Qed.

(** C9.  The synthetic FLV header has 13 bytes.  In every run of the
    element after [start], whatever the interleaving of [create] calls
    with callbacks and control calls, the first buffer [create] returns
    is the header followed by the FLV tag of the message it took, and
    every later buffer is the tag of its message alone. *)
Theorem flv_header_once self fresh evs :
  List.length Src.flv_header_data = 13%nat
  /\ match snd (Src.run (Src.gst_rtmp2_src_start self fresh) evs) with
     | [] => True
     | (m, outbuf) :: rest =>
       Src.is_header_and_tag_of m outbuf
       /\ Forall (fun o => Src.is_tag_of (fst o) (snd o)) rest
     end.
Proof.
  split; [reflexivity|]. apply run_before_header. reflexivity.
Qed.

(** Two audio messages of one payload byte each: the first buffer has
    13 + 11 + 1 + 4 bytes, the second 11 + 1 + 4. *)
Example flv_header_once_two_messages :
  map (fun o => List.length (buf_data (snd o)))
    (snd (Src.run
            (Src.set_stream_id
               (Src.gst_rtmp2_src_start Src.gst_rtmp2_src_init 1) 1)
            [Src.EvGotMessage (play_message GST_RTMP_MESSAGE_TYPE_AUDIO 1 2 0 [xaf]);
             Src.EvCreate;
             Src.EvGotMessage
               (play_message GST_RTMP_MESSAGE_TYPE_AUDIO 1 2 23000000 [x01]);
             Src.EvCreate;
             Src.EvCreate]))
  = [29%nat; 16%nat].
Proof. vm_compute. reflexivity. Qed.

(** * Further properties of the two elements *)

(** ** Bytes written and read back *)

Lemma u8_byte_of_Z z : u8 (byte_of_Z z) = z mod 2 ^ 8.
Proof.
  unfold u8, byte_of_Z. change (2 ^ 8) with 256.
  pose proof (Z.mod_pos_bound z 256 eq_refl) as Hr.
  destruct (Byte.of_N (Z.to_N (z mod 256))) as [b|] eqn:E.
  - apply Byte.to_of_N in E. rewrite E. apply Z2N.id. lia.
  - apply Byte.of_N_None_iff in E. lia.
Qed.

(* bit of a byte-sized slice of a number *)
Ltac bits :=
  repeat match goal with
         | |- context [Z.testbit (Z.lor ?a ?b) ?m] => rewrite (Z.lor_spec a b m)
         | |- context [Z.testbit (Z.shiftl ?a ?k) ?m] =>
           rewrite (Z.shiftl_spec a k m) by lia
         | |- context [Z.testbit (Z.shiftr ?a ?k) ?m] =>
           rewrite (Z.shiftr_spec a k m) by lia
         | |- context [Z.testbit (?a mod 2 ^ ?k) ?m] =>
           first [ rewrite (Z.mod_pow2_bits_low a k m) by lia
                 | rewrite (Z.mod_pow2_bits_high a k m) by lia ]
         | |- context [Z.testbit ?a ?m] => rewrite (Z.testbit_neg_r a m) by lia
         | |- context [?b || false] => rewrite (orb_false_r b)
         | |- context [false || ?b] => rewrite (orb_false_l b)
         end.

Lemma uint24_of_bytes v :
  Z.lor (Z.shiftl (u8 (byte_of_Z (Z.shiftr v 16))) 16)
    (Z.lor (Z.shiftl (u8 (byte_of_Z (Z.shiftr v 8))) 8) (u8 (byte_of_Z v)))
  = v mod 2 ^ 24.
Proof.
  rewrite !u8_byte_of_Z.
  apply Z.bits_inj'. intros n Hn.
  destruct (Z_lt_dec n 8); [bits; f_equal; lia|].
  destruct (Z_lt_dec n 16); [bits; f_equal; lia|].
  destruct (Z_lt_dec n 24); [bits; f_equal; lia|].
  bits. reflexivity.
Qed.

(** reading back the 24 bits written behind any prefix *)
Lemma read_write_uint24 pre v rest :
  GST_READ_UINT24_BE (pre ++ GST_WRITE_UINT24_BE v ++ rest) (List.length pre)
  = v mod 2 ^ 24.
Proof.
  unfold GST_READ_UINT24_BE, GST_READ_UINT8.
  rewrite <- (Nat.add_0_r (List.length pre)) at 1.
  rewrite !app_nth2_plus. cbn [GST_WRITE_UINT24_BE app nth].
  apply uint24_of_bytes.
Qed.

Lemma uint32_of_bytes ts :
  0 <= ts < 2 ^ 32 ->
  Z.lor
    (Z.lor (Z.shiftl (u8 (byte_of_Z (Z.shiftr ts 16))) 16)
       (Z.lor (Z.shiftl (u8 (byte_of_Z (Z.shiftr ts 8))) 8) (u8 (byte_of_Z ts))))
    (wrap32 (Z.shiftl (u8 (byte_of_Z (Z.shiftr ts 24))) 24))
  = ts.
Proof.
  intros Hts. unfold wrap32. rewrite !u8_byte_of_Z.
  rewrite <- (Z.mod_small ts (2 ^ 32)) at 5 by exact Hts.
  apply Z.bits_inj'. intros n Hn.
  destruct (Z_lt_dec n 8); [bits; f_equal; lia|].
  destruct (Z_lt_dec n 16); [bits; f_equal; lia|].
  destruct (Z_lt_dec n 24); [bits; f_equal; lia|].
  destruct (Z_lt_dec n 32); [bits; f_equal; lia|].
  bits. reflexivity.
Qed.

(** reading back the timestamp written at bytes 4 to 7 of a tag *)
Lemma read_timestamp_bytes ts pre0 pre1 pre2 pre3 rest :
  0 <= ts < 2 ^ 32 ->
  tag_timestamp_of
    ([pre0; pre1; pre2; pre3] ++ GST_WRITE_UINT24_BE ts
     ++ GST_WRITE_UINT8 (Z.shiftr ts 24) ++ rest)
  = ts.
Proof.
  intros Hts.
  unfold tag_timestamp_of, GST_READ_UINT24_BE, GST_READ_UINT8,
    GST_WRITE_UINT24_BE, GST_WRITE_UINT8.
  cbn [app nth Nat.add]. apply uint32_of_bytes. exact Hts.
Qed.

(** ** The fixup state through the calls of the sink *)

Lemma buffer_to_message_fixup self buffer :
  fst (Sink.buffer_to_message self buffer) = self
  \/ fst (Sink.buffer_to_message self buffer)
     = fst (Sink.timestamp_fixup self (tag_timestamp_of (buf_data buffer))).
Proof.
  unfold Sink.buffer_to_message, gst_buffer_map, tag_timestamp_of.
  destruct (buf_readable buffer); [|left; reflexivity].
  cbn [info_size info_data].
  destruct (_ && _); [left; reflexivity|].
  destruct (_ <? _); [left; reflexivity|].
  destruct (Sink.timestamp_fixup self _) as [s ts].
  destruct (Sink.cstream_of_type _); right; reflexivity.
Qed.

Lemma queue_message_fields self m :
  Sink.last_ts (Sink.queue_message self m) = Sink.last_ts self
  /\ Sink.base_ts (Sink.queue_message self m) = Sink.base_ts self
  /\ Sink.headers (Sink.queue_message self m) = Sink.headers self
  /\ Sink.flushing (Sink.queue_message self m) = Sink.flushing self
  /\ Sink.connection (Sink.queue_message self m)
     = option_map
         (fun c => {| output_queue := output_queue c ++ [m] |})
         (Sink.connection self).
Proof.
  unfold Sink.queue_message.
  destruct (Sink.connection self) as [c|] eqn:E; cbn; rewrite ?E; auto.
Qed.

Lemma fold_queue_message hs : forall self,
  Sink.last_ts (fold_left Sink.queue_message hs self) = Sink.last_ts self
  /\ Sink.base_ts (fold_left Sink.queue_message hs self) = Sink.base_ts self
  /\ Sink.headers (fold_left Sink.queue_message hs self) = Sink.headers self
  /\ Sink.flushing (fold_left Sink.queue_message hs self) = Sink.flushing self
  /\ Sink.connection (fold_left Sink.queue_message hs self)
     = option_map
         (fun c => {| output_queue := output_queue c ++ hs |})
         (Sink.connection self).
Proof.
  induction hs as [|h hs IH]; intros self.
  - cbn [fold_left]. repeat split.
    destruct (Sink.connection self) as [[q]|]; cbn; [rewrite app_nil_r|];
      reflexivity.
  - cbn [fold_left].
    destruct (IH (Sink.queue_message self h)) as (H1 & H2 & H3 & H4 & H5).
    destruct (queue_message_fields self h) as (Q1 & Q2 & Q3 & Q4 & Q5).
    rewrite H1, H2, H3, H4, H5, Q1, Q2, Q3, Q4, Q5. repeat split.
    destruct (Sink.connection self) as [[q]|]; cbn; [|reflexivity].
    rewrite <- app_assoc. reflexivity.
Qed.

Lemma send_message_keeps_fixup p self m :
  Sink.last_ts (fst (Sink.send_message_from p self m)) = Sink.last_ts self
  /\ Sink.base_ts (fst (Sink.send_message_from p self m)) = Sink.base_ts self.
Proof.
  assert (H : forall s, Sink.last_ts (Sink.queue_message (Sink.send_streamheader s) m)
                        = Sink.last_ts s
                        /\ Sink.base_ts (Sink.queue_message (Sink.send_streamheader s) m)
                           = Sink.base_ts s).
  { intros s. unfold Sink.queue_message, Sink.send_streamheader.
    destruct (fold_queue_message (Sink.headers s) s) as (H1 & H2 & _).
    destruct (_ =? 0); [destruct (Sink.connection s); split; reflexivity|].
    cbn [Sink.connection Sink.set_queue].
    destruct (Sink.connection (fold_left Sink.queue_message (Sink.headers s) s));
      cbn; auto. }
  unfold Sink.send_message_from.
  destruct p;
    repeat match goal with
           | |- context [if ?b then _ else _] => destruct b
           end; cbn [fst]; auto.
Qed.

Lemma render_fixup self buffer :
  let self' := fst (Sink.gst_rtmp2_sink_render self buffer) in
  (Sink.last_ts self' = Sink.last_ts self /\ Sink.base_ts self' = Sink.base_ts self)
  \/ (Sink.last_ts self'
      = Sink.last_ts (fst (Sink.timestamp_fixup self (tag_timestamp_of (buf_data buffer))))
      /\ Sink.base_ts self'
         = Sink.base_ts (fst (Sink.timestamp_fixup self (tag_timestamp_of (buf_data buffer))))).
Proof.
  cbv zeta. unfold Sink.gst_rtmp2_sink_render.
  destruct (Sink.should_drop_header self buffer); [left; auto|].
  pose proof (buffer_to_message_fixup self buffer) as H.
  destruct (Sink.buffer_to_message self buffer) as [s [[m|]|]]; cbn [fst] in *.
  - destruct (send_message_keeps_fixup Sink.WaitConnection s m) as [H1 H2].
    unfold Sink.send_message. rewrite H1, H2.
    destruct H as [-> | ->]; [left | right]; auto.
  - destruct H as [-> | ->]; [left | right]; auto.
  - destruct H as [-> | ->]; [left | right]; auto.
Qed.

Lemma fixup_state_ok_fields s s' :
  Sink.last_ts s' = Sink.last_ts s -> Sink.base_ts s' = Sink.base_ts s ->
  fixup_state_ok s -> fixup_state_ok s'.
Proof. unfold fixup_state_ok. intros -> ->. trivial. Qed.

Lemma render_keeps_fixup_state self buffer :
  fixup_state_ok self ->
  Sink.base_ts self + 2 ^ 32 <= 2 ^ 63 ->
  fixup_state_ok (fst (Sink.gst_rtmp2_sink_render self buffer))
  /\ Sink.base_ts (fst (Sink.gst_rtmp2_sink_render self buffer))
     <= Sink.base_ts self + 2 ^ 32.
Proof.
  intros Hok Hroom.
  pose proof (tag_timestamp_is_uint32 (buf_data buffer)) as Hts.
  fold (tag_timestamp_of (buf_data buffer)) in Hts.
  pose proof (fixup_state_ok_step self _ Hts Hok Hroom) as [Hok' Hb'].
  pose proof (render_fixup self buffer) as Hr. cbv zeta in Hr.
  set (s' := fst (Sink.gst_rtmp2_sink_render self buffer)) in *.
  set (s1 := fst (Sink.timestamp_fixup self (tag_timestamp_of (buf_data buffer)))) in *.
  clearbody s' s1.
  destruct Hr as [[H1 H2] | [H1 H2]].
  - split; [exact (fixup_state_ok_fields self s' H1 H2 Hok)|].
    rewrite H2. change (2 ^ 32) with 4294967296. lia.
  - split; [exact (fixup_state_ok_fields s1 s' H1 H2 Hok')|].
    rewrite H2. exact Hb'.
Qed.

Lemma started_sink_ok :
  fixup_state_ok (Sink.gst_rtmp2_sink_start Sink.gst_rtmp2_sink_init).
Proof.
  unfold fixup_state_ok; cbn. repeat split; try lia. exists 0; reflexivity.
Qed.

(** Rendering keeps the timestamp fixup in its working range.  From a
    state in range, and while the base has room for one wrap per buffer,
    whatever buffers are rendered (FLV headers, tags of any type and
    timestamp, buffers that are too small or skipped), [base_ts] stays a
    multiple of 2^32 and [last_ts] stays in the 2^32 window above it. *)
Theorem render_run_keeps_fixup_state buffers : forall self,
  fixup_state_ok self ->
  Sink.base_ts self + Z.of_nat (List.length buffers) * 2 ^ 32 <= 2 ^ 63 ->
  fixup_state_ok (render_run self buffers).
Proof.
  induction buffers as [|b buffers IH]; intros self Hok Hroom; [exact Hok|].
  cbn [List.length] in Hroom. rewrite Nat2Z.inj_succ in Hroom.
  assert (Hroom1 : Sink.base_ts self + 2 ^ 32 <= 2 ^ 63).
  { pose proof (Nat2Z.is_nonneg (List.length buffers)).
    change (2 ^ 63) with 9223372036854775808 in *.
    change (2 ^ 32) with 4294967296 in *. lia. }
  destruct (render_keeps_fixup_state self b Hok Hroom1) as [Hok' Hb'].
  cbn [render_run]. apply IH; [exact Hok'|].
  set (s1 := fst (Sink.gst_rtmp2_sink_render self b)) in *.
  change (2 ^ 63) with 9223372036854775808 in *.
  change (2 ^ 32) with 4294967296 in *. lia.
Qed.

(** The FLV header and an audio tag. *)
Lemma render_run_keeps_fixup_state_witness :
  fixup_state_ok (Sink.gst_rtmp2_sink_start Sink.gst_rtmp2_sink_init)
  /\ Sink.base_ts (Sink.gst_rtmp2_sink_start Sink.gst_rtmp2_sink_init)
     + Z.of_nat (List.length [raw_buffer true flvmux_header;
                              raw_buffer false audio_tag]) * 2 ^ 32
     <= 2 ^ 63
  /\ fixup_state_ok
       (render_run (Sink.gst_rtmp2_sink_start Sink.gst_rtmp2_sink_init)
          [raw_buffer true flvmux_header; raw_buffer false audio_tag]).
Proof.
  assert (H : Sink.base_ts (Sink.gst_rtmp2_sink_start Sink.gst_rtmp2_sink_init)
              + Z.of_nat (List.length [raw_buffer true flvmux_header;
                                       raw_buffer false audio_tag]) * 2 ^ 32
              <= 2 ^ 63) by (cbn; lia).
  split; [exact started_sink_ok|]. split; [exact H|].
  exact (render_run_keeps_fixup_state _ _ started_sink_ok H).
Defined.

Lemma climbing_uncorrected l : forall self prev,
  Sink.base_ts self = 0 -> Sink.last_ts self = prev -> is_uint32 prev ->
  Forall is_uint32 l -> climbing prev l ->
  corrected_timestamps self l = l.
Proof.
  induction l as [|ts l IH]; intros self prev Hb Hl Hprev Hall Hclimb;
    [reflexivity|].
  inversion Hall as [|? ? Hts Hall']; subst.
  destruct Hclimb as [Hstep Hrest].
  assert (Hok : fixup_state_ok self).
  { unfold fixup_state_ok, is_uint32 in *. rewrite Hb. repeat split; try lia.
    exists 0; reflexivity. }
  destruct (timestamp_fixup_cases self ts Hts Hok) as (Hlast & _ & _ & _ & Hkeep).
  unfold G_MAXINT32 in Hkeep. change (2 ^ 31) with 2147483648 in Hstep.
  rewrite Hb in Hkeep. destruct Hkeep as [Eb Eo]; [lia|].
  cbn [corrected_timestamps].
  destruct (Sink.timestamp_fixup self ts) as [self' out].
  cbn [fst snd] in *. subst out. f_equal; [lia|].
  apply (IH self' ts); auto. lia.
Qed.

(** Before the first wrap the fixup changes nothing: tag timestamps that
    only climb from zero, each by less than 2^31, come out of a freshly
    started element as they went in. *)
Theorem fixup_transparent_before_wrap l :
  Forall is_uint32 l -> climbing 0 l ->
  corrected_timestamps (Sink.gst_rtmp2_sink_start Sink.gst_rtmp2_sink_init) l = l.
Proof.
  intros Hall Hclimb. apply (climbing_uncorrected l _ 0); auto.
  unfold is_uint32; lia.
Qed.

(** Three frames 40 ms apart. *)
Lemma fixup_transparent_before_wrap_witness :
  Forall is_uint32 [0; 40; 80] /\ climbing 0 [0; 40; 80]
  /\ corrected_timestamps (Sink.gst_rtmp2_sink_start Sink.gst_rtmp2_sink_init)
       [0; 40; 80] = [0; 40; 80].
Proof.
  assert (H1 : Forall is_uint32 [0; 40; 80])
    by (repeat constructor; unfold is_uint32; lia).
  assert (H2 : climbing 0 [0; 40; 80]) by (cbn; lia).
  split; [exact H1|]. split; [exact H2|].
  exact (fixup_transparent_before_wrap _ H1 H2).
Defined.

(** The timestamp [buffer_to_message] reads from bytes 4 to 7 of a tag
    is a 32-bit value, whatever the bytes. *)
Theorem tag_timestamp_in_range data : is_uint32 (tag_timestamp_of data).
Proof. exact (tag_timestamp_is_uint32 data). Qed.

(** ** What the sink accepts and queues *)

Lemma cstream_of_type_media type :
  (forall c, Sink.cstream_of_type type = Some c ->
     is_media_type type
     /\ (type = GST_RTMP_MESSAGE_TYPE_DATA_AMF0 -> c = 4)
     /\ (type = GST_RTMP_MESSAGE_TYPE_AUDIO -> c = 5)
     /\ (type = GST_RTMP_MESSAGE_TYPE_VIDEO -> c = 6))
  /\ (Sink.cstream_of_type type = None -> ~ is_media_type type).
Proof.
  unfold Sink.cstream_of_type, is_media_type,
    GST_RTMP_MESSAGE_TYPE_DATA_AMF0, GST_RTMP_MESSAGE_TYPE_AUDIO,
    GST_RTMP_MESSAGE_TYPE_VIDEO.
  destruct (Z.eqb_spec type 18); [split; [intros c [= <-]|discriminate]; lia|].
  destruct (Z.eqb_spec type 8); [split; [intros c [= <-]|discriminate]; lia|].
  destruct (Z.eqb_spec type 9); [split; [intros c [= <-]|discriminate]; lia|].
  split; [discriminate|]. intros _. lia.
Qed.

(** a readable buffer of tag size that is not the FLV header reaches
    the type switch with the fixup done *)
Lemma buffer_to_message_tag self buffer :
  buf_readable buffer = true ->
  firstn 3 (buf_data buffer) <> FLV_signature ->
  15 <= Z.of_nat (List.length (buf_data buffer)) ->
  let data := buf_data buffer in
  let fixed := Sink.timestamp_fixup self (tag_timestamp_of data) in
  Sink.buffer_to_message self buffer
  = match Sink.cstream_of_type (GST_READ_UINT8 data 0) with
    | None => (fst fixed, None)
    | Some cstream =>
      let message :=
        with_dts
          (gst_buffer_append_region
             (gst_rtmp_message_new (GST_READ_UINT8 data 0) cstream 1) buffer 11
             (Z.of_nat (List.length data) - 11 - 4))
          (wrap64 (snd fixed * GST_MSECOND)) in
      (fst fixed,
       Some (Some (if GST_READ_UINT8 data 0 =? GST_RTMP_MESSAGE_TYPE_DATA_AMF0
                   then gst_buffer_prepend_memory message Sink.setDataFrame_header
                   else message)))
    end.
Proof.
  intros Hr Hsig Hlen. cbv zeta.
  unfold Sink.buffer_to_message, gst_buffer_map, tag_timestamp_of. rewrite Hr.
  cbn [info_size info_data].
  rewrite memcmp_eq_false by exact Hsig. rewrite andb_false_r.
  destruct (Z.ltb_spec (Z.of_nat (List.length (buf_data buffer))) (11 + 4));
    [lia|].
  destruct (Sink.timestamp_fixup self _) as [s ts]. reflexivity.
Qed.

(** A readable buffer of at least 15 bytes that is not the FLV header
    and whose type byte is none of audio, video and script data makes
    [buffer_to_message] fail, but only after its timestamp has gone
    through the fixup: the element is left with the [last_ts] and
    [base_ts] of that step.  [render] answers ERROR for it. *)
Theorem unknown_tag_type_fails_after_fixup self buffer :
  buf_readable buffer = true ->
  firstn 3 (buf_data buffer) <> FLV_signature ->
  15 <= Z.of_nat (List.length (buf_data buffer)) ->
  ~ is_media_type (GST_READ_UINT8 (buf_data buffer) 0) ->
  let fixed := fst (Sink.timestamp_fixup self (tag_timestamp_of (buf_data buffer))) in
  Sink.buffer_to_message self buffer = (fixed, None)
  /\ (Sink.should_drop_header self buffer = false ->
      Sink.gst_rtmp2_sink_render self buffer
      = (fixed, Sink.SendReturn GST_FLOW_ERROR)).
Proof.
  intros Hr Hsig Hlen Htype. cbv zeta.
  assert (E : Sink.buffer_to_message self buffer
              = (fst (Sink.timestamp_fixup self (tag_timestamp_of (buf_data buffer))),
                 None)).
  { rewrite (buffer_to_message_tag self buffer Hr Hsig Hlen). cbv zeta.
    destruct (Sink.cstream_of_type _) as [c|] eqn:Ec; [|reflexivity].
    destruct (proj1 (cstream_of_type_media _) c Ec) as [Hm _]. contradiction. }
  split; [exact E|].
  intros Hd. unfold Sink.gst_rtmp2_sink_render. rewrite Hd, E. reflexivity.
Qed.

(** A tag of type 10 with timestamp 7 reaches an element whose last
    timestamp is 3. *)
Lemma unknown_tag_type_fails_after_fixup_witness :
  buf_readable (raw_buffer false unknown_tag) = true
  /\ firstn 3 (buf_data (raw_buffer false unknown_tag)) <> FLV_signature
  /\ 15 <= Z.of_nat (List.length (buf_data (raw_buffer false unknown_tag)))
  /\ ~ is_media_type (GST_READ_UINT8 (buf_data (raw_buffer false unknown_tag)) 0)
  /\ Sink.buffer_to_message (sink_at 3 0) (raw_buffer false unknown_tag)
     = (fst (Sink.timestamp_fixup (sink_at 3 0)
               (tag_timestamp_of (buf_data (raw_buffer false unknown_tag)))),
        None).
Proof.
  assert (H2 : firstn 3 (buf_data (raw_buffer false unknown_tag))
               <> FLV_signature) by discriminate.
  assert (H3 : 15 <= Z.of_nat (List.length (buf_data (raw_buffer false unknown_tag))))
    by (cbn; lia).
  assert (H4 : ~ is_media_type
                   (GST_READ_UINT8 (buf_data (raw_buffer false unknown_tag)) 0)).
  { unfold is_media_type. cbn. intros [H | [H | H]]; discriminate H. }
  split; [reflexivity|]. split; [exact H2|]. split; [exact H3|].
  split; [exact H4|].
  exact (proj1 (unknown_tag_type_fails_after_fixup (sink_at 3 0)
                  (raw_buffer false unknown_tag) eq_refl H2 H3 H4)).
Defined.

Lemma buffer_to_message_meta self buffer self' message :
  Sink.buffer_to_message self buffer = (self', Some (Some message)) ->
  let type := GST_READ_UINT8 (buf_data buffer) 0 in
  is_media_type type
  /\ exists meta,
       buf_meta message = Some meta
       /\ meta_type meta = type
       /\ meta_mstream meta = 1
       /\ (type = GST_RTMP_MESSAGE_TYPE_DATA_AMF0 -> meta_cstream meta = 4)
       /\ (type = GST_RTMP_MESSAGE_TYPE_AUDIO -> meta_cstream meta = 5)
       /\ (type = GST_RTMP_MESSAGE_TYPE_VIDEO -> meta_cstream meta = 6).
Proof.
  unfold Sink.buffer_to_message, gst_buffer_map.
  destruct (buf_readable buffer); [|discriminate].
  cbn [info_size info_data].
  destruct (_ && _); [discriminate|].
  destruct (_ <? _); [discriminate|].
  destruct (Sink.timestamp_fixup self _) as [s ts].
  destruct (Sink.cstream_of_type _) as [c|] eqn:Ec; [|discriminate].
  destruct (proj1 (cstream_of_type_media _) c Ec) as (Hm & H4 & H5 & H6).
  intros [= _ <-]. cbv zeta. split; [exact Hm|].
  destruct (_ =? GST_RTMP_MESSAGE_TYPE_DATA_AMF0);
    (eexists; split; [reflexivity|]; cbn; auto).
Qed.

Lemma send_streamheader_fields self c :
  Sink.connection self = Some c ->
  Sink.headers (Sink.send_streamheader self) = []
  /\ Sink.connection (Sink.send_streamheader self)
     = Some {| output_queue := output_queue c ++ Sink.headers self |}.
Proof.
  intros Hc. unfold Sink.send_streamheader.
  destruct (Sink.headers self) as [|h hs] eqn:Eh.
  - cbn. rewrite Eh, Hc, app_nil_r. destruct c; auto.
  - cbn [List.length]. rewrite Nat2Z.inj_succ.
    destruct (Z.eqb_spec (Z.succ (Z.of_nat (List.length hs))) 0) as [E|_]; [lia|].
    destruct (fold_queue_message (h :: hs) self) as (_ & _ & _ & _ & H5).
    cbn [Sink.headers Sink.connection Sink.set_queue].
    rewrite H5, Hc. auto.
Qed.

(** Every tag [buffer_to_message] accepts is of type audio, video or
    script data, and the message carries that type, message stream 1,
    and chunk stream 5, 6 or 4. *)
Theorem accepted_message_meta self buffer self' message :
  Sink.buffer_to_message self buffer = (self', Some (Some message)) ->
  let type := GST_READ_UINT8 (buf_data buffer) 0 in
  is_media_type type
  /\ exists meta,
       buf_meta message = Some meta
       /\ meta_type meta = type
       /\ meta_mstream meta = 1
       /\ (type = GST_RTMP_MESSAGE_TYPE_DATA_AMF0 -> meta_cstream meta = 4)
       /\ (type = GST_RTMP_MESSAGE_TYPE_AUDIO -> meta_cstream meta = 5)
       /\ (type = GST_RTMP_MESSAGE_TYPE_VIDEO -> meta_cstream meta = 6).
Proof. exact (buffer_to_message_meta self buffer self' message). Qed.

(** The audio tag is accepted, as an audio message. *)
Lemma accepted_message_meta_witness :
  exists self' message,
    Sink.buffer_to_message
      (Sink.gst_rtmp2_sink_start Sink.gst_rtmp2_sink_init)
      (raw_buffer false audio_tag)
    = (self', Some (Some message))
    /\ is_media_type (GST_READ_UINT8 (buf_data (raw_buffer false audio_tag)) 0).
Proof.
  destruct (Sink.buffer_to_message
              (Sink.gst_rtmp2_sink_start Sink.gst_rtmp2_sink_init)
              (raw_buffer false audio_tag)) as [self' [[message|]|]] eqn:E;
    try (vm_compute in E; discriminate).
  exists self', message. split; [reflexivity|].
  exact (proj1 (accepted_message_meta _ _ _ _ E)).
Defined.

Lemma send_message_ok p self message self' :
  Sink.send_message_from p self message = (self', Sink.SendReturn GST_FLOW_OK) ->
  Sink.flushing self = false
  /\ exists c,
       Sink.connection self = Some c
       /\ gst_rtmp_connection_get_num_queued c <= 3
       /\ Sink.connection self'
          = Some {| output_queue :=
                      output_queue c ++ Sink.headers self ++ [message] |}
       /\ Sink.headers self' = [].
Proof.
  assert (H : forall s,
    (if negb (Sink.flushing s) && Sink.queue_too_deep s
     then (s, Sink.SendSuspended Sink.WaitQueue)
     else if Sink.flushing s then (s, Sink.SendReturn GST_FLOW_FLUSHING)
     else if negb (is_some (Sink.connection s))
     then (s, Sink.SendReturn GST_FLOW_ERROR)
     else (Sink.queue_message (Sink.send_streamheader s) message,
           Sink.SendReturn GST_FLOW_OK))
    = (self', Sink.SendReturn GST_FLOW_OK) ->
    Sink.flushing s = false
    /\ exists c,
         Sink.connection s = Some c
         /\ gst_rtmp_connection_get_num_queued c <= 3
         /\ Sink.connection self'
            = Some {| output_queue := output_queue c ++ Sink.headers s ++ [message] |}
         /\ Sink.headers self' = []).
  { intros s. unfold Sink.queue_too_deep.
    destruct (Sink.flushing s) eqn:Ef; cbn [negb andb]; [discriminate|].
    destruct (Sink.connection s) as [c|] eqn:Ec; cbn [is_some negb];
      [|discriminate].
    destruct (Z.gtb_spec (gst_rtmp_connection_get_num_queued c) 3);
      [discriminate|].
    intros [= <-]. split; [reflexivity|]. exists c.
    destruct (send_streamheader_fields s c Ec) as [Hh Hq].
    destruct (queue_message_fields (Sink.send_streamheader s) message)
      as (_ & _ & Q3 & _ & Q5).
    rewrite Q3, Q5, Hh, Hq. cbn. rewrite <- app_assoc.
    repeat split; auto. }
  unfold Sink.send_message_from. destruct p; [|apply H].
  destruct (_ && _); [discriminate | apply H].
Qed.

(** A [send_message] that returns OK found the element not flushing and
    at most 3 messages queued on its connection.  The connection then
    holds, behind what it held, the stream headers in their order and
    the message last, and the stream headers of the element are empty:
    they are sent once. *)
Theorem send_message_ok_queue p self message self' :
  Sink.send_message_from p self message = (self', Sink.SendReturn GST_FLOW_OK) ->
  Sink.flushing self = false
  /\ exists c,
       Sink.connection self = Some c
       /\ gst_rtmp_connection_get_num_queued c <= 3
       /\ Sink.connection self'
          = Some {| output_queue :=
                      output_queue c ++ Sink.headers self ++ [message] |}
       /\ Sink.headers self' = [].
Proof. exact (send_message_ok p self message self'). Qed.

(** One stream header waits and nothing is queued: the header goes
    first, the message behind it. *)
Lemma send_message_ok_queue_witness :
  exists self',
    Sink.send_message
      (connected_sink [] [gst_rtmp_message_new GST_RTMP_MESSAGE_TYPE_DATA_AMF0 4 1])
      (gst_rtmp_message_new GST_RTMP_MESSAGE_TYPE_AUDIO 5 1)
    = (self', Sink.SendReturn GST_FLOW_OK)
    /\ Sink.headers self' = [].
Proof.
  pose proof (surjective_pairing
                (Sink.send_message
                   (connected_sink []
                      [gst_rtmp_message_new GST_RTMP_MESSAGE_TYPE_DATA_AMF0 4 1])
                   (gst_rtmp_message_new GST_RTMP_MESSAGE_TYPE_AUDIO 5 1))) as E.
  change (snd (Sink.send_message
                 (connected_sink []
                    [gst_rtmp_message_new GST_RTMP_MESSAGE_TYPE_DATA_AMF0 4 1])
                 (gst_rtmp_message_new GST_RTMP_MESSAGE_TYPE_AUDIO 5 1)))
    with (Sink.SendReturn GST_FLOW_OK) in E.
  eexists. split; [exact E|].
  destruct (send_message_ok_queue _ _ _ _ E) as (_ & c & _ & _ & _ & Hh).
  exact Hh.
Defined.

Lemma send_message_refused p self message :
  (forall self' r,
      Sink.send_message_from p self message = (self', r) ->
      r <> Sink.SendReturn GST_FLOW_OK -> self' = self)
  /\ (Sink.flushing self = true ->
      Sink.send_message_from p self message
      = (self, Sink.SendReturn GST_FLOW_FLUSHING))
  /\ (Sink.flushing self = false -> Sink.connection self = None ->
      Sink.connect_task self = None ->
      Sink.send_message_from p self message
      = (self, Sink.SendReturn GST_FLOW_ERROR)).
Proof.
  split; [|split].
  - intros self' r. unfold Sink.send_message_from.
    destruct p;
      repeat match goal with
             | |- context [if ?b then _ else _] => destruct b
             end; intros [= <- <-] Hr; try reflexivity; congruence.
  - intros Hf. unfold Sink.send_message_from. rewrite Hf.
    destruct p; reflexivity.
  - intros Hf Hc Ht. unfold Sink.send_message_from, Sink.queue_too_deep.
    rewrite Hf, Hc, Ht. destruct p; reflexivity.
Qed.

(** [send_message] changes nothing unless it returns OK.  A flushing
    element answers FLUSHING at once, connection or not; an element
    that is not flushing and has neither a connection nor a connect
    task answers ERROR. *)
Theorem send_message_refusals p self message :
  (forall self' r,
      Sink.send_message_from p self message = (self', r) ->
      r <> Sink.SendReturn GST_FLOW_OK -> self' = self)
  /\ (Sink.flushing self = true ->
      Sink.send_message_from p self message
      = (self, Sink.SendReturn GST_FLOW_FLUSHING))
  /\ (Sink.flushing self = false -> Sink.connection self = None ->
      Sink.connect_task self = None ->
      Sink.send_message_from p self message
      = (self, Sink.SendReturn GST_FLOW_ERROR)).
Proof. exact (send_message_refused p self message). Qed.

(** A flushing element refuses the message at once. *)
Lemma send_message_refusals_witness :
  Sink.flushing (Sink.gst_rtmp2_sink_unlock (connected_sink [] [])) = true
  /\ Sink.send_message (Sink.gst_rtmp2_sink_unlock (connected_sink [] []))
       (gst_rtmp_message_new GST_RTMP_MESSAGE_TYPE_AUDIO 5 1)
     = (Sink.gst_rtmp2_sink_unlock (connected_sink [] []),
        Sink.SendReturn GST_FLOW_FLUSHING).
Proof.
  split; [reflexivity|].
  exact (proj1 (proj2 (send_message_refusals Sink.WaitConnection
                         (Sink.gst_rtmp2_sink_unlock (connected_sink [] []))
                         (gst_rtmp_message_new GST_RTMP_MESSAGE_TYPE_AUDIO 5 1)))
           eq_refl).
Defined.

(** ** Stream headers from the caps *)

(** [buffer_to_message] touches the two timestamps and nothing else *)
Lemma buffer_to_message_frame self buffer :
  let self' := fst (Sink.buffer_to_message self buffer) in
  Sink.headers self' = Sink.headers self
  /\ Sink.connection self' = Sink.connection self
  /\ Sink.connect_task self' = Sink.connect_task self
  /\ Sink.flushing self' = Sink.flushing self
  /\ Sink.posted self' = Sink.posted self.
Proof.
  cbv zeta. unfold Sink.buffer_to_message, gst_buffer_map.
  destruct (buf_readable buffer); [|cbn; auto 6].
  cbn [info_size info_data].
  destruct (_ && _); [cbn; auto 6|].
  destruct (_ <? _); [cbn; auto 6|].
  unfold Sink.timestamp_fixup.
  destruct (if _ <? _ then _ else _) as [base ts].
  destruct (Sink.cstream_of_type _); cbn; auto 6.
Qed.

(** the fixup reads the two timestamps of the element and nothing else *)
Lemma timestamp_fixup_ext s1 s2 ts :
  Sink.last_ts s1 = Sink.last_ts s2 ->
  Sink.base_ts s1 = Sink.base_ts s2 ->
  snd (Sink.timestamp_fixup s1 ts) = snd (Sink.timestamp_fixup s2 ts)
  /\ Sink.last_ts (fst (Sink.timestamp_fixup s1 ts))
     = Sink.last_ts (fst (Sink.timestamp_fixup s2 ts))
  /\ Sink.base_ts (fst (Sink.timestamp_fixup s1 ts))
     = Sink.base_ts (fst (Sink.timestamp_fixup s2 ts)).
Proof.
  intros Hl Hb. unfold Sink.timestamp_fixup. rewrite Hl, Hb.
  destruct (if _ <? _ then _ else _) as [base t]. cbn. auto.
Qed.

Lemma corrected_timestamps_ext l : forall s1 s2,
  Sink.last_ts s1 = Sink.last_ts s2 ->
  Sink.base_ts s1 = Sink.base_ts s2 ->
  corrected_timestamps s1 l = corrected_timestamps s2 l.
Proof.
  induction l as [|ts l IH]; intros s1 s2 Hl Hb; [reflexivity|].
  cbn [corrected_timestamps].
  destruct (timestamp_fixup_ext s1 s2 ts Hl Hb) as (Hs & Hl' & Hb').
  destruct (Sink.timestamp_fixup s1 ts) as [s1' o1].
  destruct (Sink.timestamp_fixup s2 ts) as [s2' o2].
  cbn [fst snd] in *. subst o2. f_equal. apply IH; assumption.
Qed.

Lemma corrected_timestamps_count l : forall self,
  List.length (corrected_timestamps self l) = List.length l.
Proof.
  induction l as [|ts l IH]; intros self; [reflexivity|].
  cbn [corrected_timestamps].
  destruct (Sink.timestamp_fixup self ts) as [s out].
  cbn [List.length]. rewrite IH. reflexivity.
Qed.

(** what [buffer_to_message] answers tells the file header from a tag *)
Lemma buffer_to_message_kind self buffer self' r :
  Sink.buffer_to_message self buffer = (self', Some r) ->
  match r with
  | None => is_flv_header buffer = true /\ self' = self
  | Some message =>
    is_flv_header buffer = false
    /\ self' = fst (Sink.timestamp_fixup self (tag_timestamp_of (buf_data buffer)))
    /\ message_of_tag buffer
         (snd (Sink.timestamp_fixup self (tag_timestamp_of (buf_data buffer))))
         message
  end.
Proof.
  intros E. destruct r as [message|].
  - destruct (buffer_to_message_accepted _ _ _ _ E) as (_ & Hs & Hdts & Hdata).
    destruct (buffer_to_message_meta _ _ _ _ E)
      as (Hm & meta & Em & Et & Es & H4 & H5 & H6).
    split; [|split; [exact Hs|]].
    + revert E. unfold Sink.buffer_to_message, gst_buffer_map, is_flv_header.
      destruct (buf_readable buffer); [|discriminate].
      cbn [info_size info_data].
      destruct (_ && _); [discriminate | reflexivity].
    + unfold message_of_tag. split; [exact Hm|].
      split; [|split; [exact Hdata | exact Hdts]].
      exists meta. split; [exact Em|]. split; [exact Et|].
      split; [exact Es|].
      destruct Hm as [Ht | [Ht | Ht]]; rewrite Ht;
        [rewrite (H5 Ht) | rewrite (H6 Ht) | rewrite (H4 Ht)]; reflexivity.
  - revert E. unfold Sink.buffer_to_message, gst_buffer_map, is_flv_header.
    destruct (buf_readable buffer); [|discriminate].
    cbn [info_size info_data].
    destruct (_ && _); [intros [= <-]; auto|].
    destruct (_ <? _); [discriminate|].
    destruct (Sink.timestamp_fixup self _) as [s ts].
    destruct (Sink.cstream_of_type _); discriminate.
Qed.

(** the loop of [set_caps] adds the messages of the tags, in order *)
Lemma collect_streamheaders_exact buffers : forall self self',
  Sink.collect_streamheaders self buffers = (self', true) ->
  Sink.connection self' = Sink.connection self
  /\ exists added,
       Sink.headers self' = Sink.headers self ++ added
       /\ messages_of_tags (streamheader_tags buffers)
            (corrected_timestamps self
               (map (fun b => tag_timestamp_of (buf_data b))
                  (streamheader_tags buffers)))
            added.
Proof.
  induction buffers as [|b buffers IH]; intros self self' E.
  - cbn in E. injection E as <-. split; [reflexivity|].
    exists []. rewrite app_nil_r. split; [reflexivity | constructor].
  - cbn [Sink.collect_streamheaders] in E.
    pose proof (buffer_to_message_frame self b) as (Fh & Fc & _).
    destruct (Sink.buffer_to_message self b) as [s [r|]] eqn:Eb;
      [|discriminate].
    pose proof (buffer_to_message_kind _ _ _ _ Eb) as K.
    cbn [fst] in Fh, Fc. unfold streamheader_tags in *.
    cbn [filter]. destruct r as [m|].
    + destruct K as (Hk & Hs & Hm). rewrite Hk. cbn [negb map corrected_timestamps].
      destruct (IH _ _ E) as (Hc & added & Hh & Hall).
      cbn [Sink.add_header Sink.set_queue Sink.headers Sink.connection] in *.
      split; [congruence|].
      exists (m :: added). rewrite Hh, Fh, <- app_assoc.
      split; [reflexivity|].
      destruct (Sink.timestamp_fixup self (tag_timestamp_of (buf_data b)))
        as [s' out] eqn:Ef.
      cbn [fst snd] in *. subst s'.
      unfold messages_of_tags in *. cbn [combine].
      constructor; [exact Hm|].
      rewrite (corrected_timestamps_ext _ s
                 (Sink.set_queue s (Sink.headers s ++ [m]) (Sink.connection s)));
        [exact Hall | reflexivity | reflexivity].
    + destruct K as (Hk & ->). rewrite Hk. cbn [negb].
      destruct (IH _ _ E) as (Hc & added & Hh & Hall).
      split; [exact Hc|]. exists added. split; [exact Hh | exact Hall].
Qed.

(** When [set_caps] succeeds, the stream headers of the element are
    exactly the messages of the tags of the streamheader array: one
    message for each buffer that is not the file header, in the order
    of the array, of the type of the tag, on message stream 1 and the
    chunk stream of that type, with the bytes between the tag header
    and the footer as payload (behind the setDataFrame header for
    script data), at the timestamp the fixup gives the tag when it runs
    over the tags in order from the state the element was in.  The headers the element had before are
    gone, and the connection is as it was. *)
Theorem set_caps_collects_messages self buffers self' :
  Sink.gst_rtmp2_sink_set_caps self (Some buffers) = Some (self', true) ->
  let tags := streamheader_tags buffers in
  messages_of_tags tags
    (corrected_timestamps self
       (map (fun b => tag_timestamp_of (buf_data b)) tags))
    (Sink.headers self')
  /\ List.length (Sink.headers self') = List.length tags
  /\ Sink.connection self' = Sink.connection self.
Proof.
  unfold Sink.gst_rtmp2_sink_set_caps. intros [= E]. cbv zeta.
  destruct (collect_streamheaders_exact _ _ _ E) as (Hc & added & Hh & Hall).
  cbn [Sink.set_queue Sink.headers Sink.connection app] in *.
  rewrite Hh.
  rewrite (corrected_timestamps_ext _
             (Sink.set_queue self [] (Sink.connection self)) self
             eq_refl eq_refl) in Hall.
  split; [exact Hall|]. split; [|exact Hc].
  unfold messages_of_tags in Hall.
  apply Forall2_length in Hall. rewrite <- Hall.
  rewrite length_combine, corrected_timestamps_count, length_map.
  apply Nat.min_id.
Qed.

(** The file header, a script data tag and an audio tag as stream
    headers: two messages are collected. *)
Lemma set_caps_collects_messages_witness :
  exists self',
    Sink.gst_rtmp2_sink_set_caps
      (Sink.gst_rtmp2_sink_start Sink.gst_rtmp2_sink_init)
      (Some [raw_buffer true flvmux_header; raw_buffer true script_tag;
             raw_buffer true audio_tag])
    = Some (self', true)
    /\ List.length (Sink.headers self') = 2%nat.
Proof.
  destruct (Sink.gst_rtmp2_sink_set_caps
              (Sink.gst_rtmp2_sink_start Sink.gst_rtmp2_sink_init)
              (Some [raw_buffer true flvmux_header; raw_buffer true script_tag;
                     raw_buffer true audio_tag]))
    as [[self' [|]]|] eqn:E; try (vm_compute in E; discriminate).
  exists self'. split; [reflexivity|].
  exact (proj1 (proj2 (set_caps_collects_messages _ _ _ E))).
Defined.

Lemma collect_streamheaders_malformed buffers : forall self bad,
  In bad buffers ->
  firstn 3 (buf_data bad) <> FLV_signature ->
  Z.of_nat (List.length (buf_data bad)) < 15 ->
  snd (Sink.collect_streamheaders self buffers) = false.
Proof.
  induction buffers as [|b buffers IH]; intros self bad Hin Hsig Hlen;
    [contradiction|].
  cbn [Sink.collect_streamheaders].
  destruct Hin as [-> | Hin].
  - rewrite (buffer_to_message_too_small self bad Hsig Hlen). reflexivity.
  - destruct (Sink.buffer_to_message self b) as [s [[m|]|]];
      [eapply IH | eapply IH | reflexivity]; eassumption.
Qed.

(** [set_caps] answers FALSE as soon as one buffer of the streamheader
    array is neither the FLV header nor long enough to be a tag. *)
Theorem set_caps_rejects_malformed self buffers bad :
  In bad buffers ->
  firstn 3 (buf_data bad) <> FLV_signature ->
  Z.of_nat (List.length (buf_data bad)) < 15 ->
  exists self',
    Sink.gst_rtmp2_sink_set_caps self (Some buffers) = Some (self', false).
Proof.
  intros Hin Hsig Hlen. unfold Sink.gst_rtmp2_sink_set_caps.
  pose proof (collect_streamheaders_malformed buffers
                (Sink.set_queue self [] (Sink.connection self)) bad
                Hin Hsig Hlen) as H.
  destruct (Sink.collect_streamheaders _ buffers) as [s ok].
  cbn [snd] in H. subst ok. exists s. reflexivity.
Qed.

(** A stream header of two bytes behind the FLV header. *)
Lemma set_caps_rejects_malformed_witness :
  In (raw_buffer true [x00; x01])
    [raw_buffer true flvmux_header; raw_buffer true [x00; x01]]
  /\ firstn 3 (buf_data (raw_buffer true [x00; x01])) <> FLV_signature
  /\ Z.of_nat (List.length (buf_data (raw_buffer true [x00; x01]))) < 15
  /\ exists self',
       Sink.gst_rtmp2_sink_set_caps
         (Sink.gst_rtmp2_sink_start Sink.gst_rtmp2_sink_init)
         (Some [raw_buffer true flvmux_header; raw_buffer true [x00; x01]])
       = Some (self', false).
Proof.
  assert (H1 : In (raw_buffer true [x00; x01])
                 [raw_buffer true flvmux_header; raw_buffer true [x00; x01]])
    by (right; left; reflexivity).
  assert (H2 : firstn 3 (buf_data (raw_buffer true [x00; x01]))
               <> FLV_signature) by discriminate.
  assert (H3 : Z.of_nat (List.length (buf_data (raw_buffer true [x00; x01])))
               < 15) by (cbn; lia).
  split; [exact H1|]. split; [exact H2|]. split; [exact H3|].
  exact (set_caps_rejects_malformed _ _ _ H1 H2 H3).
Defined.

(** ** The publish sequence from end to end *)

(** what the sink does with a task that is not cancelled and returned
    an error *)
Lemma sink_connect_task_done_error self t e d :
  cancelled (task_cancellable t) = false ->
  let self' :=
    Sink.connect_task_done self (g_task_set_task_data (g_task_return_error t e) d) in
  Sink.posted self' = Sink.posted self ++ posts_for e
  /\ Sink.connection self' = None
  /\ Sink.connect_task self' = None.
Proof.
  intros Hc. cbv zeta. unfold Sink.connect_task_done.
  rewrite (propagate_error t e d Hc). cbn [is_some].
  unfold g_error_matches, posts_for.
  destruct e as [dom code msg]. cbn [error_domain error_code].
  destruct dom, code; cbn; rewrite ?app_nil_r; auto.
Qed.

Lemma sink_connect_task_done_error' self t e :
  cancelled (task_cancellable t) = false ->
  let self' := Sink.connect_task_done self (g_task_return_error t e) in
  Sink.posted self' = Sink.posted self ++ posts_for e
  /\ Sink.connection self' = None
  /\ Sink.connect_task self' = None.
Proof.
  intros Hc.
  replace (g_task_return_error t e)
    with (g_task_set_task_data (g_task_return_error t e) (task_data t))
    by (destruct t; reflexivity).
  apply sink_connect_task_done_error. exact Hc.
Qed.

(** The publish sequence from end to end, for a task that is not
    cancelled.  When the connect attempt fails the sink posts
    NOT_AUTHORIZED for a permission error, OPEN_READ for a refused
    connection, nothing for a cancellation and FAILED for any other
    error.  A createStream reply with fewer than two arguments posts
    FAILED.  After a full createStream reply, a status object with
    code NetStream.Publish.Start gives the element the connection and
    posts nothing; NetStream.Publish.Denied posts NOT_AUTHORIZED;
    NetStream.Publish.BadName and every other code post FAILED.  In all
    the failures the element is left without a connection, and in
    every case without a connect task. *)
Theorem publish_sequence_outcome self task c :
  cancelled (task_cancellable task) = false ->
  (forall e create_reply publish_reply,
      exists t,
        publish_sequence task (inr e) create_reply publish_reply
        = Sink.PublishResolved t
        /\ Sink.posted (Sink.connect_task_done self t)
           = Sink.posted self ++ posts_for e
        /\ Sink.connection (Sink.connect_task_done self t) = None)
  /\ (forall create_reply publish_reply,
        match create_reply with
        | None => True
        | Some a => (List.length a < 2)%nat
        end ->
        exists t,
          publish_sequence task (inl c) create_reply publish_reply
          = Sink.PublishResolved t
          /\ Sink.posted (Sink.connect_task_done self t)
             = Sink.posted self ++ [GST_RESOURCE_ERROR_FAILED]
          /\ Sink.connection (Sink.connect_task_done self t) = None)
  /\ (forall a args fields code,
        (2 <= List.length a)%nat ->
        nth_error args 1 = Some (AmfObject fields) ->
        lookup_field fields "code" = Some (AmfString code) ->
        exists t,
          publish_sequence task (inl c) (Some a) (Some args)
          = Sink.PublishResolved t
          /\ let self' := Sink.connect_task_done self t in
             Sink.connect_task self' = None
             /\ (code = "NetStream.Publish.Start"%string ->
                 Sink.connection self' = Some c
                 /\ Sink.posted self' = Sink.posted self)
             /\ (code = "NetStream.Publish.BadName"%string ->
                 Sink.connection self' = None
                 /\ Sink.posted self'
                    = Sink.posted self ++ [GST_RESOURCE_ERROR_FAILED])
             /\ (code = "NetStream.Publish.Denied"%string ->
                 Sink.connection self' = None
                 /\ Sink.posted self'
                    = Sink.posted self ++ [GST_RESOURCE_ERROR_NOT_AUTHORIZED])
             /\ (code <> "NetStream.Publish.Start"%string ->
                 code <> "NetStream.Publish.BadName"%string ->
                 code <> "NetStream.Publish.Denied"%string ->
                 Sink.connection self' = None
                 /\ Sink.posted self'
                    = Sink.posted self ++ [GST_RESOURCE_ERROR_FAILED])).
Proof.
  intros Hc.
  assert (Hc' : cancelled (task_cancellable
                             (g_task_set_task_data task (Some c))) = false)
    by exact Hc.
  split; [|split].
  - intros e cr pr. eexists. split; [reflexivity|].
    destruct (sink_connect_task_done_error' self task e Hc) as (H1 & H2 & _).
    auto.
  - intros cr pr Hshort. unfold publish_sequence.
    cbn [Sink.client_connect_done].
    rewrite (not_cancelled_continues _ Hc').
    unfold Sink.create_stream_done.
    rewrite (not_cancelled_continues _ Hc').
    assert (Hf : match cr with
                 | None => true
                 | Some a => Z.of_nat (List.length a) <? 2
                 end = true).
    { destruct cr as [a|]; [|reflexivity]. apply Z.ltb_lt. lia. }
    rewrite Hf. eexists. split; [reflexivity|].
    destruct (sink_connect_task_done_error' self
                (g_task_set_task_data task (Some c))
                (new_error G_IO_ERROR_FAILED "createStream failed") Hc')
      as (H1 & H2 & _).
    auto.
  - intros a args fields code Ha Hn Hf. unfold publish_sequence.
    cbn [Sink.client_connect_done].
    rewrite (not_cancelled_continues _ Hc').
    unfold Sink.create_stream_done.
    rewrite !(not_cancelled_continues _ Hc').
    assert (Hl : (Z.of_nat (List.length a) <? 2) = false)
      by (apply Z.ltb_ge; lia).
    rewrite Hl.
    rewrite (publish_done_string_code _ _ _ _ Hc' Hn Hf).
    eexists. split; [reflexivity|]. cbv zeta.
    split.
    { unfold Sink.connect_task_done.
      destruct (g_task_propagate_pointer _) as [cn er].
      repeat match goal with
             | |- context [if ?b then _ else _] => destruct b
             end; reflexivity. }
    split; [|split; [|split]].
    + intros ->. cbn [String.eqb Ascii.eqb Bool.eqb].
      unfold Sink.connect_task_done, g_task_propagate_pointer. cbn.
      rewrite Hc. cbn. auto.
    + intros ->. cbn [String.eqb Ascii.eqb Bool.eqb].
      unfold g_task_return_new_error.
      destruct (sink_connect_task_done_error self
                  (g_task_set_task_data task (Some c))
                  (new_error G_IO_ERROR_EXISTS
                     "Stream already exists! (NetStream.Publish.BadName)")
                  None Hc') as (H1 & H2 & _).
      split; [exact H2 | exact H1].
    + intros ->. cbn [String.eqb Ascii.eqb Bool.eqb].
      unfold g_task_return_new_error.
      destruct (sink_connect_task_done_error self
                  (g_task_set_task_data task (Some c))
                  (new_error G_IO_ERROR_PERMISSION_DENIED
                     "Publish denied! (NetStream.Publish.Denied)")
                  None Hc') as (H1 & H2 & _).
      split; [exact H2 | exact H1].
    + intros N1 N2 N3. apply String.eqb_neq in N1, N2, N3.
      rewrite N1, N2, N3. unfold g_task_return_new_error.
      destruct (sink_connect_task_done_error self
                  (g_task_set_task_data task (Some c))
                  (new_error G_IO_ERROR_FAILED
                     ("unhandled publish result code: " ++ code))
                  None Hc') as (H1 & H2 & _).
      split; [exact H2 | exact H1].
Qed.

(** The server answers NetStream.Publish.BadName: the sink posts the
    generic failure. *)
Lemma publish_sequence_outcome_witness :
  cancelled (task_cancellable (task_with false None)) = false
  /\ exists t,
       publish_sequence (task_with false None) (inl empty_connection)
         (Some [AmfNull; AmfNumber 1])
         (Some (status_reply "NetStream.Publish.BadName"))
       = Sink.PublishResolved t
       /\ Sink.posted (Sink.connect_task_done connecting_sink t)
          = Sink.posted connecting_sink ++ [GST_RESOURCE_ERROR_FAILED].
Proof.
  split; [reflexivity|].
  destruct (proj2 (proj2 (publish_sequence_outcome connecting_sink
                            (task_with false None) empty_connection eq_refl))
              [AmfNull; AmfNumber 1]
              (status_reply "NetStream.Publish.BadName")
              _ "NetStream.Publish.BadName"%string
              (le_n 2) eq_refl eq_refl)
    as (t & E & _ & _ & Hbad & _).
  exists t. split; [exact E|]. exact (proj2 (Hbad eq_refl)).
Defined.

(** An error signalled by the connection while the connect task is
    still there only cancels that task: nothing is posted then, and
    nothing either when [connect_task_done] later finds the task,
    whatever the sequence had left in it; the element stays without a
    connection.  Without a connect task the error is posted as a WRITE
    error while the main loop exists, and otherwise ignored. *)
Theorem connection_error_outcome self :
  (forall t, Sink.connect_task self = Some t ->
     let self' := Sink.connection_error self in
     Sink.posted self' = Sink.posted self
     /\ Sink.connect_task self' = Some (task_cancel t)
     /\ forall d r,
          let done := Sink.connect_task_done self'
                        (task_returned (task_cancel t) d r) in
          Sink.posted done = Sink.posted self
          /\ Sink.connection done = None)
  /\ (Sink.connect_task self = None -> Sink.task_main_loop self = true ->
      Sink.posted (Sink.connection_error self)
      = Sink.posted self ++ [GST_RESOURCE_ERROR_WRITE])
  /\ (Sink.connect_task self = None -> Sink.task_main_loop self = false ->
      Sink.connection_error self = self).
Proof.
  split; [|split].
  - intros t Ht. cbv zeta. unfold Sink.connection_error. rewrite Ht.
    cbn [Sink.posted Sink.connect_task Sink.set_connect].
    repeat split.
  - intros Ht Hl. unfold Sink.connection_error. rewrite Ht, Hl. reflexivity.
  - intros Ht Hl. unfold Sink.connection_error. rewrite Ht, Hl. reflexivity.
Qed.

(** An error of the connection while the connect sequence runs. *)
Lemma connection_error_outcome_witness :
  Sink.connect_task connecting_sink
  = Some {| task_cancellable := {| cancellable_id := 1; cancelled := false |};
            task_data := None; task_result := None |}
  /\ Sink.posted (Sink.connection_error connecting_sink)
     = Sink.posted connecting_sink.
Proof.
  split; [reflexivity|].
  exact (proj1 (proj1 (connection_error_outcome connecting_sink) _ eq_refl)).
Defined.

Lemma send_message_ok_when p self message c :
  Sink.flushing self = false ->
  Sink.connection self = Some c ->
  gst_rtmp_connection_get_num_queued c <= 3 ->
  Sink.send_message_from p self message
  = (Sink.queue_message (Sink.send_streamheader self) message,
     Sink.SendReturn GST_FLOW_OK).
Proof.
  intros Hf Hc Hn. unfold Sink.send_message_from, Sink.queue_too_deep.
  rewrite Hf, Hc. cbn [negb is_some andb].
  destruct (Z.gtb_spec (gst_rtmp_connection_get_num_queued c) 3); [lia|].
  destruct p; reflexivity.
Qed.

(** While the connect sequence runs, [send_message] waits for the
    connection and queues nothing.  Once [connect_task_done] has
    delivered a connection with at most 3 messages queued, the woken
    call returns OK, and the connection has queued, behind what it
    held, the stream headers and then the message. *)
Theorem first_send_after_connect self t0 message task c :
  Sink.flushing self = false ->
  Sink.connection self = None ->
  Sink.connect_task self = Some t0 ->
  cancelled (task_cancellable task) = false ->
  task_result task = Some (TaskPointer (Some c)) ->
  gst_rtmp_connection_get_num_queued c <= 3 ->
  Sink.send_message self message
  = (self, Sink.SendSuspended Sink.WaitConnection)
  /\ exists self',
       Sink.send_message_from Sink.WaitConnection
         (Sink.connect_task_done self task) message
       = (self', Sink.SendReturn GST_FLOW_OK)
       /\ Sink.connection self'
          = Some {| output_queue :=
                      output_queue c ++ Sink.headers self ++ [message] |}
       /\ Sink.headers self' = [].
Proof.
  intros Hf Hc Ht Hcan Hres Hn. split.
  - unfold Sink.send_message, Sink.send_message_from. rewrite Hf, Hc, Ht.
    reflexivity.
  - assert (Hd : Sink.connect_task_done self task
                 = Sink.set_connect self None (Some c) (Sink.posted self)).
    { unfold Sink.connect_task_done, g_task_propagate_pointer.
      rewrite Hcan, Hres. reflexivity. }
    rewrite Hd.
    set (s := Sink.set_connect self None (Some c) (Sink.posted self)).
    assert (E : Sink.send_message_from Sink.WaitConnection s message
                = (Sink.queue_message (Sink.send_streamheader s) message,
                   Sink.SendReturn GST_FLOW_OK))
      by (apply (send_message_ok_when _ s message c); auto).
    eexists. split; [exact E|].
    destruct (send_message_ok _ _ _ _ E) as (_ & c' & Hc' & _ & Hq & Hh).
    cbn in Hc'. injection Hc' as <-. auto.
Qed.

(** A message rendered while the connect sequence runs. *)
Lemma first_send_after_connect_witness :
  Sink.flushing connecting_sink = false
  /\ Sink.connection connecting_sink = None
  /\ Sink.connect_task connecting_sink
     = Some {| task_cancellable := {| cancellable_id := 1; cancelled := false |};
               task_data := None; task_result := None |}
  /\ cancelled
       (task_cancellable
          (g_task_return_pointer (task_with false (Some empty_connection))
             (Some empty_connection))) = false
  /\ task_result
       (g_task_return_pointer (task_with false (Some empty_connection))
          (Some empty_connection))
     = Some (TaskPointer (Some empty_connection))
  /\ gst_rtmp_connection_get_num_queued empty_connection <= 3
  /\ Sink.send_message connecting_sink
       (gst_rtmp_message_new GST_RTMP_MESSAGE_TYPE_AUDIO 5 1)
     = (connecting_sink, Sink.SendSuspended Sink.WaitConnection).
Proof.
  assert (H : gst_rtmp_connection_get_num_queued empty_connection <= 3)
    by (cbn; lia).
  repeat (split; [reflexivity|]). split; [exact H|].
  exact (proj1 (first_send_after_connect connecting_sink _
                  (gst_rtmp_message_new GST_RTMP_MESSAGE_TYPE_AUDIO 5 1)
                  (g_task_return_pointer (task_with false (Some empty_connection))
                     (Some empty_connection))
                  empty_connection eq_refl eq_refl eq_refl eq_refl eq_refl H)).
Defined.

(** An element that is not flushing and has neither a connection nor a
    connect task (the connect sequence failed) never gets one from
    [render]: every buffer is answered with OK (a skipped header) or
    ERROR, and a buffer that converts to a message with ERROR. *)
Theorem render_without_connection self buffer :
  Sink.flushing self = false ->
  Sink.connection self = None ->
  Sink.connect_task self = None ->
  Sink.connection (fst (Sink.gst_rtmp2_sink_render self buffer)) = None
  /\ (snd (Sink.gst_rtmp2_sink_render self buffer) = Sink.SendReturn GST_FLOW_OK
      \/ snd (Sink.gst_rtmp2_sink_render self buffer)
         = Sink.SendReturn GST_FLOW_ERROR)
  /\ (forall s message,
        Sink.should_drop_header self buffer = false ->
        Sink.buffer_to_message self buffer = (s, Some (Some message)) ->
        Sink.gst_rtmp2_sink_render self buffer
        = (s, Sink.SendReturn GST_FLOW_ERROR)).
Proof.
  intros Hf Hc Ht.
  pose proof (buffer_to_message_frame self buffer) as (_ & Fc & Ft & Ff & _).
  unfold Sink.gst_rtmp2_sink_render.
  destruct (Sink.should_drop_header self buffer).
  - cbn [fst snd]. split; [exact Hc|]. split; [left; reflexivity|].
    discriminate.
  - destruct (Sink.buffer_to_message self buffer) as [s [[m|]|]];
      cbn [fst snd] in *.
    + assert (E : Sink.send_message s m = (s, Sink.SendReturn GST_FLOW_ERROR)).
      { apply send_message_refused; congruence. }
      rewrite E. cbn [fst snd]. split; [congruence|].
      split; [right; reflexivity|].
      intros s' m' _ [= <- <-]. reflexivity.
    + split; [congruence|]. split; [left; reflexivity|]. discriminate.
    + split; [congruence|]. split; [right; reflexivity|]. discriminate.
Qed.

(** A started element that never got a connect task. *)
Lemma render_without_connection_witness :
  Sink.flushing (Sink.gst_rtmp2_sink_start Sink.gst_rtmp2_sink_init) = false
  /\ Sink.connection (Sink.gst_rtmp2_sink_start Sink.gst_rtmp2_sink_init) = None
  /\ Sink.connect_task (Sink.gst_rtmp2_sink_start Sink.gst_rtmp2_sink_init)
     = None
  /\ Sink.connection
       (fst (Sink.gst_rtmp2_sink_render
               (Sink.gst_rtmp2_sink_start Sink.gst_rtmp2_sink_init)
               (raw_buffer false audio_tag))) = None.
Proof.
  repeat (split; [reflexivity|]).
  exact (proj1 (render_without_connection
                  (Sink.gst_rtmp2_sink_start Sink.gst_rtmp2_sink_init)
                  (raw_buffer false audio_tag) eq_refl eq_refl eq_refl)).
Defined.

(** ** Backpressure on the publish path *)

(** the element after [k] messages have been sent *)
Lemma message_sent_iter k : forall self c,
  Sink.connection self = Some c ->
  Sink.flushing (Nat.iter k message_sent self) = Sink.flushing self
  /\ Sink.headers (Nat.iter k message_sent self) = Sink.headers self
  /\ Sink.connection (Nat.iter k message_sent self)
     = Some {| output_queue := skipn k (output_queue c) |}.
Proof.
  induction k as [|k IH]; intros self c Hc.
  - cbn. rewrite Hc. destruct c; auto.
  - destruct (IH self c Hc) as (Hf & Hh & Hq).
    change (Nat.iter (S k) message_sent self)
      with (message_sent (Nat.iter k message_sent self)).
    set (s := Nat.iter k message_sent self) in *. unfold message_sent.
    cbn [Sink.set_queue Sink.flushing Sink.headers Sink.connection].
    rewrite Hq. cbn [option_map]. unfold gst_rtmp_connection_message_sent.
    cbn [output_queue]. split; [exact Hf|]. split; [exact Hh|].
    do 2 f_equal.
    change (S k) with (1 + k)%nat. rewrite <- skipn_skipn.
    destruct (skipn k (output_queue c)); reflexivity.
Qed.

(** C5, as amended.  A call of [send_message] that finds more than 3
    messages queued on the connection, while the element is not
    flushing, is suspended in the second loop and has queued nothing.
    Each confirmed-sent notification lowers the depth by one and wakes
    the call, which checks the depth again: as long as more than 3
    messages remain it waits again and the element is as the
    notification left it; once 3 remain it queues the stream headers
    and its message and returns OK.  One notification therefore
    unblocks the call only when the depth was 4.  The call that went
    through leaves more than 3 messages queued, so that any other call
    that checks the depth then is suspended: one call gets through. *)
Theorem backpressure_until_sent self c message k :
  Sink.flushing self = false ->
  Sink.connection self = Some c ->
  gst_rtmp_connection_get_num_queued c > 3 ->
  let depth := gst_rtmp_connection_get_num_queued c in
  let before := Nat.iter k message_sent self in
  Sink.send_message self message = (self, Sink.SendSuspended Sink.WaitQueue)
  /\ (depth - Z.of_nat k - 1 > 3 ->
      sent_notification before (Some (Sink.WaitQueue, message))
      = (message_sent before, Some (Sink.SendSuspended Sink.WaitQueue)))
  /\ (depth - Z.of_nat k - 1 = 3 ->
      exists self',
        sent_notification before (Some (Sink.WaitQueue, message))
        = (self', Some (Sink.SendReturn GST_FLOW_OK))
        /\ Sink.connection self'
           = Some {| output_queue :=
                       skipn (S k) (output_queue c)
                       ++ Sink.headers self ++ [message] |}
        /\ forall p other,
             Sink.send_message_from p self' other
             = (self', Sink.SendSuspended Sink.WaitQueue)).
Proof.
  intros Hf Hc Hn. cbv zeta.
  split; [exact (send_message_deep_queue self c message Hf Hc Hn)|].
  destruct (message_sent_iter (S k) self c Hc) as (Hf1 & Hh1 & Hq1).
  change (Nat.iter (S k) message_sent self)
    with (message_sent (Nat.iter k message_sent self)) in Hf1, Hh1, Hq1.
  set (before := Nat.iter k message_sent self) in *. clearbody before.
  set (c1 := {| output_queue := skipn (S k) (output_queue c) |}) in *.
  assert (Hd : gst_rtmp_connection_get_num_queued c1
               = Z.max 0 (gst_rtmp_connection_get_num_queued c - Z.of_nat k - 1)).
  { unfold gst_rtmp_connection_get_num_queued, c1. cbn [output_queue].
    rewrite length_skipn. lia. }
  unfold sent_notification, Sink.put_chunk. rewrite Hf in Hf1.
  split.
  - intros Hk.
    assert (E : Sink.send_message_from Sink.WaitQueue (message_sent before) message
                = (message_sent before, Sink.SendSuspended Sink.WaitQueue)).
    { unfold Sink.send_message_from, Sink.queue_too_deep.
      rewrite Hf1, Hq1. cbn [negb andb].
      destruct (Z.gtb_spec (gst_rtmp_connection_get_num_queued c1) 3);
        [reflexivity | lia]. }
    rewrite E. reflexivity.
  - intros Hk.
    assert (E : Sink.send_message_from Sink.WaitQueue (message_sent before) message
                = (Sink.queue_message
                     (Sink.send_streamheader (message_sent before)) message,
                   Sink.SendReturn GST_FLOW_OK)).
    { apply (send_message_ok_when _ _ message c1); [congruence | exact Hq1 | lia]. }
    rewrite E. eexists. split; [reflexivity|].
    destruct (send_message_ok _ _ _ _ E) as (_ & c' & Hc' & _ & Hq & Hh).
    rewrite Hq1 in Hc'. injection Hc' as <-. rewrite Hh1 in Hq.
    cbn [output_queue] in Hq. split; [exact Hq|].
    intros p other.
    set (s2 := Sink.queue_message _ message) in *.
    assert (Hf2 : Sink.flushing s2 = false).
    { unfold s2.
      destruct (queue_message_fields
                  (Sink.send_streamheader (message_sent before)) message)
        as (_ & _ & _ & Q4 & _).
      rewrite Q4. unfold Sink.send_streamheader.
      destruct (_ =? 0); [congruence|].
      cbn [Sink.set_queue Sink.flushing].
      destruct (fold_queue_message (Sink.headers (message_sent before))
                  (message_sent before)) as (_ & _ & _ & F4 & _).
      congruence. }
    unfold Sink.send_message_from, Sink.queue_too_deep.
    rewrite Hf2, Hq. cbn [negb andb is_some].
    match goal with
    | |- context [gst_rtmp_connection_get_num_queued ?q >? 3] =>
      assert (Hdeep : gst_rtmp_connection_get_num_queued q > 3);
        [|destruct (Z.gtb_spec (gst_rtmp_connection_get_num_queued q) 3);
          [|lia]]
    end.
    { unfold gst_rtmp_connection_get_num_queued, c1 in *.
      cbn [output_queue] in *. rewrite !length_app. cbn [List.length]. lia. }
    destruct p; reflexivity.
Qed.

(** Four audio messages are queued: the call waits, and the first
    notification lets it through. *)
Lemma backpressure_until_sent_witness :
  Sink.flushing (connected_sink (repeat publish_audio 4) []) = false
  /\ Sink.connection (connected_sink (repeat publish_audio 4) [])
     = Some {| output_queue := repeat publish_audio 4 |}
  /\ gst_rtmp_connection_get_num_queued
       {| output_queue := repeat publish_audio 4 |} > 3
  /\ Sink.send_message (connected_sink (repeat publish_audio 4) [])
       publish_audio
     = (connected_sink (repeat publish_audio 4) [],
        Sink.SendSuspended Sink.WaitQueue)
  /\ exists self',
       sent_notification (connected_sink (repeat publish_audio 4) [])
         (Some (Sink.WaitQueue, publish_audio))
       = (self', Some (Sink.SendReturn GST_FLOW_OK))
       /\ Sink.connection self'
          = Some {| output_queue := repeat publish_audio 4 |}.
Proof.
  assert (H : gst_rtmp_connection_get_num_queued
                {| output_queue := repeat publish_audio 4 |} > 3)
    by (cbn; lia).
  pose proof (backpressure_until_sent
                (connected_sink (repeat publish_audio 4) [])
                {| output_queue := repeat publish_audio 4 |}
                publish_audio 0 eq_refl eq_refl H)
    as (H1 & _ & H3).
  split; [reflexivity|]. split; [reflexivity|]. split; [exact H|].
  split; [exact H1|].
  destruct (H3 eq_refl) as (self' & E & Hq & _).
  exists self'. split; [exact E | exact Hq].
Defined.

(** C5, as stated, fails.  Three messages are queued and two stream
    headers wait when a message is sent: the call returns OK and leaves
    6 messages queued.  The next call is suspended, and when one sent
    notification wakes it, 5 messages remain: the call is suspended
    again and no call has been unblocked. *)
Lemma backpressure_counterexample :
  Sink.send_message
    (connected_sink (repeat publish_audio 3) (repeat publish_script 2))
    publish_audio
  = (connected_sink
       (repeat publish_audio 3 ++ repeat publish_script 2 ++ [publish_audio])
       [],
     Sink.SendReturn GST_FLOW_OK)
  /\ Sink.send_message
       (connected_sink
          (repeat publish_audio 3 ++ repeat publish_script 2 ++ [publish_audio])
          [])
       publish_audio
     = (connected_sink
          (repeat publish_audio 3 ++ repeat publish_script 2 ++ [publish_audio])
          [],
        Sink.SendSuspended Sink.WaitQueue)
  /\ sent_notification
       (connected_sink
          (repeat publish_audio 3 ++ repeat publish_script 2 ++ [publish_audio])
          [])
       (Some (Sink.WaitQueue, publish_audio))
     = (connected_sink
          (repeat publish_audio 2 ++ repeat publish_script 2 ++ [publish_audio])
          [],
        Some (Sink.SendSuspended Sink.WaitQueue)).
Proof.
  split; [reflexivity|]. split; reflexivity.
Qed.

(** ** The tag the source writes *)

Lemma tag_timestamp_uint32 m : is_uint32 (Src.tag_timestamp m).
Proof.
  unfold Src.tag_timestamp, is_uint32, wrap32.
  destruct (negb _); [apply Z.mod_pos_bound; reflexivity | lia].
Qed.

Lemma flv_tag_data m meta :
  buf_data (Src.flv_tag m meta)
  = [byte_of_Z (meta_type meta)]
    ++ GST_WRITE_UINT24_BE (meta_size meta)
    ++ GST_WRITE_UINT24_BE (Src.tag_timestamp m)
    ++ GST_WRITE_UINT8 (Z.shiftr (Src.tag_timestamp m) 24)
    ++ [x00; x00; x00]
    ++ buf_data m ++ Src.tag_footer meta.
Proof.
  unfold Src.flv_tag, Src.tag_header. cbn. reflexivity.
Qed.

Lemma flv_tag_fields m meta :
  let data := buf_data (Src.flv_tag m meta) in
  Z.of_nat (List.length data) = 11 + Z.of_nat (List.length (buf_data m)) + 4
  /\ GST_READ_UINT8 data 0 = meta_type meta mod 2 ^ 8
  /\ GST_READ_UINT24_BE data 1 = meta_size meta mod 2 ^ 24
  /\ tag_timestamp_of data = Src.tag_timestamp m
  /\ GST_READ_UINT24_BE data 8 = 0
  /\ region data 11 (Z.of_nat (List.length data) - 11 - 4) = buf_data m.
Proof.
  cbv zeta. rewrite flv_tag_data.
  assert (Hlen : Z.of_nat
            (List.length
               ([byte_of_Z (meta_type meta)]
                ++ GST_WRITE_UINT24_BE (meta_size meta)
                ++ GST_WRITE_UINT24_BE (Src.tag_timestamp m)
                ++ GST_WRITE_UINT8 (Z.shiftr (Src.tag_timestamp m) 24)
                ++ [x00; x00; x00] ++ buf_data m ++ Src.tag_footer meta))
          = 11 + Z.of_nat (List.length (buf_data m)) + 4).
  { cbn [app List.length GST_WRITE_UINT24_BE GST_WRITE_UINT8 Src.tag_footer
         GST_WRITE_UINT32_BE].
    rewrite length_app.
    change (List.length (Src.tag_footer meta)) with 4%nat. lia. }
  split; [exact Hlen|].
  split; [apply u8_byte_of_Z|].
  split; [exact (read_write_uint24 [byte_of_Z (meta_type meta)] (meta_size meta) _)|].
  split.
  { exact (read_timestamp_bytes (Src.tag_timestamp m) _ _ _ _ _
             (tag_timestamp_uint32 m)). }
  split; [reflexivity|].
  rewrite Hlen. unfold region.
  replace (Z.to_nat (11 + Z.of_nat (List.length (buf_data m)) + 4 - 11 - 4))
    with (List.length (buf_data m)) by lia.
  change (Z.to_nat 11) with 11%nat.
  cbn [app GST_WRITE_UINT24_BE GST_WRITE_UINT8 skipn].
  rewrite firstn_app, firstn_all, Nat.sub_diag. cbn [firstn].
  apply app_nil_r.
Qed.

(** The FLV tag [create] builds has 11 + payload + 4 bytes; read back
    with the readers of the publish path, its first byte is the type
    (modulo 2^8), bytes 1 to 3 the meta size modulo 2^24, bytes 4 to 7
    the 32-bit tag timestamp with the extension byte on top, bytes 8 to
    10 zero, and the bytes between the first 11 and the last 4 are the
    payload of the message. *)
Theorem flv_tag_layout m meta :
  let data := buf_data (Src.flv_tag m meta) in
  Z.of_nat (List.length data) = 11 + Z.of_nat (List.length (buf_data m)) + 4
  /\ GST_READ_UINT8 data 0 = meta_type meta mod 2 ^ 8
  /\ GST_READ_UINT24_BE data 1 = meta_size meta mod 2 ^ 24
  /\ tag_timestamp_of data = Src.tag_timestamp m
  /\ GST_READ_UINT24_BE data 8 = 0
  /\ region data 11 (Z.of_nat (List.length data) - 11 - 4) = buf_data m.
Proof. exact (flv_tag_fields m meta). Qed.

(** ** Tags read back, and the message slot of the source *)

Lemma media_type_byte type :
  is_media_type type ->
  type mod 2 ^ 8 = type
  /\ byte_of_Z type <> x46
  /\ exists c, Sink.cstream_of_type type = Some c.
Proof.
  unfold is_media_type, GST_RTMP_MESSAGE_TYPE_AUDIO,
    GST_RTMP_MESSAGE_TYPE_VIDEO, GST_RTMP_MESSAGE_TYPE_DATA_AMF0.
  intros [-> | [-> | ->]]; (split; [reflexivity|]); (split; [discriminate|]);
    eexists; reflexivity.
Qed.

(** What [create] of the source writes, [buffer_to_message] of the sink
    reads back.  For a message of type audio, video or script data, the
    FLV tag built around it is accepted by the sink; the message made
    from it has the same type and the same payload (behind the
    setDataFrame header for script data), and its timestamp is the
    32-bit tag timestamp of the message after the fixup, in
    nanoseconds. *)
Theorem tag_round_trip self m meta :
  is_media_type (meta_type meta) ->
  let fixed := Sink.timestamp_fixup self (Src.tag_timestamp m) in
  exists message meta',
    Sink.buffer_to_message self (Src.flv_tag m meta)
    = (fst fixed, Some (Some message))
    /\ buf_data message
       = (if meta_type meta =? GST_RTMP_MESSAGE_TYPE_DATA_AMF0
          then Sink.setDataFrame_header else [])
         ++ buf_data m
    /\ buf_dts message = wrap64 (snd fixed * GST_MSECOND)
    /\ buf_meta message = Some meta'
    /\ meta_type meta' = meta_type meta.
Proof.
  intros Hm. cbv zeta.
  destruct (media_type_byte _ Hm) as (Hbyte & Hsig & c & Hc).
  destruct (flv_tag_fields m meta) as (Hlen & Htype & _ & Hts & _ & Hreg).
  rewrite Hbyte in Htype.
  assert (Hr : buf_readable (Src.flv_tag m meta) = true) by reflexivity.
  assert (Hs : firstn 3 (buf_data (Src.flv_tag m meta)) <> FLV_signature).
  { rewrite flv_tag_data. cbn [app firstn GST_WRITE_UINT24_BE].
    intros [= E]. contradiction. }
  assert (Hl : 15 <= Z.of_nat (List.length (buf_data (Src.flv_tag m meta))))
    by (rewrite Hlen; lia).
  rewrite (buffer_to_message_tag self _ Hr Hs Hl). cbv zeta.
  unfold gst_buffer_append_region. rewrite Htype, Hts, Hc, Hreg.
  destruct (meta_type meta =? GST_RTMP_MESSAGE_TYPE_DATA_AMF0);
    eexists _, _; (split; [reflexivity|]); cbn; auto.
Qed.

(** The tag of the audio message gives its two bytes back. *)
Lemma tag_round_trip_witness :
  is_media_type (meta_type audio_meta)
  /\ exists message meta',
       Sink.buffer_to_message
         (Sink.gst_rtmp2_sink_start Sink.gst_rtmp2_sink_init)
         (Src.flv_tag audio_message audio_meta)
       = (fst (Sink.timestamp_fixup
                 (Sink.gst_rtmp2_sink_start Sink.gst_rtmp2_sink_init)
                 (Src.tag_timestamp audio_message)),
          Some (Some message))
       /\ buf_data message = [xaf; x01]
       /\ buf_meta message = Some meta'.
Proof.
  assert (H : is_media_type (meta_type audio_meta)) by (left; reflexivity).
  split; [exact H|].
  destruct (tag_round_trip (Sink.gst_rtmp2_sink_start Sink.gst_rtmp2_sink_init)
              audio_message audio_meta H)
    as (message & meta' & E & Hd & _ & Hm & _).
  exists message, meta'. split; [exact E|]. split; [exact Hd | exact Hm].
Defined.

Lemma min_size_of_type_spec type size :
  (exists min_size, Src.min_size_of_type type = Some min_size
                    /\ (size <? min_size) = false)
  <-> ((type = GST_RTMP_MESSAGE_TYPE_VIDEO /\ 6 <= size)
       \/ (type = GST_RTMP_MESSAGE_TYPE_AUDIO /\ 2 <= size)
       \/ (type = GST_RTMP_MESSAGE_TYPE_DATA_AMF0 /\ 1 <= size)).
Proof.
  unfold Src.min_size_of_type, GST_RTMP_MESSAGE_TYPE_AUDIO,
    GST_RTMP_MESSAGE_TYPE_VIDEO, GST_RTMP_MESSAGE_TYPE_DATA_AMF0.
  destruct (Z.eqb_spec type 9); [|destruct (Z.eqb_spec type 8);
                                  [|destruct (Z.eqb_spec type 18)]].
  - split.
    + intros (k & [= <-] & H). apply Z.ltb_ge in H. lia.
    + intros H. exists 6. split; [reflexivity|]. apply Z.ltb_ge. lia.
  - split.
    + intros (k & [= <-] & H). apply Z.ltb_ge in H. lia.
    + intros H. exists 2. split; [reflexivity|]. apply Z.ltb_ge. lia.
  - split.
    + intros (k & [= <-] & H). apply Z.ltb_ge in H. lia.
    + intros H. exists 1. split; [reflexivity|]. apply Z.ltb_ge. lia.
  - split; [intros (k & H & _); discriminate | lia].
Qed.

Lemma got_message_stored self buffer :
  snd (Src.got_message self buffer) = Src.GotStored
  <-> Src.message self = None /\ passes_filter self buffer.
Proof.
  unfold Src.got_message, Src.got_message_store, passes_filter.
  destruct (buf_meta buffer) as [meta|] eqn:Em.
  2: { split; [discriminate | intros (_ & meta & H & _); discriminate]. }
  pose proof (min_size_of_type_spec (meta_type meta) (meta_size meta)) as Hmin.
  destruct (Z.eqb_spec (meta_mstream meta) (Src.stream_id self)) as [Es|Ns];
    cbn [negb].
  2: { split; [discriminate|]. intros (_ & meta' & [= <-] & Hs & _).
       contradiction. }
  destruct (Src.min_size_of_type (meta_type meta)) as [k|] eqn:Ek.
  2: { split; [discriminate|]. intros (_ & meta' & [= <-] & _ & H).
       apply Hmin in H. destruct H as (k & H & _). discriminate. }
  destruct (meta_size meta <? k) eqn:Elt.
  { split; [discriminate|]. intros (_ & meta' & [= <-] & _ & H).
    apply Hmin in H. destruct H as (k' & [= <-] & H). congruence. }
  assert (Hpass : (meta_type meta = GST_RTMP_MESSAGE_TYPE_VIDEO /\ 6 <= meta_size meta)
                  \/ (meta_type meta = GST_RTMP_MESSAGE_TYPE_AUDIO /\ 2 <= meta_size meta)
                  \/ (meta_type meta = GST_RTMP_MESSAGE_TYPE_DATA_AMF0
                      /\ 1 <= meta_size meta)).
  { apply Hmin. exists k. auto. }
  destruct (Src.message self) as [p|].
  - destruct (negb (Src.running self)); cbn [snd];
      (split; [discriminate | intros [H _]; discriminate]).
  - cbn [snd]. split; [|reflexivity]. intros _. split; [reflexivity|].
    exists meta. auto.
Qed.

Lemma got_message_outcome self buffer :
  (snd (Src.got_message self buffer) = Src.GotStored
   <-> Src.message self = None /\ passes_filter self buffer)
  /\ (snd (Src.got_message self buffer) = Src.GotStored ->
      fst (Src.got_message self buffer) = Src.set_message self (Some buffer))
  /\ (snd (Src.got_message self buffer) <> Src.GotStored ->
      fst (Src.got_message self buffer) = self).
Proof.
  split; [apply got_message_stored|].
  unfold Src.got_message, Src.got_message_store.
  destruct (buf_meta buffer) as [meta|]; [|split; [discriminate|reflexivity]].
  destruct (negb _); [split; [discriminate|reflexivity]|].
  destruct (Src.min_size_of_type _) as [k|];
    [|split; [discriminate|reflexivity]].
  destruct (_ <? _); [split; [discriminate|reflexivity]|].
  destruct (Src.message self);
    [destruct (negb (Src.running self)); split;
       [discriminate|reflexivity|discriminate|reflexivity]|].
  cbn [fst snd]. split; [reflexivity | congruence].
Qed.

Lemma create_pending self m meta :
  Src.message self = Some m -> buf_meta m = Some meta ->
  exists self',
    Src.gst_rtmp2_src_create self
    = (self',
       Src.CreateReturn GST_FLOW_OK
         (Some (if Src.sent_header self then Src.flv_tag m meta
                else gst_buffer_prepend_memory (Src.flv_tag m meta)
                       Src.flv_header_data)))
    /\ Src.message self' = None
    /\ Src.sent_header self' = true
    /\ Src.running self' = Src.running self
    /\ Src.flushing self' = Src.flushing self
    /\ Src.posted self' = Src.posted self.
Proof.
  intros Hm Hmeta. unfold Src.gst_rtmp2_src_create. rewrite Hm, Hmeta.
  destruct (negb (buf_dts m =? GST_CLOCK_TIME_NONE));
    cbn [Src.sent_header Src.set_last_ts Src.set_message];
    destruct (Src.sent_header self) eqn:Es; cbn [negb];
    eexists; (split; [reflexivity|]); cbn; auto 6.
Qed.

(** [got_message] stores a message exactly when none is pending and the
    message has RTMP meta of the stream that plays and is a video
    message of at least 6 bytes, an audio message of at least 2 or a
    data message of at least 1.  When it stores, the message becomes
    the pending one and nothing else changes; in every other case the
    element is unchanged, so a pending message is never overwritten. *)
Theorem got_message_stores_iff self buffer :
  (snd (Src.got_message self buffer) = Src.GotStored
   <-> Src.message self = None /\ passes_filter self buffer)
  /\ (snd (Src.got_message self buffer) = Src.GotStored ->
      fst (Src.got_message self buffer) = Src.set_message self (Some buffer))
  /\ (snd (Src.got_message self buffer) <> Src.GotStored ->
      fst (Src.got_message self buffer) = self).
Proof. exact (got_message_outcome self buffer). Qed.

(** The audio message reaches the empty slot of a source that plays
    its stream. *)
Lemma got_message_stores_iff_witness :
  Src.message playing_src = None
  /\ passes_filter playing_src audio_message
  /\ snd (Src.got_message playing_src audio_message) = Src.GotStored.
Proof.
  assert (H : passes_filter playing_src audio_message).
  { exists audio_meta. split; [reflexivity|]. split; [reflexivity|].
    right; left. split; [reflexivity|]. cbn. lia. }
  split; [reflexivity|]. split; [exact H|].
  exact (proj2 (proj1 (got_message_stores_iff playing_src audio_message))
           (conj eq_refl H)).
Defined.

Lemma create_nothing_pending self :
  Src.message self = None ->
  Src.gst_rtmp2_src_create self
  = (self,
     if negb (Src.running self) then Src.CreateReturn GST_FLOW_EOS None
     else if Src.flushing self then Src.CreateReturn GST_FLOW_FLUSHING None
     else Src.CreateWait).
Proof.
  intros Hm. unfold Src.gst_rtmp2_src_create. rewrite Hm.
  destruct (negb (Src.running self)); [|destruct (Src.flushing self)];
    reflexivity.
Qed.

(** A message that passes the filter while no message is pending is the
    one the next [create] returns: the buffer is the FLV tag of that
    message, behind the FLV header if none was sent yet, and no message
    is pending afterwards. *)
Theorem message_hand_over self buffer :
  Src.message self = None -> passes_filter self buffer ->
  exists meta self',
    buf_meta buffer = Some meta
    /\ Src.gst_rtmp2_src_create (fst (Src.got_message self buffer))
       = (self',
          Src.CreateReturn GST_FLOW_OK
            (Some (if Src.sent_header self then Src.flv_tag buffer meta
                   else gst_buffer_prepend_memory (Src.flv_tag buffer meta)
                          Src.flv_header_data)))
    /\ Src.message self' = None.
Proof.
  intros Hm Hpass.
  assert (Hs : snd (Src.got_message self buffer) = Src.GotStored)
    by (apply got_message_stored; auto).
  destruct (got_message_outcome self buffer) as (_ & Hst & _).
  rewrite (Hst Hs).
  destruct Hpass as (meta & Hmeta & _).
  destruct (create_pending (Src.set_message self (Some buffer)) buffer meta
              eq_refl Hmeta) as (self' & E & Hnone & _).
  exists meta, self'. auto.
Qed.

(** The audio message is the first of the run: its tag comes behind the
    FLV header. *)
Lemma message_hand_over_witness :
  Src.message playing_src = None
  /\ passes_filter playing_src audio_message
  /\ exists meta self',
       buf_meta audio_message = Some meta
       /\ Src.gst_rtmp2_src_create
            (fst (Src.got_message playing_src audio_message))
          = (self',
             Src.CreateReturn GST_FLOW_OK
               (Some (if Src.sent_header playing_src
                      then Src.flv_tag audio_message meta
                      else gst_buffer_prepend_memory
                             (Src.flv_tag audio_message meta)
                             Src.flv_header_data)))
       /\ Src.message self' = None.
Proof.
  assert (H : passes_filter playing_src audio_message).
  { exists audio_meta. split; [reflexivity|]. split; [reflexivity|].
    right; left. split; [reflexivity|]. cbn. lia. }
  split; [reflexivity|]. split; [exact H|].
  exact (message_hand_over playing_src audio_message eq_refl H).
Defined.

(** Stopping does not lose the pending message as long as the task
    function has not exited: the [create] that follows [stop_task]
    returns OK with the buffer of that message, its FLV tag, behind the
    FLV header if none was sent yet, and takes the message; the
    [create] after that returns EOS.  Once the task function has
    exited, the pending message is dropped, and [create] returns EOS
    without a buffer. *)
Theorem stop_drains_then_eos self m meta :
  Src.message self = Some m -> buf_meta m = Some meta ->
  (exists self',
     Src.gst_rtmp2_src_create (Src.stop_task self)
     = (self',
        Src.CreateReturn GST_FLOW_OK
          (Some (if Src.sent_header self then Src.flv_tag m meta
                 else gst_buffer_prepend_memory (Src.flv_tag m meta)
                        Src.flv_header_data)))
     /\ Src.message self' = None
     /\ Src.gst_rtmp2_src_create self'
        = (self', Src.CreateReturn GST_FLOW_EOS None))
  /\ Src.gst_rtmp2_src_create (Src.task_func_exit (Src.stop_task self))
     = (Src.task_func_exit (Src.stop_task self),
        Src.CreateReturn GST_FLOW_EOS None).
Proof.
  intros Hm Hmeta. split.
  - destruct (create_pending (Src.stop_task self) m meta Hm Hmeta)
      as (self' & E & Hnone & _ & Hrun & _).
    exists self'. split; [exact E|]. split; [exact Hnone|].
    rewrite (create_nothing_pending self' Hnone), Hrun. reflexivity.
  - rewrite (create_nothing_pending (Src.task_func_exit (Src.stop_task self))
               eq_refl).
    reflexivity.
Qed.

(** The audio message waits when the element is stopped; no buffer was
    sent before, so its tag comes behind the FLV header. *)
Lemma stop_drains_then_eos_witness :
  Src.message (Src.set_message playing_src (Some audio_message))
  = Some audio_message
  /\ buf_meta audio_message = Some audio_meta
  /\ exists self',
       Src.gst_rtmp2_src_create
         (Src.stop_task (Src.set_message playing_src (Some audio_message)))
       = (self',
          Src.CreateReturn GST_FLOW_OK
            (Some (gst_buffer_prepend_memory
                     (Src.flv_tag audio_message audio_meta)
                     Src.flv_header_data)))
       /\ Src.message self' = None
       /\ Src.gst_rtmp2_src_create self'
          = (self', Src.CreateReturn GST_FLOW_EOS None).
Proof.
  split; [reflexivity|]. split; [reflexivity|].
  exact (proj1 (stop_drains_then_eos
                  (Src.set_message playing_src (Some audio_message))
                  audio_message audio_meta eq_refl eq_refl)).
Defined.

(** [control_callback] stops the task for a stream-EOF event of stream
    id 1, and for nothing else: no other event type and no other stream
    id, whatever stream the element plays, changes the element.  After
    the stop, a [create] that finds no message returns EOS. *)
Theorem stream_eof_stops self uc_type stream_id :
  (uc_type = Src.GST_RTMP_USER_CONTROL_TYPE_STREAM_EOF -> stream_id = 1 ->
   Src.control_callback self uc_type stream_id = Src.stop_task self
   /\ (Src.message self = None ->
       Src.gst_rtmp2_src_create (Src.control_callback self uc_type stream_id)
       = (Src.stop_task self, Src.CreateReturn GST_FLOW_EOS None)))
  /\ (uc_type <> Src.GST_RTMP_USER_CONTROL_TYPE_STREAM_EOF \/ stream_id <> 1 ->
      Src.control_callback self uc_type stream_id = self).
Proof.
  unfold Src.control_callback. split.
  - intros -> ->. rewrite !Z.eqb_refl. cbn [andb]. split; [reflexivity|].
    intros Hm. rewrite (create_nothing_pending (Src.stop_task self) Hm).
    reflexivity.
  - intros [H | H]; apply Z.eqb_neq in H; rewrite H;
      [reflexivity | rewrite andb_false_r; reflexivity].
Qed.

(** The end of stream 1. *)
Lemma stream_eof_stops_witness :
  1 = Src.GST_RTMP_USER_CONTROL_TYPE_STREAM_EOF
  /\ Src.control_callback playing_src 1 1 = Src.stop_task playing_src.
Proof.
  split; [reflexivity|].
  exact (proj1 (proj1 (stream_eof_stops playing_src 1 1) eq_refl eq_refl)).
Defined.

(** ** The life of a source *)

Lemma create_message self :
  Src.message (fst (Src.gst_rtmp2_src_create self)) = None.
Proof.
  unfold Src.gst_rtmp2_src_create.
  destruct (Src.message self) as [m|] eqn:Em.
  - destruct (buf_meta m); [|reflexivity].
    destruct (negb (buf_dts m =? GST_CLOCK_TIME_NONE));
      cbn [Src.sent_header Src.set_last_ts Src.set_message];
      destruct (negb (Src.sent_header self)); reflexivity.
  - destruct (negb (Src.running self)); [|destruct (Src.flushing self)];
      exact Em.
Qed.

Lemma connect_task_done_message self t :
  Src.message (Src.connect_task_done self t) = Src.message self.
Proof.
  unfold Src.connect_task_done.
  destruct (g_task_propagate_pointer t) as [c e].
  destruct (is_some c); [reflexivity|].
  unfold Src.send_connect_error. destruct e; [|reflexivity].
  repeat match goal with |- context [if ?b then _ else _] => destruct b end;
    reflexivity.
Qed.

Lemma step_pending_has_meta self ev :
  woken_checked (CallEvent ev) ->
  pending_has_meta self -> pending_has_meta (fst (Src.step self ev)).
Proof.
  unfold pending_has_meta. intros Hw Hp.
  destruct ev; cbn [Src.step fst woken_checked] in *.
  - pose proof (create_message self) as Hc.
    destruct (Src.gst_rtmp2_src_create self) as [s r]. cbn [fst] in Hc.
    assert (Hs : Src.message
                   (fst match r, Src.message self with
                        | Src.CreateReturn GST_FLOW_OK (Some outbuf), Some m =>
                          (s, Some (m, outbuf))
                        | _, _ => (s, None)
                        end) = None).
    { destruct r as [[] [o|]|]; destruct (Src.message self); exact Hc. }
    rewrite Hs. exact I.
  - destruct (got_message_outcome self buffer) as (Hiff & Hst & Hno).
    destruct (Src.got_message self buffer) as [s r]. cbn [fst snd] in *.
    destruct r; try (rewrite Hno by discriminate; exact Hp).
    rewrite Hst by reflexivity. cbn.
    destruct (proj1 Hiff eq_refl) as (_ & meta & Hm & _). congruence.
  - unfold Src.got_message_store.
    destruct (Src.message self) as [m|] eqn:Em.
    + destruct (negb (Src.running self)); cbn [fst]; rewrite Em; exact Hp.
    + cbn. exact Hw.
  - exact Hp.
  - exact Hp.
  - exact Hp.
  - unfold Src.error_callback.
    destruct (Src.cancellable self); [|destruct (Src.loop self)]; exact Hp.
  - unfold Src.control_callback. destruct (_ && _); exact Hp.
  - unfold Src.start_play_done.
    destruct (g_task_return_error_if_cancelled task) as [[|] t]; [exact Hp|].
    destruct play_finish; exact Hp.
  - rewrite connect_task_done_message. exact Hp.
  - exact I.
Qed.

Lemma life_pending_has_meta calls : forall self,
  Forall woken_checked calls ->
  pending_has_meta self -> pending_has_meta (life self calls).
Proof.
  induction calls as [|call calls IH]; intros self Hall Hp; [exact Hp|].
  inversion Hall as [|? ? Hw Hall']; subst.
  destruct call as [fresh|ev]; cbn [life]; apply IH; auto.
  apply step_pending_has_meta; assumption.
Qed.

(** [create] never returns ERROR.  In the whole life of an element,
    from [init] through any starts, calls and callbacks, the message
    that waits for [create] carries RTMP meta, because [got_message]
    checks it before it stores or waits. *)
Theorem create_never_errors calls :
  Forall woken_checked calls ->
  forall outbuf,
    snd (Src.gst_rtmp2_src_create (life Src.gst_rtmp2_src_init calls))
    <> Src.CreateReturn GST_FLOW_ERROR outbuf.
Proof.
  intros Hall outbuf.
  pose proof (life_pending_has_meta calls Src.gst_rtmp2_src_init Hall I) as Hp.
  unfold pending_has_meta in Hp. unfold Src.gst_rtmp2_src_create.
  destruct (Src.message (life Src.gst_rtmp2_src_init calls)) as [m|].
  - destruct (buf_meta m) as [meta|]; [|contradiction].
    destruct (negb (buf_dts m =? GST_CLOCK_TIME_NONE));
      cbn [Src.sent_header Src.set_last_ts Src.set_message];
      destruct (negb (Src.sent_header _)); discriminate.
  - destruct (negb (Src.running _)); [|destruct (Src.flushing _)]; discriminate.
Qed.

(** A start, a message, and the [create] that takes it. *)
Lemma create_never_errors_witness :
  Forall woken_checked
    [CallStart 1; CallEvent (Src.EvGotMessage audio_message);
     CallEvent Src.EvCreate]
  /\ snd (Src.gst_rtmp2_src_create
            (life Src.gst_rtmp2_src_init
               [CallStart 1; CallEvent (Src.EvGotMessage audio_message);
                CallEvent Src.EvCreate]))
     <> Src.CreateReturn GST_FLOW_ERROR None.
Proof.
  assert (H : Forall woken_checked
                [CallStart 1; CallEvent (Src.EvGotMessage audio_message);
                 CallEvent Src.EvCreate])
    by (repeat constructor).
  split; [exact H|].
  exact (create_never_errors _ H None).
Defined.

Lemma src_connect_task_done_error self t e d :
  cancelled (task_cancellable t) = false ->
  let self' :=
    Src.connect_task_done self (g_task_set_task_data (g_task_return_error t e) d) in
  Src.posted self' = Src.posted self ++ posts_for e
  /\ Src.connection self' = None
  /\ Src.running self' = false
  /\ Src.stream_id self' = Src.stream_id self
  /\ Src.message self' = Src.message self.
Proof.
  intros Hc. cbv zeta. unfold Src.connect_task_done.
  rewrite (propagate_error t e d Hc). cbn [is_some].
  unfold Src.send_connect_error, g_error_matches, posts_for.
  destruct e as [dom code msg]. cbn [error_domain error_code].
  destruct dom, code; cbn; rewrite ?app_nil_r; auto 6.
Qed.

(** The source posts an error in one place only: no call or callback
    changes the posted errors, except [connect_task_done] for a failed
    connect sequence, which posts exactly one, stops the task and
    leaves no connection. *)
Theorem src_posts_only_on_failed_connect self ev :
  Src.posted (fst (Src.step self ev)) = Src.posted self
  \/ exists t e,
       ev = Src.EvConnectTaskDone t
       /\ Src.posted (fst (Src.step self ev)) = Src.posted self ++ [e]
       /\ Src.connection (fst (Src.step self ev)) = None
       /\ Src.running (fst (Src.step self ev)) = false.
Proof.
  destruct ev; cbn [Src.step fst]; try (left; reflexivity).
  - left. unfold Src.gst_rtmp2_src_create.
    destruct (Src.message self) as [m|].
    + destruct (buf_meta m); [|reflexivity].
      destruct (negb (buf_dts m =? GST_CLOCK_TIME_NONE));
        cbn [Src.sent_header Src.set_last_ts Src.set_message];
        destruct (negb (Src.sent_header self)); reflexivity.
    + destruct (negb (Src.running self)); [|destruct (Src.flushing self)];
        reflexivity.
  - left. destruct (got_message_outcome self buffer) as (_ & Hst & Hno).
    destruct (Src.got_message self buffer) as [s r]. cbn [fst snd] in *.
    destruct r; try (rewrite Hno by discriminate; reflexivity).
    rewrite Hst by reflexivity. reflexivity.
  - left. unfold Src.got_message_store.
    destruct (Src.message self); [destruct (negb (Src.running self))|];
      reflexivity.
  - left. unfold Src.error_callback.
    destruct (Src.cancellable self); [|destruct (Src.loop self)]; reflexivity.
  - left. unfold Src.control_callback. destruct (_ && _); reflexivity.
  - left. unfold Src.start_play_done.
    destruct (g_task_return_error_if_cancelled task) as [[|] t]; [reflexivity|].
    destruct play_finish; reflexivity.
  - unfold Src.connect_task_done.
    destruct (g_task_propagate_pointer task) as [c e].
    destruct c as [cn|]; cbn [is_some]; [left; reflexivity|].
    unfold Src.send_connect_error. destruct e as [e|].
    + destruct (g_error_matches (Some e) G_IO_ERROR G_IO_ERROR_CANCELLED);
        [left; reflexivity|].
      right. exists task.
      destruct (g_error_matches (Some e) G_IO_ERROR G_IO_ERROR_PERMISSION_DENIED);
        [|destruct (g_error_matches (Some e) G_IO_ERROR
                      G_IO_ERROR_CONNECTION_REFUSED)];
        eexists; (split; [reflexivity|]); (split; [reflexivity|]);
        split; reflexivity.
    + right. exists task.
      eexists; (split; [reflexivity|]); (split; [reflexivity|]);
      split; reflexivity.
Qed.

(** The play sequence from end to end, for a task that is not
    cancelled.  When the connect attempt or the play fails, the source
    posts NOT_AUTHORIZED for a permission error, OPEN_READ for a
    refused connection, nothing for a cancellation and FAILED for any
    other error; it stops running, has no connection and keeps its
    stream id.  When both succeed it has the connection and the stream
    id the server assigned, and posts nothing. *)
Theorem play_sequence_outcome self task c :
  cancelled (task_cancellable task) = false ->
  (forall e play_finish,
      let r := play_sequence self task (inr e) play_finish in
      let self' := Src.connect_task_done (fst r) (snd r) in
      Src.posted self' = Src.posted self ++ posts_for e
      /\ Src.connection self' = None
      /\ Src.running self' = false
      /\ Src.stream_id self' = Src.stream_id self)
  /\ (forall e,
        let r := play_sequence self task (inl c) (inr e) in
        let self' := Src.connect_task_done (fst r) (snd r) in
        Src.posted self' = Src.posted self ++ posts_for e
        /\ Src.connection self' = None
        /\ Src.running self' = false
        /\ Src.stream_id self' = Src.stream_id self)
  /\ (forall id,
        let r := play_sequence self task (inl c) (inl id) in
        let self' := Src.connect_task_done (fst r) (snd r) in
        Src.posted self' = Src.posted self
        /\ Src.connection self' = Some c
        /\ Src.running self' = Src.running self
        /\ Src.stream_id self' = id).
Proof.
  intros Hc.
  assert (Hc' : cancelled (task_cancellable
                             (g_task_set_task_data task (Some c))) = false)
    by exact Hc.
  split; [|split].
  - intros e pf. cbv zeta. unfold play_sequence.
    cbn [Src.client_connect_done fst snd].
    replace (g_task_return_error task e)
      with (g_task_set_task_data (g_task_return_error task e) (task_data task))
      by (destruct task; reflexivity).
    destruct (src_connect_task_done_error self task e (task_data task) Hc)
      as (H1 & H2 & H3 & H4 & _).
    auto.
  - intros e. cbv zeta. unfold play_sequence.
    cbn [Src.client_connect_done].
    rewrite (not_cancelled_continues _ Hc').
    unfold Src.start_play_done. rewrite (not_cancelled_continues _ Hc').
    cbn [fst snd].
    destruct (src_connect_task_done_error self
                (g_task_set_task_data task (Some c)) e None Hc')
      as (H1 & H2 & H3 & H4 & _).
    auto.
  - intros id. cbv zeta. unfold play_sequence.
    cbn [Src.client_connect_done].
    rewrite (not_cancelled_continues _ Hc').
    unfold Src.start_play_done. rewrite (not_cancelled_continues _ Hc').
    cbn [fst snd].
    unfold Src.connect_task_done, g_task_propagate_pointer. cbn.
    rewrite Hc. cbn. auto.
Qed.

(** The server assigns stream 7. *)
Lemma play_sequence_outcome_witness :
  cancelled (task_cancellable (task_with false None)) = false
  /\ Src.stream_id
       (Src.connect_task_done
          (fst (play_sequence playing_src (task_with false None)
                  (inl empty_connection) (inl 7)))
          (snd (play_sequence playing_src (task_with false None)
                  (inl empty_connection) (inl 7))))
     = 7.
Proof.
  split; [reflexivity|].
  destruct (proj2 (proj2 (play_sequence_outcome playing_src
                            (task_with false None) empty_connection eq_refl))
              7) as (_ & _ & _ & H).
  exact H.
Defined.
